(** * Agent workflow orchestrator: a shallow embedding and its properties

    The development follows the sources of the application:
    - [src/App.tsx] and its sibling revision with the results dashboard
      (module [Unified]): several providers, model chosen per agent;
    - the single-provider revision of the application (module [Gemini]);
    - [src/services/apiService.ts] (module [ApiService]).

    ECMAScript built-ins used by the sources ([String.prototype.includes],
    [toLowerCase], [split], [RegExp] matching, [JSON.parse],
    [JSON.stringify]) are modelled in the first modules.  A string is a
    sequence of bytes, read as the UTF-8 form of the script's string; all
    patterns the sources search for are ASCII, so matching on bytes and on
    code units agree. *)

From Stdlib Require Import String Ascii List ZArith Lia Bool DecimalString DecimalZ DecimalPos.
From stdpp Require Import gmap strings list.

Local Open Scope string_scope.
Local Open Scope list_scope.

(** ** Unicode case conversion

    [String.prototype.toLowerCase] converts a string by the lowercase
    conversion of the Unicode Default Case Conversion algorithm: every code
    point is replaced by its lowercase mapping in the Unicode Character
    Database, and a capital sigma in the Final_Sigma context becomes a final
    sigma; code units that are part of no code point stay.  The tables are
    those of Unicode 14.0.  A string is read as UTF-8 here; bytes that are
    part of no well-formed sequence stay as they are. *)

Module Unicode.

Local Open Scope N_scope.

(** One code point of a string, or a byte outside any well-formed sequence. *)
Inductive item : Type :=
| Char (cp : N)
| Raw (b : ascii).

Definition byte (n : N) : string := String (ascii_of_N n) EmptyString.

(** UTF-8 form of a code point. *)
Definition utf8 (cp : N) : string :=
  if cp <? 128 then byte cp
  else if cp <? 2048 then byte (192 + cp / 64) +:+ byte (128 + cp mod 64)
  else if cp <? 65536 then
    byte (224 + cp / 4096) +:+ byte (128 + (cp / 64) mod 64) +:+ byte (128 + cp mod 64)
  else
    byte (240 + cp / 262144) +:+ byte (128 + (cp / 4096) mod 64)
      +:+ byte (128 + (cp / 64) mod 64) +:+ byte (128 + cp mod 64).

(** The six bits that a continuation byte carries. *)
Definition continuation (c : ascii) : option N :=
  let n := N_of_ascii c in
  if (128 <=? n) && (n <? 192) then Some (n - 128) else None.

(** The code point of a two-byte, three-byte and four-byte sequence in
    shortest form. *)
Definition two (a b : ascii) : option N :=
  let n := N_of_ascii a in
  match continuation b with
  | Some x =>
      let cp := (n - 192) * 64 + x in
      if (192 <=? n) && (n <? 224) && (128 <=? cp) then Some cp else None
  | None => None
  end.

Definition three (a b c : ascii) : option N :=
  let n := N_of_ascii a in
  match continuation b, continuation c with
  | Some x, Some y =>
      let cp := ((n - 224) * 64 + x) * 64 + y in
      if (224 <=? n) && (n <? 240) && (2048 <=? cp) then Some cp else None
  | _, _ => None
  end.

Definition four (a b c d : ascii) : option N :=
  let n := N_of_ascii a in
  match continuation b, continuation c, continuation d with
  | Some x, Some y, Some z =>
      let cp := (((n - 240) * 64 + x) * 64 + y) * 64 + z in
      if (240 <=? n) && (n <? 248) && (65536 <=? cp) && (cp <=? 1114111) then Some cp else None
  | _, _, _ => None
  end.

Fixpoint decode (s : string) : list item :=
  match s with
  | EmptyString => []
  | String a r =>
      if N_of_ascii a <? 128 then Char (N_of_ascii a) :: decode r
      else
        match r with
        | String b r1 =>
            match two a b with
            | Some cp => Char cp :: decode r1
            | None =>
                match r1 with
                | String c r2 =>
                    match three a b c with
                    | Some cp => Char cp :: decode r2
                    | None =>
                        match r2 with
                        | String d r3 =>
                            match four a b c d with
                            | Some cp => Char cp :: decode r3
                            | None => Raw a :: decode r
                            end
                        | EmptyString => Raw a :: decode r
                        end
                    end
                | EmptyString => Raw a :: decode r
                end
            end
        | EmptyString => [Raw a]
        end
  end.

Fixpoint encode (l : list item) : string :=
  match l with
  | [] => EmptyString
  | Char cp :: tl => utf8 cp +:+ encode tl
  | Raw b :: tl => String b (encode tl)
  end.

(** The lowercase mappings to one code point, as runs
    [(first, last, step, delta)]: the code points [first], [first + step],
    ... up to [last] map to themselves plus [delta]. *)
Definition lowercase_runs : list (N * N * N * Z) :=
  [(65, 90, 1, 32%Z); (192, 214, 1, 32%Z); (216, 222, 1, 32%Z); (256, 302, 2, 1%Z);
   (306, 310, 2, 1%Z); (313, 327, 2, 1%Z); (330, 374, 2, 1%Z); (376, 376, 1, (-121)%Z);
   (377, 381, 2, 1%Z); (385, 385, 1, 210%Z); (386, 388, 2, 1%Z); (390, 390, 1, 206%Z);
   (391, 391, 1, 1%Z); (393, 394, 1, 205%Z); (395, 395, 1, 1%Z); (398, 398, 1, 79%Z);
   (399, 399, 1, 202%Z); (400, 400, 1, 203%Z); (401, 401, 1, 1%Z); (403, 403, 1, 205%Z);
   (404, 404, 1, 207%Z); (406, 406, 1, 211%Z); (407, 407, 1, 209%Z); (408, 408, 1, 1%Z);
   (412, 412, 1, 211%Z); (413, 413, 1, 213%Z); (415, 415, 1, 214%Z); (416, 420, 2, 1%Z);
   (422, 422, 1, 218%Z); (423, 423, 1, 1%Z); (425, 425, 1, 218%Z); (428, 428, 1, 1%Z);
   (430, 430, 1, 218%Z); (431, 431, 1, 1%Z); (433, 434, 1, 217%Z); (435, 437, 2, 1%Z);
   (439, 439, 1, 219%Z); (440, 440, 1, 1%Z); (444, 444, 1, 1%Z); (452, 452, 1, 2%Z);
   (453, 453, 1, 1%Z); (455, 455, 1, 2%Z); (456, 456, 1, 1%Z); (458, 458, 1, 2%Z);
   (459, 475, 2, 1%Z); (478, 494, 2, 1%Z); (497, 497, 1, 2%Z); (498, 500, 2, 1%Z);
   (502, 502, 1, (-97)%Z); (503, 503, 1, (-56)%Z); (504, 542, 2, 1%Z); (544, 544, 1, (-130)%Z);
   (546, 562, 2, 1%Z); (570, 570, 1, 10795%Z); (571, 571, 1, 1%Z); (573, 573, 1, (-163)%Z);
   (574, 574, 1, 10792%Z); (577, 577, 1, 1%Z); (579, 579, 1, (-195)%Z); (580, 580, 1, 69%Z);
   (581, 581, 1, 71%Z); (582, 590, 2, 1%Z); (880, 882, 2, 1%Z); (886, 886, 1, 1%Z);
   (895, 895, 1, 116%Z); (902, 902, 1, 38%Z); (904, 906, 1, 37%Z); (908, 908, 1, 64%Z);
   (910, 911, 1, 63%Z); (913, 929, 1, 32%Z); (931, 939, 1, 32%Z); (975, 975, 1, 8%Z);
   (984, 1006, 2, 1%Z); (1012, 1012, 1, (-60)%Z); (1015, 1015, 1, 1%Z); (1017, 1017, 1, (-7)%Z);
   (1018, 1018, 1, 1%Z); (1021, 1023, 1, (-130)%Z); (1024, 1039, 1, 80%Z);
   (1040, 1071, 1, 32%Z); (1120, 1152, 2, 1%Z); (1162, 1214, 2, 1%Z); (1216, 1216, 1, 15%Z);
   (1217, 1229, 2, 1%Z); (1232, 1326, 2, 1%Z); (1329, 1366, 1, 48%Z); (4256, 4293, 1, 7264%Z);
   (4295, 4295, 1, 7264%Z); (4301, 4301, 1, 7264%Z); (5024, 5103, 1, 38864%Z);
   (5104, 5109, 1, 8%Z); (7312, 7354, 1, (-3008)%Z); (7357, 7359, 1, (-3008)%Z);
   (7680, 7828, 2, 1%Z); (7838, 7838, 1, (-7615)%Z); (7840, 7934, 2, 1%Z);
   (7944, 7951, 1, (-8)%Z); (7960, 7965, 1, (-8)%Z); (7976, 7983, 1, (-8)%Z);
   (7992, 7999, 1, (-8)%Z); (8008, 8013, 1, (-8)%Z); (8025, 8031, 2, (-8)%Z);
   (8040, 8047, 1, (-8)%Z); (8072, 8079, 1, (-8)%Z); (8088, 8095, 1, (-8)%Z);
   (8104, 8111, 1, (-8)%Z); (8120, 8121, 1, (-8)%Z); (8122, 8123, 1, (-74)%Z);
   (8124, 8124, 1, (-9)%Z); (8136, 8139, 1, (-86)%Z); (8140, 8140, 1, (-9)%Z);
   (8152, 8153, 1, (-8)%Z); (8154, 8155, 1, (-100)%Z); (8168, 8169, 1, (-8)%Z);
   (8170, 8171, 1, (-112)%Z); (8172, 8172, 1, (-7)%Z); (8184, 8185, 1, (-128)%Z);
   (8186, 8187, 1, (-126)%Z); (8188, 8188, 1, (-9)%Z); (8486, 8486, 1, (-7517)%Z);
   (8490, 8490, 1, (-8383)%Z); (8491, 8491, 1, (-8262)%Z); (8498, 8498, 1, 28%Z);
   (8544, 8559, 1, 16%Z); (8579, 8579, 1, 1%Z); (9398, 9423, 1, 26%Z); (11264, 11311, 1, 48%Z);
   (11360, 11360, 1, 1%Z); (11362, 11362, 1, (-10743)%Z); (11363, 11363, 1, (-3814)%Z);
   (11364, 11364, 1, (-10727)%Z); (11367, 11371, 2, 1%Z); (11373, 11373, 1, (-10780)%Z);
   (11374, 11374, 1, (-10749)%Z); (11375, 11375, 1, (-10783)%Z); (11376, 11376, 1, (-10782)%Z);
   (11378, 11378, 1, 1%Z); (11381, 11381, 1, 1%Z); (11390, 11391, 1, (-10815)%Z);
   (11392, 11490, 2, 1%Z); (11499, 11501, 2, 1%Z); (11506, 11506, 1, 1%Z);
   (42560, 42604, 2, 1%Z); (42624, 42650, 2, 1%Z); (42786, 42798, 2, 1%Z);
   (42802, 42862, 2, 1%Z); (42873, 42875, 2, 1%Z); (42877, 42877, 1, (-35332)%Z);
   (42878, 42886, 2, 1%Z); (42891, 42891, 1, 1%Z); (42893, 42893, 1, (-42280)%Z);
   (42896, 42898, 2, 1%Z); (42902, 42920, 2, 1%Z); (42922, 42922, 1, (-42308)%Z);
   (42923, 42923, 1, (-42319)%Z); (42924, 42924, 1, (-42315)%Z); (42925, 42925, 1, (-42305)%Z);
   (42926, 42926, 1, (-42308)%Z); (42928, 42928, 1, (-42258)%Z); (42929, 42929, 1, (-42282)%Z);
   (42930, 42930, 1, (-42261)%Z); (42931, 42931, 1, 928%Z); (42932, 42946, 2, 1%Z);
   (42948, 42948, 1, (-48)%Z); (42949, 42949, 1, (-42307)%Z); (42950, 42950, 1, (-35384)%Z);
   (42951, 42953, 2, 1%Z); (42960, 42960, 1, 1%Z); (42966, 42968, 2, 1%Z);
   (42997, 42997, 1, 1%Z); (65313, 65338, 1, 32%Z); (66560, 66599, 1, 40%Z);
   (66736, 66771, 1, 40%Z); (66928, 66938, 1, 39%Z); (66940, 66954, 1, 39%Z);
   (66956, 66962, 1, 39%Z); (66964, 66965, 1, 39%Z); (68736, 68786, 1, 64%Z);
   (71840, 71871, 1, 32%Z); (93760, 93791, 1, 32%Z); (125184, 125217, 1, 34%Z)].

(** Code points with the property Case_Ignorable, as ranges. *)
Definition case_ignorable_ranges : list (N * N) :=
  [(39, 39); (46, 46); (58, 58); (94, 94); (96, 96); (168, 168); (173, 173); (175, 175);
   (180, 180); (183, 184); (688, 879); (884, 885); (890, 890); (900, 901); (903, 903);
   (1155, 1161); (1369, 1369); (1375, 1375); (1425, 1469); (1471, 1471); (1473, 1474);
   (1476, 1477); (1479, 1479); (1524, 1524); (1536, 1541); (1552, 1562); (1564, 1564);
   (1600, 1600); (1611, 1631); (1648, 1648); (1750, 1757); (1759, 1768); (1770, 1773);
   (1807, 1807); (1809, 1809); (1840, 1866); (1958, 1968); (2027, 2037); (2042, 2042);
   (2045, 2045); (2070, 2093); (2137, 2139); (2184, 2184); (2192, 2193); (2200, 2207);
   (2249, 2306); (2362, 2362); (2364, 2364); (2369, 2376); (2381, 2381); (2385, 2391);
   (2402, 2403); (2417, 2417); (2433, 2433); (2492, 2492); (2497, 2500); (2509, 2509);
   (2530, 2531); (2558, 2558); (2561, 2562); (2620, 2620); (2625, 2626); (2631, 2632);
   (2635, 2637); (2641, 2641); (2672, 2673); (2677, 2677); (2689, 2690); (2748, 2748);
   (2753, 2757); (2759, 2760); (2765, 2765); (2786, 2787); (2810, 2815); (2817, 2817);
   (2876, 2876); (2879, 2879); (2881, 2884); (2893, 2893); (2901, 2902); (2914, 2915);
   (2946, 2946); (3008, 3008); (3021, 3021); (3072, 3072); (3076, 3076); (3132, 3132);
   (3134, 3136); (3142, 3144); (3146, 3149); (3157, 3158); (3170, 3171); (3201, 3201);
   (3260, 3260); (3263, 3263); (3270, 3270); (3276, 3277); (3298, 3299); (3328, 3329);
   (3387, 3388); (3393, 3396); (3405, 3405); (3426, 3427); (3457, 3457); (3530, 3530);
   (3538, 3540); (3542, 3542); (3633, 3633); (3636, 3642); (3654, 3662); (3761, 3761);
   (3764, 3772); (3782, 3782); (3784, 3789); (3864, 3865); (3893, 3893); (3895, 3895);
   (3897, 3897); (3953, 3966); (3968, 3972); (3974, 3975); (3981, 3991); (3993, 4028);
   (4038, 4038); (4141, 4144); (4146, 4151); (4153, 4154); (4157, 4158); (4184, 4185);
   (4190, 4192); (4209, 4212); (4226, 4226); (4229, 4230); (4237, 4237); (4253, 4253);
   (4348, 4348); (4957, 4959); (5906, 5908); (5938, 5939); (5970, 5971); (6002, 6003);
   (6068, 6069); (6071, 6077); (6086, 6086); (6089, 6099); (6103, 6103); (6109, 6109);
   (6155, 6159); (6211, 6211); (6277, 6278); (6313, 6313); (6432, 6434); (6439, 6440);
   (6450, 6450); (6457, 6459); (6679, 6680); (6683, 6683); (6742, 6742); (6744, 6750);
   (6752, 6752); (6754, 6754); (6757, 6764); (6771, 6780); (6783, 6783); (6823, 6823);
   (6832, 6862); (6912, 6915); (6964, 6964); (6966, 6970); (6972, 6972); (6978, 6978);
   (7019, 7027); (7040, 7041); (7074, 7077); (7080, 7081); (7083, 7085); (7142, 7142);
   (7144, 7145); (7149, 7149); (7151, 7153); (7212, 7219); (7222, 7223); (7288, 7293);
   (7376, 7378); (7380, 7392); (7394, 7400); (7405, 7405); (7412, 7412); (7416, 7417);
   (7468, 7530); (7544, 7544); (7579, 7679); (8125, 8125); (8127, 8129); (8141, 8143);
   (8157, 8159); (8173, 8175); (8189, 8190); (8203, 8207); (8216, 8217); (8228, 8228);
   (8231, 8231); (8234, 8238); (8288, 8292); (8294, 8303); (8305, 8305); (8319, 8319);
   (8336, 8348); (8400, 8432); (11388, 11389); (11503, 11505); (11631, 11631); (11647, 11647);
   (11744, 11775); (11823, 11823); (12293, 12293); (12330, 12333); (12337, 12341);
   (12347, 12347); (12441, 12446); (12540, 12542); (40981, 40981); (42232, 42237);
   (42508, 42508); (42607, 42610); (42612, 42621); (42623, 42623); (42652, 42655);
   (42736, 42737); (42752, 42785); (42864, 42864); (42888, 42890); (42994, 42996);
   (43000, 43001); (43010, 43010); (43014, 43014); (43019, 43019); (43045, 43046);
   (43052, 43052); (43204, 43205); (43232, 43249); (43263, 43263); (43302, 43309);
   (43335, 43345); (43392, 43394); (43443, 43443); (43446, 43449); (43452, 43453);
   (43471, 43471); (43493, 43494); (43561, 43566); (43569, 43570); (43573, 43574);
   (43587, 43587); (43596, 43596); (43632, 43632); (43644, 43644); (43696, 43696);
   (43698, 43700); (43703, 43704); (43710, 43711); (43713, 43713); (43741, 43741);
   (43756, 43757); (43763, 43764); (43766, 43766); (43867, 43871); (43881, 43883);
   (44005, 44005); (44008, 44008); (44013, 44013); (64286, 64286); (64434, 64450);
   (65024, 65039); (65043, 65043); (65056, 65071); (65106, 65106); (65109, 65109);
   (65279, 65279); (65287, 65287); (65294, 65294); (65306, 65306); (65342, 65342);
   (65344, 65344); (65392, 65392); (65438, 65439); (65507, 65507); (65529, 65531);
   (66045, 66045); (66272, 66272); (66422, 66426); (67456, 67461); (67463, 67504);
   (67506, 67514); (68097, 68099); (68101, 68102); (68108, 68111); (68152, 68154);
   (68159, 68159); (68325, 68326); (68900, 68903); (69291, 69292); (69446, 69456);
   (69506, 69509); (69633, 69633); (69688, 69702); (69744, 69744); (69747, 69748);
   (69759, 69761); (69811, 69814); (69817, 69818); (69821, 69821); (69826, 69826);
   (69837, 69837); (69888, 69890); (69927, 69931); (69933, 69940); (70003, 70003);
   (70016, 70017); (70070, 70078); (70089, 70092); (70095, 70095); (70191, 70193);
   (70196, 70196); (70198, 70199); (70206, 70206); (70367, 70367); (70371, 70378);
   (70400, 70401); (70459, 70460); (70464, 70464); (70502, 70508); (70512, 70516);
   (70712, 70719); (70722, 70724); (70726, 70726); (70750, 70750); (70835, 70840);
   (70842, 70842); (70847, 70848); (70850, 70851); (71090, 71093); (71100, 71101);
   (71103, 71104); (71132, 71133); (71219, 71226); (71229, 71229); (71231, 71232);
   (71339, 71339); (71341, 71341); (71344, 71349); (71351, 71351); (71453, 71455);
   (71458, 71461); (71463, 71467); (71727, 71735); (71737, 71738); (71995, 71996);
   (71998, 71998); (72003, 72003); (72148, 72151); (72154, 72155); (72160, 72160);
   (72193, 72202); (72243, 72248); (72251, 72254); (72263, 72263); (72273, 72278);
   (72281, 72283); (72330, 72342); (72344, 72345); (72752, 72758); (72760, 72765);
   (72767, 72767); (72850, 72871); (72874, 72880); (72882, 72883); (72885, 72886);
   (73009, 73014); (73018, 73018); (73020, 73021); (73023, 73029); (73031, 73031);
   (73104, 73105); (73109, 73109); (73111, 73111); (73459, 73460); (78896, 78904);
   (92912, 92916); (92976, 92982); (92992, 92995); (94031, 94031); (94095, 94111);
   (94176, 94177); (94179, 94180); (110576, 110579); (110581, 110587); (110589, 110590);
   (113821, 113822); (113824, 113827); (118528, 118573); (118576, 118598); (119143, 119145);
   (119155, 119170); (119173, 119179); (119210, 119213); (119362, 119364); (121344, 121398);
   (121403, 121452); (121461, 121461); (121476, 121476); (121499, 121503); (121505, 121519);
   (122880, 122886); (122888, 122904); (122907, 122913); (122915, 122916); (122918, 122922);
   (123184, 123197); (123566, 123566); (123628, 123631); (125136, 125142); (125252, 125259);
   (127995, 127999); (917505, 917505); (917536, 917631); (917760, 917999)].

(** Code points with the property Cased and without Case_Ignorable. *)
Definition cased_ranges : list (N * N) :=
  [(65, 90); (97, 122); (170, 170); (181, 181); (186, 186); (192, 214); (216, 246); (248, 442);
   (444, 447); (452, 659); (661, 687); (880, 883); (886, 887); (891, 893); (895, 895);
   (902, 902); (904, 906); (908, 908); (910, 929); (931, 1013); (1015, 1153); (1162, 1327);
   (1329, 1366); (1376, 1416); (4256, 4293); (4295, 4295); (4301, 4301); (4304, 4346);
   (4349, 4351); (5024, 5109); (5112, 5117); (7296, 7304); (7312, 7354); (7357, 7359);
   (7424, 7467); (7531, 7543); (7545, 7578); (7680, 7957); (7960, 7965); (7968, 8005);
   (8008, 8013); (8016, 8023); (8025, 8025); (8027, 8027); (8029, 8029); (8031, 8061);
   (8064, 8116); (8118, 8124); (8126, 8126); (8130, 8132); (8134, 8140); (8144, 8147);
   (8150, 8155); (8160, 8172); (8178, 8180); (8182, 8188); (8450, 8450); (8455, 8455);
   (8458, 8467); (8469, 8469); (8473, 8477); (8484, 8484); (8486, 8486); (8488, 8488);
   (8490, 8493); (8495, 8500); (8505, 8505); (8508, 8511); (8517, 8521); (8526, 8526);
   (8544, 8575); (8579, 8580); (9398, 9449); (11264, 11387); (11390, 11492); (11499, 11502);
   (11506, 11507); (11520, 11557); (11559, 11559); (11565, 11565); (42560, 42605);
   (42624, 42651); (42786, 42863); (42865, 42887); (42891, 42894); (42896, 42954);
   (42960, 42961); (42963, 42963); (42965, 42969); (42997, 42998); (43002, 43002);
   (43824, 43866); (43872, 43880); (43888, 43967); (64256, 64262); (64275, 64279);
   (65313, 65338); (65345, 65370); (66560, 66639); (66736, 66771); (66776, 66811);
   (66928, 66938); (66940, 66954); (66956, 66962); (66964, 66965); (66967, 66977);
   (66979, 66993); (66995, 67001); (67003, 67004); (68736, 68786); (68800, 68850);
   (71840, 71903); (93760, 93823); (119808, 119892); (119894, 119964); (119966, 119967);
   (119970, 119970); (119973, 119974); (119977, 119980); (119982, 119993); (119995, 119995);
   (119997, 120003); (120005, 120069); (120071, 120074); (120077, 120084); (120086, 120092);
   (120094, 120121); (120123, 120126); (120128, 120132); (120134, 120134); (120138, 120144);
   (120146, 120485); (120488, 120512); (120514, 120538); (120540, 120570); (120572, 120596);
   (120598, 120628); (120630, 120654); (120656, 120686); (120688, 120712); (120714, 120744);
   (120746, 120770); (120772, 120779); (122624, 122633); (122635, 122654); (125184, 125251);
   (127280, 127305); (127312, 127337); (127344, 127369)].

Definition within (ranges : list (N * N)) (cp : N) : bool :=
  existsb (fun r => (fst r <=? cp) && (cp <=? snd r)) ranges.

Definition in_run (cp : N) (run : N * N * N * Z) : bool :=
  let '(first, last, step, _) := run in
  (first <=? cp) && (cp <=? last) && ((cp - first) mod step =? 0).

Definition simple_lowercase (cp : N) : N :=
  match List.find (in_run cp) lowercase_runs with
  | Some (_, _, _, delta) => Z.to_N (Z.of_N cp + delta)
  | None => cp
  end.

Definition case_ignorable (i : item) : bool :=
  match i with Char cp => within case_ignorable_ranges cp | Raw _ => false end.

Definition cased (i : item) : bool :=
  match i with Char cp => within cased_ranges cp | Raw _ => false end.

(** [l] starts with case-ignorable characters, if any, and then a cased
    letter. *)
Fixpoint before_cased (l : list item) : bool :=
  match l with
  | [] => false
  | i :: tl => if case_ignorable i then before_cased tl else cased i
  end.

(** The lowercase conversion of [l]; [after_cased] says that a cased letter
    and then case-ignorable characters, if any, come right before [l].
    U+03A3 is the capital sigma, U+03C2 the final and U+03C3 the small
    sigma; U+0130, the capital I with dot above, is the one code point whose
    lowercase mapping has two code points. *)
Fixpoint lower_items (after_cased : bool) (l : list item) : list item :=
  match l with
  | [] => []
  | Raw b :: tl => Raw b :: lower_items false tl
  | Char cp :: tl =>
      let lowered :=
        if cp =? 931 then [Char (if after_cased && negb (before_cased tl) then 962 else 963)]
        else if cp =? 304 then [Char 105; Char 775]
        else [Char (simple_lowercase cp)] in
      let after := if case_ignorable (Char cp) then after_cased else cased (Char cp) in
      lowered ++ lower_items after tl
  end.

Definition toLowerCase (s : string) : string := encode (lower_items false (decode s)).

End Unicode.

(** ** ECMAScript strings *)

Module Js.

(** [s.startsWith(p)], also used for matching a literal at a position. *)
Fixpoint startsWith (p s : string) : bool :=
  match p, s with
  | EmptyString, _ => true
  | String a p', String b s' => if Ascii.eqb a b then startsWith p' s' else false
  | String _ _, EmptyString => false
  end.

(** [s.slice(n)]. *)
Fixpoint drop (n : nat) (s : string) : string :=
  match n, s with
  | O, _ => s
  | S n', String _ s' => drop n' s'
  | S _, EmptyString => EmptyString
  end.

(** [hay.includes(needle)]. *)
Fixpoint includes (needle hay : string) : bool :=
  if startsWith needle hay then true
  else match hay with
       | EmptyString => false
       | String _ hay' => includes needle hay'
       end.

(** The text before and after the first occurrence of [pat] in [s]. *)
Fixpoint split_at_first (pat s : string) : option (string * string) :=
  if startsWith pat s then Some (EmptyString, drop (String.length pat) s)
  else match s with
       | EmptyString => None
       | String c s' =>
           match split_at_first pat s' with
           | Some (before, after) => Some (String c before, after)
           | None => None
           end
       end.

(** The prefix of [s] that ends with the last occurrence of [c]. *)
Fixpoint upto_last (c : ascii) (s : string) : option string :=
  match s with
  | EmptyString => None
  | String a s' =>
      match upto_last c s' with
      | Some p => Some (String a p)
      | None => if Ascii.eqb a c then Some (String a EmptyString) else None
      end
  end.

(** [s.toLowerCase()]. *)
Definition toLowerCase (s : string) : string := Unicode.toLowerCase s.

(** [s.split(sep)] for a one-character separator: never empty. *)
Fixpoint split (sep : ascii) (s : string) : list string :=
  match s with
  | EmptyString => [EmptyString]
  | String c s' =>
      if Ascii.eqb c sep then EmptyString :: split sep s'
      else match split sep s' with
           | hd :: tl => String c hd :: tl
           | [] => [String c EmptyString]
           end
  end.

(** Truthiness of a string: [!!s]. *)
Definition truthy (s : string) : bool :=
  match s with EmptyString => false | _ => true end.

(** [a || b] on strings. *)
Definition or_else (a b : string) : string := if truthy a then a else b.

(** Template conversion of an integral number, as in [`${Date.now()}`]. *)
Definition of_integer (z : Z) : string := NilZero.string_of_int (Z.to_int z).

Definition lf : ascii := ascii_of_nat 10.
Definition newline : string := String lf EmptyString.

(** [s] does not contain the character [c]. *)
Fixpoint avoids (c : ascii) (s : string) : bool :=
  match s with
  | EmptyString => true
  | String a s' => negb (Ascii.eqb a c) && avoids c s'
  end.

End Js.

(** ** Regular expressions of the sources

    [text.match(re)] without the [g] flag returns the match at the leftmost
    position of [text] where [re] matches; at one position the alternatives
    of [re] are tried from left to right. *)

Module RegExp.

Definition fence_open : string := "```json" +:+ Js.newline.
Definition fence_close : string := Js.newline +:+ "```".

(** The pattern [```json\n([\s\S]*?)\n```] tried at the start of [s]: the
    lazy group stops at the first closing fence.  Returns group 1. *)
Definition fence_at (s : string) : option string :=
  if Js.startsWith fence_open s
  then option_map fst (Js.split_at_first fence_close (Js.drop (String.length fence_open) s))
  else None.

(** A pattern [o[\s\S]*c] for two characters [o], [c], tried at the start of
    [s]: the greedy star runs to the last [c] of the text.  Returns the
    matched text. *)
Definition span_at (o c : ascii) (s : string) : option string :=
  match s with
  | String a s' => if Ascii.eqb a o then option_map (String a) (Js.upto_last c s') else None
  | EmptyString => None
  end.

(** Leftmost match: positions are tried in order, the end of the text
    included. *)
Fixpoint search {A : Type} (at_pos : string -> option A) (s : string) : option A :=
  match at_pos s with
  | Some m => Some m
  | None => match s with
            | EmptyString => None
            | String _ s' => search at_pos s'
            end
  end.

(** Groups 1 to 3 of a match; [None] is [undefined]. *)
Record Groups : Type := { group1 : option string; group2 : option string; group3 : option string }.

(** [```json\n([\s\S]*?)\n```|({[\s\S]*})|(\[[\s\S]*\])] at one position. *)
Definition json_pattern_at (s : string) : option Groups :=
  match fence_at s with
  | Some interior => Some {| group1 := Some interior; group2 := None; group3 := None |}
  | None =>
      match span_at "{" "}" s with
      | Some obj => Some {| group1 := None; group2 := Some obj; group3 := None |}
      | None =>
          match span_at "[" "]" s with
          | Some arr => Some {| group1 := None; group2 := None; group3 := Some arr |}
          | None => None
          end
      end
  end.

(** Text in which no alternative of [json_pattern_at] can start: it has no
    backquote, no opening brace and no opening bracket. *)
Definition plain (s : string) : bool :=
  Js.avoids "`" s && Js.avoids "{" s && Js.avoids "[" s.

(** [body] in a fenced block tagged json. *)
Definition fenced (body : string) : string := fence_open +:+ body +:+ fence_close.

(** [a || b] on values that are a string or [undefined]. *)
Definition or_undefined (a b : option string) : option string :=
  match a with
  | Some s => if Js.truthy s then a else b
  | None => b
  end.

End RegExp.

(** ** JSON

    Values as [JSON.parse] builds them.  A number is kept as the literal
    that denotes it; of the Number it denotes the sources use only whether
    it is zero ([denotes_zero]).  An object is the list of its properties
    in creation order. *)

Module JSON.

#[local] Unset Elimination Schemes.
Inductive value : Type :=
| JNull
| JBool (b : bool)
| JNumber (literal : string)
| JString (s : string)
| JArray (elements : list value)
| JObject (properties : list (string * value)).
#[local] Set Elimination Schemes.


Definition dquote : ascii := "034"%char.
Definition backslash : ascii := "\"%char.

Definition is_ws (c : ascii) : bool :=
  let n := nat_of_ascii c in
  (n =? 32)%nat || (n =? 9)%nat || (n =? 10)%nat || (n =? 13)%nat.

Fixpoint skip_ws (s : string) : string :=
  match s with
  | String c s' => if is_ws c then skip_ws s' else s
  | EmptyString => EmptyString
  end.

Definition is_digit (c : ascii) : bool :=
  let n := nat_of_ascii c in (48 <=? n)%nat && (n <=? 57)%nat.

(** The longest prefix of digits, and what follows it. *)
Fixpoint span_digits (s : string) : string * string :=
  match s with
  | String c s' =>
      if is_digit c then let (ds, rest) := span_digits s' in (String c ds, rest)
      else (EmptyString, s)
  | EmptyString => (EmptyString, EmptyString)
  end.

(** Exponent part of a number, if one starts [s]. *)
Definition lex_exponent (s : string) : option (string * string) :=
  match s with
  | String e s1 =>
      if Ascii.eqb e "e" || Ascii.eqb e "E" then
        let (sign, s2) :=
          match s1 with
          | String g r => if Ascii.eqb g "+" || Ascii.eqb g "-" then (String g EmptyString, r)
                          else (EmptyString, s1)
          | EmptyString => (EmptyString, s1)
          end in
        let (ds, s3) := span_digits s2 in
        if Js.truthy ds then Some (String e (sign +:+ ds), s3) else None
      else Some (EmptyString, s)
  | EmptyString => Some (EmptyString, s)
  end.

(** Fraction part of a number, if one starts [s]. *)
Definition lex_fraction (s : string) : option (string * string) :=
  match s with
  | String d s1 =>
      if Ascii.eqb d "." then
        let (ds, s2) := span_digits s1 in
        if Js.truthy ds then Some (String d ds, s2) else None
      else Some (EmptyString, s)
  | EmptyString => Some (EmptyString, s)
  end.

(** Integer part: [0] or a digit from 1 to 9 followed by digits. *)
Definition lex_integer (s : string) : option (string * string) :=
  match s with
  | String c s1 =>
      if Ascii.eqb c "0" then Some (String c EmptyString, s1)
      else if is_digit c then let (ds, s2) := span_digits s1 in Some (String c ds, s2)
      else None
  | EmptyString => None
  end.

(** A JSON number at the start of [s]: its literal and the rest. *)
Definition lex_number (s : string) : option (string * string) :=
  let (sign, s0) :=
    match s with
    | String m r => if Ascii.eqb m "-" then (String m EmptyString, r) else (EmptyString, s)
    | EmptyString => (EmptyString, s)
    end in
  match lex_integer s0 with
  | Some (i, s1) =>
      match lex_fraction s1 with
      | Some (f, s2) =>
          match lex_exponent s2 with
          | Some (e, s3) => Some (sign +:+ i +:+ f +:+ e, s3)
          | None => None
          end
      | None => None
      end
  | None => None
  end.

(** *** String literals *)

Definition hex_value (c : ascii) : option N :=
  let n := N_of_ascii c in
  if (48 <=? n)%N && (n <=? 57)%N then Some (n - 48)%N
  else if (97 <=? n)%N && (n <=? 102)%N then Some (n - 87)%N
  else if (65 <=? n)%N && (n <=? 70)%N then Some (n - 55)%N
  else None.

(** The code unit written [\uh1h2h3h4]. *)
Definition hex4 (h1 h2 h3 h4 : ascii) : option N :=
  match hex_value h1, hex_value h2, hex_value h3, hex_value h4 with
  | Some a, Some b, Some c, Some d => Some (((a * 16 + b) * 16 + c) * 16 + d)%N
  | _, _, _, _ => None
  end.

Definition byte (n : N) : string := String (ascii_of_N n) EmptyString.

(** UTF-8 form of a code point (a lone surrogate is encoded like any other
    three-byte code point). *)
Definition utf8 (cp : N) : string :=
  if (cp <? 128)%N then byte cp
  else if (cp <? 2048)%N then byte (192 + cp / 64) +:+ byte (128 + cp mod 64)
  else if (cp <? 65536)%N then
    byte (224 + cp / 4096) +:+ byte (128 + (cp / 64) mod 64) +:+ byte (128 + cp mod 64)
  else
    byte (240 + cp / 262144) +:+ byte (128 + (cp / 4096) mod 64)
      +:+ byte (128 + (cp / 64) mod 64) +:+ byte (128 + cp mod 64).

Definition is_high_surrogate (u : N) : bool := (55296 <=? u)%N && (u <=? 56319)%N.
Definition is_low_surrogate (u : N) : bool := (56320 <=? u)%N && (u <=? 57343)%N.

(** The character a one-letter escape stands for. *)
Definition simple_escape (e : ascii) : option ascii :=
  if Ascii.eqb e dquote then Some dquote
  else if Ascii.eqb e backslash then Some backslash
  else if Ascii.eqb e "/" then Some "/"%char
  else if Ascii.eqb e "b" then Some (ascii_of_nat 8)
  else if Ascii.eqb e "f" then Some (ascii_of_nat 12)
  else if Ascii.eqb e "n" then Some (ascii_of_nat 10)
  else if Ascii.eqb e "r" then Some (ascii_of_nat 13)
  else if Ascii.eqb e "t" then Some (ascii_of_nat 9)
  else None.

(** The text after an opening quote: the string it denotes and what follows
    the closing quote.  Control characters must be escaped; an escaped high
    surrogate directly followed by an escaped low surrogate is one code
    point. *)
Fixpoint lex_string (s : string) : option (string * string) :=
  match s with
  | EmptyString => None
  | String c s1 =>
      if Ascii.eqb c dquote then Some (EmptyString, s1)
      else if Ascii.eqb c backslash then
        match s1 with
        | EmptyString => None
        | String e s2 =>
            if Ascii.eqb e "u" then
              match s2 with
              | String h1 (String h2 (String h3 (String h4 s3))) =>
                  match hex4 h1 h2 h3 h4 with
                  | None => None
                  | Some u =>
                      let single :=
                        match lex_string s3 with
                        | Some (str, rest) => Some (utf8 u +:+ str, rest)
                        | None => None
                        end in
                      if is_high_surrogate u then
                        match s3 with
                        | String b (String v (String l1 (String l2 (String l3 (String l4 s4))))) =>
                            match (if Ascii.eqb b backslash && Ascii.eqb v "u"
                                   then hex4 l1 l2 l3 l4 else None) with
                            | Some w =>
                                if is_low_surrogate w then
                                  match lex_string s4 with
                                  | Some (str, rest) =>
                                      Some (utf8 (65536 + (u - 55296) * 1024 + (w - 56320)) +:+ str, rest)
                                  | None => None
                                  end
                                else single
                            | None => single
                            end
                        | _ => single
                        end
                      else single
                  end
              | _ => None
              end
            else
              match simple_escape e with
              | Some x =>
                  match lex_string s2 with
                  | Some (str, rest) => Some (String x str, rest)
                  | None => None
                  end
              | None => None
              end
        end
      else if (nat_of_ascii c <? 32)%nat then None
      else
        match lex_string s1 with
        | Some (str, rest) => Some (String c str, rest)
        | None => None
        end
  end.

(** *** Values *)

Inductive result (A : Type) : Type :=
| Parsed (a : A) (rest : string)
| SyntaxError
| OutOfFuel.
Arguments Parsed {A} a rest.
Arguments SyntaxError {A}.
Arguments OutOfFuel {A}.

(** The elements of an array after its opening bracket, up to and including
    the closing bracket; [pv] parses one value. *)
Fixpoint parse_elements (pv : string -> result value) (n : nat) (s : string)
  : result (list value) :=
  match n with
  | O => OutOfFuel
  | S n' =>
      match pv s with
      | Parsed v rest =>
          match skip_ws rest with
          | String c rest' =>
              if Ascii.eqb c "," then
                match parse_elements pv n' rest' with
                | Parsed vs r => Parsed (v :: vs) r
                | SyntaxError => SyntaxError
                | OutOfFuel => OutOfFuel
                end
              else if Ascii.eqb c "]" then Parsed [v] rest'
              else SyntaxError
          | EmptyString => SyntaxError
          end
      | SyntaxError => SyntaxError
      | OutOfFuel => OutOfFuel
      end
  end.

(** The members of an object after its opening brace, up to and including
    the closing brace. *)
Fixpoint parse_members (pv : string -> result value) (n : nat) (s : string)
  : result (list (string * value)) :=
  match n with
  | O => OutOfFuel
  | S n' =>
      match skip_ws s with
      | String q s1 =>
          if Ascii.eqb q dquote then
            match lex_string s1 with
            | Some (key, s2) =>
                match skip_ws s2 with
                | String colon s3 =>
                    if Ascii.eqb colon ":" then
                      match pv s3 with
                      | Parsed v rest =>
                          match skip_ws rest with
                          | String c rest' =>
                              if Ascii.eqb c "," then
                                match parse_members pv n' rest' with
                                | Parsed ms r => Parsed ((key, v) :: ms) r
                                | SyntaxError => SyntaxError
                                | OutOfFuel => OutOfFuel
                                end
                              else if Ascii.eqb c "}" then Parsed [(key, v)] rest'
                              else SyntaxError
                          | EmptyString => SyntaxError
                          end
                      | SyntaxError => SyntaxError
                      | OutOfFuel => OutOfFuel
                      end
                    else SyntaxError
                | EmptyString => SyntaxError
                end
            | None => SyntaxError
            end
          else SyntaxError
      | EmptyString => SyntaxError
      end
  end.

(** [obj[k] = v] on the property list: an existing property keeps its place. *)
Fixpoint define_property (k : string) (v : value) (props : list (string * value))
  : list (string * value) :=
  match props with
  | [] => [(k, v)]
  | (k', v') :: tl =>
      if String.eqb k k' then (k', v) :: tl else (k', v') :: define_property k v tl
  end.

(** The object built from members in source order: a repeated key keeps its
    last value. *)
Definition build_object (members : list (string * value)) : list (string * value) :=
  fold_left (fun props kv => define_property (fst kv) (snd kv) props) members [].

(** One JSON value at the start of [s], after optional white space.  [fuel]
    bounds the nesting depth and the number of items of an array or object. *)
Fixpoint parse_value (fuel : nat) (s : string) : result value :=
  match fuel with
  | O => OutOfFuel
  | S f =>
      match skip_ws s with
      | EmptyString => SyntaxError
      | String c s1 =>
          if Ascii.eqb c "{" then
            match skip_ws s1 with
            | String c2 s2 =>
                if Ascii.eqb c2 "}" then Parsed (JObject []) s2
                else
                  match parse_members (parse_value f) f s1 with
                  | Parsed ms r => Parsed (JObject (build_object ms)) r
                  | SyntaxError => SyntaxError
                  | OutOfFuel => OutOfFuel
                  end
            | EmptyString => SyntaxError
            end
          else if Ascii.eqb c "[" then
            match skip_ws s1 with
            | String c2 s2 =>
                if Ascii.eqb c2 "]" then Parsed (JArray []) s2
                else
                  match parse_elements (parse_value f) f s1 with
                  | Parsed vs r => Parsed (JArray vs) r
                  | SyntaxError => SyntaxError
                  | OutOfFuel => OutOfFuel
                  end
            | EmptyString => SyntaxError
            end
          else if Ascii.eqb c dquote then
            match lex_string s1 with
            | Some (str, rest) => Parsed (JString str) rest
            | None => SyntaxError
            end
          else if Js.startsWith "null" (String c s1) then Parsed JNull (Js.drop 4 (String c s1))
          else if Js.startsWith "true" (String c s1) then Parsed (JBool true) (Js.drop 4 (String c s1))
          else if Js.startsWith "false" (String c s1) then Parsed (JBool false) (Js.drop 5 (String c s1))
          else
            match lex_number (String c s1) with
            | Some (lit, rest) => Parsed (JNumber lit) rest
            | None => SyntaxError
            end
      end
  end.

(** [JSON.parse(text)]: [None] when it throws [SyntaxError].  The fuel is
    never exhausted (lemma [parse_value_fuel] below). *)
Definition parse (text : string) : option value :=
  match parse_value (S (String.length text)) text with
  | Parsed v rest => if Js.truthy (skip_ws rest) then None else Some v
  | SyntaxError => None
  | OutOfFuel => None
  end.

(** [JSON.parse(x)] for [x] a string or [undefined]: the argument is first
    converted to a string. *)
Definition parse_any (x : option string) : option value :=
  parse (match x with Some s => s | None => "undefined" end).

(** What a [try { return JSON.parse(..) } catch { return null }] returns. *)
Definition or_null (x : option value) : value :=
  match x with Some v => v | None => JNull end.


(** *** JSON.stringify *)

Definition hex_digit (n : N) : ascii :=
  if (n <? 10)%N then ascii_of_N (48 + n) else ascii_of_N (87 + n).

(** How [JSON.stringify] writes one character of a string. *)
Definition quote_char (c : ascii) : string :=
  let n := N_of_ascii c in
  if Ascii.eqb c dquote then String backslash (String dquote EmptyString)
  else if Ascii.eqb c backslash then String backslash (String backslash EmptyString)
  else if (n =? 8)%N then "\b"
  else if (n =? 12)%N then "\f"
  else if (n =? 10)%N then "\n"
  else if (n =? 13)%N then "\r"
  else if (n =? 9)%N then "\t"
  else if (n <? 32)%N then "\u00" +:+ String (hex_digit (n / 16)) (String (hex_digit (n mod 16)) EmptyString)
  else String c EmptyString.

Fixpoint quote_chars (s : string) : string :=
  match s with
  | EmptyString => EmptyString
  | String c s' => quote_char c +:+ quote_chars s'
  end.

Definition quote (s : string) : string :=
  String dquote (quote_chars s +:+ String dquote EmptyString).

(** [JSON.stringify(v)] without indentation. *)
Fixpoint stringify (v : value) : string :=
  match v with
  | JNull => "null"
  | JBool true => "true"
  | JBool false => "false"
  | JNumber lit => lit
  | JString s => quote s
  | JArray l => "[" +:+ String.concat "," (map stringify l) +:+ "]"
  | JObject ps =>
      "{" +:+ String.concat "," (map (fun kv => quote (fst kv) +:+ ":" +:+ stringify (snd kv)) ps) +:+ "}"
  end.






(** *** Reading values, as the sources do *)

(** [v.name] for a property name that no prototype defines: [None] is
    [undefined].  On [null] the access throws; callers guard it. *)
Fixpoint lookup (k : string) (props : list (string * value)) : option value :=
  match props with
  | [] => None
  | (k', v) :: tl => if String.eqb k k' then Some v else lookup k tl
  end.

Definition get (v : value) (k : string) : option value :=
  match v with
  | JObject ps => lookup k ps
  | _ => None
  end.

(** The number that a string of digits writes. *)
Fixpoint digits_value (acc : N) (ds : string) : N :=
  match ds with
  | EmptyString => acc
  | String c ds' => digits_value (10 * acc + (N_of_ascii c - 48))%N ds'
  end.

(** The exponent after [e] or [E]: an optional sign and digits. *)
Definition exponent_value (s : string) : Z :=
  match s with
  | String g r =>
      if Ascii.eqb g "-" then (- Z.of_N (digits_value 0 (fst (span_digits r))))%Z
      else if Ascii.eqb g "+" then Z.of_N (digits_value 0 (fst (span_digits r)))
      else Z.of_N (digits_value 0 (fst (span_digits s)))
  | EmptyString => 0%Z
  end.

(** The mathematical value of a number literal, sign apart, as a pair
    [(m, e)] that stands for [m * 10 ^ e]: [m] is written by the digits of
    the integer and fraction parts, and [e] is the exponent less the number
    of fraction digits. *)
Definition decimal_of (lit : string) : N * Z :=
  let unsigned :=
    match lit with
    | String m r => if Ascii.eqb m "-" then r else lit
    | EmptyString => lit
    end in
  let (int_digits, s1) := span_digits unsigned in
  let (frac_digits, s2) :=
    match s1 with
    | String d r => if Ascii.eqb d "." then span_digits r else (EmptyString, s1)
    | EmptyString => (EmptyString, s1)
    end in
  let exponent :=
    match s2 with
    | String x r => if Ascii.eqb x "e" || Ascii.eqb x "E" then exponent_value r else 0%Z
    | EmptyString => 0%Z
    end in
  (digits_value 0 (int_digits +:+ frac_digits),
   (exponent - Z.of_nat (String.length frac_digits))%Z).

(** The Number that a literal denotes is zero.  The Number is the binary64
    value nearest to the mathematical value, ties to the even significand:
    it is [+0] or [-0] exactly when the mathematical value is zero or at
    most [2 ^ -1075] in magnitude, half of the least positive Number.  (Past
    20 significant digits the language also lets an engine round the literal
    cut after the 20th digit; the engines round the whole literal.) *)
Definition denotes_zero (lit : string) : bool :=
  let (m, e) := decimal_of lit in
  (m =? 0)%N || ((e <? 0)%Z && (Z.of_N m * 2 ^ 1075 <=? 10 ^ (- e))%Z).

(** [!!v]. *)
Definition truthy (v : value) : bool :=
  match v with
  | JNull => false
  | JBool b => b
  | JNumber lit => negb (denotes_zero lit)
  | JString s => Js.truthy s
  | JArray _ => true
  | JObject _ => true
  end.

(** [!!x] for [x] a value or [undefined]. *)
Definition truthy_opt (x : option value) : bool :=
  match x with Some v => truthy v | None => false end.





End JSON.

(** ** Shared types ([types.ts]) and what crosses the provider boundary *)

Inductive AgentStatus : Type := Pending | Running | Success | Error.

Definition AgentStatus_eqb (a b : AgentStatus) : bool :=
  match a, b with
  | Pending, Pending | Running, Running | Success, Success | Error, Error => true
  | _, _ => false
  end.

Inductive DocumentType : Type := PDF | TXT | EMPTY.

Definition DocumentType_eqb (a b : DocumentType) : bool :=
  match a, b with
  | PDF, PDF | TXT, TXT | EMPTY, EMPTY => true
  | _, _ => false
  end.

(** The [file] handle of a document plays no part in a run and is left out. *)
Record DocumentFile : Type := {
  doc_id : string;
  doc_name : string;
  doc_type : DocumentType;
  content : string
}.

Record Sentiment : Type := { positive : Z; negative : Z; neutral : Z }.

Record AnalysisResult : Type := {
  sentiment : option Sentiment;
  entities : option (list JSON.value)
}.

(** A thrown value.  [api_status] is the [status] of an [OpenAI.APIError]
    and [None] for any other value. *)
Record Thrown : Type := {
  instanceof_Error : bool;
  message : string;
  api_status : option Z
}.

Definition new_Error (msg : string) : Thrown :=
  {| instanceof_Error := true; message := msg; api_status := None |}.

(** The [TypeError] of calling a method that a value does not have, or of
    reading a property of [null]. *)
Definition TypeError : Thrown := new_Error "TypeError".

Inductive Completion (A : Type) : Type :=
| Normal (a : A)
| Throw (e : Thrown).
Arguments Normal {A} a.
Arguments Throw {A} e.

(** The providers: what the [i]-th request of a run answers, given the model
    name ([None] when the model identifier has no second segment) and the
    prompt.  The OpenAI answer is [choices[0]?.message?.content]. *)
Record World : Type := {
  generateContent : nat -> option string -> string -> Completion string;
  chat_completions_create : nat -> option string -> string -> Completion (option string)
}.

(** The prompt both providers receive. *)
Definition fullPrompt (documentContent prompt : string) : string :=
  "DOCUMENT CONTENT:" +:+ Js.newline +:+ "---" +:+ Js.newline +:+ documentContent +:+ Js.newline
    +:+ "---" +:+ Js.newline +:+ Js.newline +:+ "TASK:" +:+ Js.newline +:+ prompt.

(** A template of [DEFAULT_AGENTS]. *)
Record Template : Type := { template_name : string; template_prompt : string }.

(** [analyzeResults], the part that does not depend on the agent record:
    the sentiment histogram read from the structured output of the sentiment
    agent ([None] when there is no such agent). *)
Definition sentiment_of (outputJson : option JSON.value) : Completion (option Sentiment) :=
  match outputJson with
  | None => Normal None
  | Some JSON.JNull => Normal None
  | Some json =>
      if JSON.truthy_opt (JSON.get json "sentiment") then
        match JSON.get json "sentiment" with
        | Some (JSON.JString label) =>
            let s := Js.toLowerCase label in
            if String.eqb s "positive" then Normal (Some {| positive := 1; negative := 0; neutral := 0 |})
            else if String.eqb s "negative" then Normal (Some {| positive := 0; negative := 1; neutral := 0 |})
            else Normal (Some {| positive := 0; negative := 0; neutral := 1 |})
        | _ => Throw TypeError
        end
      else Normal None
  end.

(** [outputJson.filter(e => e.name && e.type)]. *)
Fixpoint filter_entities (l : list JSON.value) : Completion (list JSON.value) :=
  match l with
  | [] => Normal []
  | JSON.JNull :: _ => Throw TypeError
  | e :: tl =>
      match filter_entities tl with
      | Normal kept =>
          if JSON.truthy_opt (JSON.get e "name") && JSON.truthy_opt (JSON.get e "type")
          then Normal (e :: kept) else Normal kept
      | Throw x => Throw x
      end
  end.

Definition entities_of (outputJson : option JSON.value) : Completion (option (list JSON.value)) :=
  match outputJson with
  | Some (JSON.JArray l) =>
      match filter_entities l with
      | Normal kept => Normal (Some kept)
      | Throw x => Throw x
      end
  | _ => Normal None
  end.

(** The test that decides whether an analysis is published. *)
Definition has_data (a : AnalysisResult) : bool :=
  match sentiment a, entities a with
  | Some _, _ => true
  | None, Some (_ :: _) => true
  | None, _ => false
  end.

(** ** The application with several providers ([src/App.tsx]) *)

Module Unified.

Record Agent : Type := {
  id : string;
  name : string;
  prompt : string;
  model : string;
  status : AgentStatus;
  output : option string;
  error : option string;
  outputJson : JSON.value
}.

(** [MODEL_OPTIONS[0].value]. *)
Definition default_model : string := "gemini/gemini-2.5-flash".

(** Component state read or written by the operations below, and the two
    module-level clients ([Some key] once initialised with [key]). *)
Record State : Type := {
  envGeminiApiKey : string;
  envOpenAIApiKey : string;
  userGeminiApiKey : string;
  userOpenAIApiKey : string;
  isApiKeyModalOpen : bool;
  apiKeyError : string;
  geminiAI : option string;
  openai : option string;
  documentFile : DocumentFile;
  agents : list Agent;
  isProcessing : bool;
  analysisResult : option AnalysisResult;
  activeTab : string
}.

Definition setUserGeminiApiKey (v : string) (st : State) : State :=
  {| envGeminiApiKey := envGeminiApiKey st; envOpenAIApiKey := envOpenAIApiKey st;
     userGeminiApiKey := v; userOpenAIApiKey := userOpenAIApiKey st;
     isApiKeyModalOpen := isApiKeyModalOpen st; apiKeyError := apiKeyError st;
     geminiAI := geminiAI st; openai := openai st; documentFile := documentFile st;
     agents := agents st; isProcessing := isProcessing st;
     analysisResult := analysisResult st; activeTab := activeTab st |}.

Definition setUserOpenAIApiKey (v : string) (st : State) : State :=
  {| envGeminiApiKey := envGeminiApiKey st; envOpenAIApiKey := envOpenAIApiKey st;
     userGeminiApiKey := userGeminiApiKey st; userOpenAIApiKey := v;
     isApiKeyModalOpen := isApiKeyModalOpen st; apiKeyError := apiKeyError st;
     geminiAI := geminiAI st; openai := openai st; documentFile := documentFile st;
     agents := agents st; isProcessing := isProcessing st;
     analysisResult := analysisResult st; activeTab := activeTab st |}.

Definition setIsApiKeyModalOpen (v : bool) (st : State) : State :=
  {| envGeminiApiKey := envGeminiApiKey st; envOpenAIApiKey := envOpenAIApiKey st;
     userGeminiApiKey := userGeminiApiKey st; userOpenAIApiKey := userOpenAIApiKey st;
     isApiKeyModalOpen := v; apiKeyError := apiKeyError st;
     geminiAI := geminiAI st; openai := openai st; documentFile := documentFile st;
     agents := agents st; isProcessing := isProcessing st;
     analysisResult := analysisResult st; activeTab := activeTab st |}.

Definition setApiKeyError (v : string) (st : State) : State :=
  {| envGeminiApiKey := envGeminiApiKey st; envOpenAIApiKey := envOpenAIApiKey st;
     userGeminiApiKey := userGeminiApiKey st; userOpenAIApiKey := userOpenAIApiKey st;
     isApiKeyModalOpen := isApiKeyModalOpen st; apiKeyError := v;
     geminiAI := geminiAI st; openai := openai st; documentFile := documentFile st;
     agents := agents st; isProcessing := isProcessing st;
     analysisResult := analysisResult st; activeTab := activeTab st |}.

Definition setAgents (v : list Agent) (st : State) : State :=
  {| envGeminiApiKey := envGeminiApiKey st; envOpenAIApiKey := envOpenAIApiKey st;
     userGeminiApiKey := userGeminiApiKey st; userOpenAIApiKey := userOpenAIApiKey st;
     isApiKeyModalOpen := isApiKeyModalOpen st; apiKeyError := apiKeyError st;
     geminiAI := geminiAI st; openai := openai st; documentFile := documentFile st;
     agents := v; isProcessing := isProcessing st;
     analysisResult := analysisResult st; activeTab := activeTab st |}.

Definition setIsProcessing (v : bool) (st : State) : State :=
  {| envGeminiApiKey := envGeminiApiKey st; envOpenAIApiKey := envOpenAIApiKey st;
     userGeminiApiKey := userGeminiApiKey st; userOpenAIApiKey := userOpenAIApiKey st;
     isApiKeyModalOpen := isApiKeyModalOpen st; apiKeyError := apiKeyError st;
     geminiAI := geminiAI st; openai := openai st; documentFile := documentFile st;
     agents := agents st; isProcessing := v;
     analysisResult := analysisResult st; activeTab := activeTab st |}.

Definition setAnalysisResult (v : option AnalysisResult) (st : State) : State :=
  {| envGeminiApiKey := envGeminiApiKey st; envOpenAIApiKey := envOpenAIApiKey st;
     userGeminiApiKey := userGeminiApiKey st; userOpenAIApiKey := userOpenAIApiKey st;
     isApiKeyModalOpen := isApiKeyModalOpen st; apiKeyError := apiKeyError st;
     geminiAI := geminiAI st; openai := openai st; documentFile := documentFile st;
     agents := agents st; isProcessing := isProcessing st;
     analysisResult := v; activeTab := activeTab st |}.

Definition setActiveTab (v : string) (st : State) : State :=
  {| envGeminiApiKey := envGeminiApiKey st; envOpenAIApiKey := envOpenAIApiKey st;
     userGeminiApiKey := userGeminiApiKey st; userOpenAIApiKey := userOpenAIApiKey st;
     isApiKeyModalOpen := isApiKeyModalOpen st; apiKeyError := apiKeyError st;
     geminiAI := geminiAI st; openai := openai st; documentFile := documentFile st;
     agents := agents st; isProcessing := isProcessing st;
     analysisResult := analysisResult st; activeTab := v |}.

Definition setDocumentFile (v : DocumentFile) (st : State) : State :=
  {| envGeminiApiKey := envGeminiApiKey st; envOpenAIApiKey := envOpenAIApiKey st;
     userGeminiApiKey := userGeminiApiKey st; userOpenAIApiKey := userOpenAIApiKey st;
     isApiKeyModalOpen := isApiKeyModalOpen st; apiKeyError := apiKeyError st;
     geminiAI := geminiAI st; openai := openai st; documentFile := v;
     agents := agents st; isProcessing := isProcessing st;
     analysisResult := analysisResult st; activeTab := activeTab st |}.

(** [envKey || userKey]. *)
Definition effectiveGeminiApiKey (st : State) : string :=
  Js.or_else (envGeminiApiKey st) (userGeminiApiKey st).
Definition effectiveOpenAIApiKey (st : State) : string :=
  Js.or_else (envOpenAIApiKey st) (userOpenAIApiKey st).

Definition isGeminiKeySet (st : State) : bool := Js.truthy (effectiveGeminiApiKey st).
Definition isOpenAIKeySet (st : State) : bool := Js.truthy (effectiveOpenAIApiKey st).

(** What a run lets the outside observe, in order. *)
Inductive Event : Type :=
| Rendered (agents : list Agent)
| Invoked (agent : Agent) (documentContent : string)
| Requested (provider : string) (modelName : option string) (prompt : string).

(** [agent.model.split('/')], destructured into provider and model name. *)
Definition provider_of (model : string) : string := List.hd EmptyString (Js.split "/" model).
Definition modelName_of (model : string) : option string := nth_error (Js.split "/" model) 1.

Definition unifiedProcessAgentPrompt (w : World) (i : nat) (gemini_client openai_client : option string)
    (agent : Agent) (documentContent : string) : Completion string * list Event :=
  let provider := provider_of (model agent) in
  let modelName := modelName_of (model agent) in
  let fullPrompt := fullPrompt documentContent (prompt agent) in
  if String.eqb provider "gemini" then
    match gemini_client with
    | None => (Throw (new_Error "Gemini API key is not configured."), [])
    | Some _ =>
        match generateContent w i modelName fullPrompt with
        | Normal text => (Normal text, [Requested provider modelName fullPrompt])
        | Throw error =>
            if instanceof_Error error
               && (Js.includes "API key not valid" (message error) || Js.includes "403" (message error))
            then (Throw (new_Error "The provided Gemini API key is not valid. Please check it."),
                  [Requested provider modelName fullPrompt])
            else (Throw (new_Error "Failed to get response from Gemini API."),
                  [Requested provider modelName fullPrompt])
        end
    end
  else if String.eqb provider "openai" then
    match openai_client with
    | None => (Throw (new_Error "OpenAI API key is not configured."), [])
    | Some _ =>
        match chat_completions_create w i modelName fullPrompt with
        | Normal content =>
            (Normal (match content with Some c => c | None => EmptyString end),
             [Requested provider modelName fullPrompt])
        | Throw error =>
            match api_status error with
            | Some 401%Z =>
                (Throw (new_Error "The provided OpenAI API key is not valid. Please check it."),
                 [Requested provider modelName fullPrompt])
            | _ => (Throw (new_Error "Failed to get response from OpenAI API."),
                    [Requested provider modelName fullPrompt])
            end
        end
    end
  else (Throw (new_Error ("Unsupported provider: " +:+ provider)), []).

(** [addAgent(template)] when [Date.now()] reads [now]. *)
Definition addAgent (now : Z) (template : Template) (st : State) : State :=
  let newAgent :=
    {| id := "agent-" +:+ Js.of_integer now;
       name := template_name template;
       prompt := template_prompt template;
       model := default_model;
       status := Pending;
       output := None; error := None; outputJson := JSON.JNull |} in
  setAgents (agents st ++ [newAgent]) st.

Inductive Field : Type := field_prompt | field_model.

Definition handleAgentChange (i : string) (field : Field) (v : string) (st : State) : State :=
  setAgents
    (map (fun agent =>
            if String.eqb (id agent) i then
              match field with
              | field_prompt =>
                  {| id := id agent; name := name agent; prompt := v; model := model agent;
                     status := status agent; output := output agent; error := error agent;
                     outputJson := outputJson agent |}
              | field_model =>
                  {| id := id agent; name := name agent; prompt := prompt agent; model := v;
                     status := status agent; output := output agent; error := error agent;
                     outputJson := outputJson agent |}
              end
            else agent)
         (agents st)) st.

Definition handleDeleteAgent (i : string) (st : State) : State :=
  setAgents (List.filter (fun agent => negb (String.eqb (id agent) i)) (agents st)) st.

(** [parseJsonOutput]: the [try] block returns what [JSON.parse] returns on
    [jsonMatch ? jsonMatch[1] : text], the [catch] block returns [null]. *)
Definition candidate (text : string) : string :=
  let jsonMatch := RegExp.search RegExp.fence_at text in
  match jsonMatch with Some group1 => group1 | None => text end.

Definition parseJsonOutput (text : string) : JSON.value :=
  JSON.or_null (JSON.parse (candidate text)).

(** The object spreads of [runWorkflow]. *)
Definition reset (a : Agent) : Agent :=
  {| id := id a; name := name a; prompt := prompt a; model := model a;
     status := Pending; output := None; error := None; outputJson := JSON.JNull |}.

Definition running (a : Agent) : Agent :=
  {| id := id a; name := name a; prompt := prompt a; model := model a;
     status := Running; output := output a; error := error a; outputJson := outputJson a |}.

Definition succeeded (out : string) (json : JSON.value) (a : Agent) : Agent :=
  {| id := id a; name := name a; prompt := prompt a; model := model a;
     status := Success; output := Some out; error := error a; outputJson := json |}.

Definition failed (errorMessage : string) (a : Agent) : Agent :=
  {| id := id a; name := name a; prompt := prompt a; model := model a;
     status := Error; output := output a; error := Some errorMessage; outputJson := outputJson a |}.

(** [currentAgents.map(a => a.id === agent.id ? f(a) : a)]. *)
Definition update (agent : Agent) (f : Agent -> Agent) (currentAgents : list Agent) : list Agent :=
  map (fun a => if String.eqb (id a) (id agent) then f a else a) currentAgents.

(** The [catch] block of the loop, up to the state of the keys. *)
Definition on_error (errorMessage : string) (st : State) : State :=
  if Js.includes "API key" errorMessage then
    let st1 := setIsApiKeyModalOpen true (setApiKeyError errorMessage st) in
    let st2 := if Js.includes "gemini" (Js.toLowerCase errorMessage)
               then setUserGeminiApiKey EmptyString st1 else st1 in
    if Js.includes "openai" (Js.toLowerCase errorMessage)
    then setUserOpenAIApiKey EmptyString st2 else st2
  else st.

(** The [for (const agent of agents)] loop from its [i]-th iteration on:
    [todo] is what remains of the captured [agents], [currentAgents] the
    local list.  Returns the final [currentAgents], the state and the events. *)
Fixpoint run_loop (w : World) (i : nat) (todo : list Agent) (currentAgents : list Agent)
    (st : State) : list Agent * State * list Event :=
  match todo with
  | [] => (currentAgents, st, [])
  | agent :: rest =>
      let current1 := update agent running currentAgents in
      let st1 := setAgents current1 st in
      let (outcome, requests) :=
        unifiedProcessAgentPrompt w i (geminiAI st) (openai st) agent (content (documentFile st)) in
      let before := Rendered current1 :: Invoked agent (content (documentFile st)) :: requests in
      match outcome with
      | Normal out =>
          let json := parseJsonOutput out in
          let current2 := update agent (succeeded out json) current1 in
          let st2 := setAgents current2 st1 in
          let '(final, st3, events) := run_loop w (S i) rest current2 st2 in
          (final, st3, before ++ Rendered current2 :: events)
      | Throw e =>
          let errorMessage :=
            if instanceof_Error e then message e else "An unknown error occurred" in
          let st2 := on_error errorMessage st1 in
          let current2 := update agent (failed errorMessage) current1 in
          (current2, setAgents current2 st2, before ++ [Rendered current2])
      end
  end.

(** The provider preconditions of [runWorkflow]: the message of the first
    one that fails. *)
Definition missing_key (st : State) : option string :=
  let requiredProviders : gset string :=
    list_to_set (map (fun a => provider_of (model a)) (agents st)) in
  if bool_decide ("gemini" ∈ requiredProviders) && negb (isGeminiKeySet st)
  then Some "A Gemini API key is required for this workflow."
  else if bool_decide ("openai" ∈ requiredProviders) && negb (isOpenAIKeySet st)
  then Some "An OpenAI API key is required for this workflow."
  else None.

(** [runWorkflow] of [src/App.tsx]. *)
Definition runWorkflow (w : World) (st : State) : State * list Event :=
  match missing_key st with
  | Some msg => (setIsApiKeyModalOpen true (setApiKeyError msg st), [])
  | None =>
      let st1 := setAnalysisResult None (setIsProcessing true st) in
      let currentAgents := map reset (agents st) in
      let st2 := setAgents currentAgents st1 in
      let '(_, st3, events) := run_loop w 0 (agents st) currentAgents st2 in
      (setIsProcessing false st3, Rendered currentAgents :: events)
  end.

(** [analyzeResults] of the revision with the results dashboard. *)
Definition sentiment_role (a : Agent) : bool :=
  String.eqb (name a) "Sentiment Analyzer" && AgentStatus_eqb (status a) Success.
Definition entity_role (a : Agent) : bool :=
  String.eqb (name a) "Entity Extractor" && AgentStatus_eqb (status a) Success.

Definition analyzeResults (currentAgents : list Agent) (st : State) : Completion State :=
  let sentimentAgent := List.find sentiment_role currentAgents in
  let entityAgent := List.find entity_role currentAgents in
  match sentiment_of (option_map outputJson sentimentAgent) with
  | Throw e => Throw e
  | Normal s =>
      match entities_of (option_map outputJson entityAgent) with
      | Throw e => Throw e
      | Normal es =>
          let newAnalysis := {| sentiment := s; entities := es |} in
          if has_data newAnalysis
          then Normal (setActiveTab "dashboard" (setAnalysisResult (Some newAnalysis) st))
          else Normal st
      end
  end.

(** [runWorkflow] of that revision: the same run followed by
    [analyzeResults]; an exception of [analyzeResults] leaves the run
    unfinished ([isProcessing] stays set). *)
Definition runWorkflow_analyzed (w : World) (st : State) : State * list Event * option Thrown :=
  match missing_key st with
  | Some msg => (setIsApiKeyModalOpen true (setApiKeyError msg st), [], None)
  | None =>
      let st1 := setAnalysisResult None (setIsProcessing true st) in
      let currentAgents := map reset (agents st) in
      let st2 := setAgents currentAgents st1 in
      let '(final, st3, events) := run_loop w 0 (agents st) currentAgents st2 in
      match analyzeResults final st3 with
      | Normal st4 => (setIsProcessing false st4, Rendered currentAgents :: events, None)
      | Throw e => (st3, Rendered currentAgents :: events, Some e)
      end
  end.

(** The state after the first render, from the [useState] initial values:
    no document, no agent, and a client for every provider whose effective
    key is set. *)
Definition initial (envGemini envOpenAI userGemini userOpenAI : string) : State :=
  {| envGeminiApiKey := envGemini; envOpenAIApiKey := envOpenAI;
     userGeminiApiKey := userGemini; userOpenAIApiKey := userOpenAI;
     isApiKeyModalOpen := false; apiKeyError := EmptyString;
     geminiAI := if Js.truthy (Js.or_else envGemini userGemini)
                 then Some (Js.or_else envGemini userGemini) else None;
     openai := if Js.truthy (Js.or_else envOpenAI userOpenAI)
               then Some (Js.or_else envOpenAI userOpenAI) else None;
     documentFile := {| doc_id := "initial"; doc_name := "No document loaded";
                        doc_type := EMPTY; content := EmptyString |};
     agents := []; isProcessing := false; analysisResult := None; activeTab := "workflow" |}.

(** Some agent of the registry names provider [p]. *)
Definition requires (st : State) (p : string) : Prop :=
  In p (map (fun a => provider_of (model a)) (agents st)).

(** The messages of [unifiedProcessAgentPrompt] for a rejected key. *)
Definition invalid_gemini_key : string :=
  "The provided Gemini API key is not valid. Please check it.".
Definition invalid_openai_key : string :=
  "The provided OpenAI API key is not valid. Please check it.".

(** *** Observations on a run *)

(** The prompts sent to the providers, in order. *)
Fixpoint prompts (events : list Event) : list string :=
  match events with
  | [] => []
  | Requested _ _ p :: tl => p :: prompts tl
  | _ :: tl => prompts tl
  end.

(** The agents handed to [unifiedProcessAgentPrompt], in order. *)
Fixpoint invoked (events : list Event) : list Agent :=
  match events with
  | [] => []
  | Invoked a _ :: tl => a :: invoked tl
  | _ :: tl => invoked tl
  end.

(** The prompt built for [a] from the document of [st]. *)
Definition prompt_for (st : State) (a : Agent) : string :=
  fullPrompt (content (documentFile st)) (prompt a).

Definition no_error (l : list Agent) : Prop := Forall (fun a => status a <> Error) l.
Definition all_success (l : list Agent) : Prop := Forall (fun a => status a = Success) l.

(** An agent as [reset] leaves it. *)
Definition untouched (b : Agent) : Prop :=
  status b = Pending /\ output b = None /\ error b = None /\ outputJson b = JSON.JNull.

(** The outcome of the loop on [todo], entered with [done] already processed:
    either every agent succeeded, or the loop stopped at the first failure and
    left the rest as the reset made them. *)
Inductive loop_outcome (done todo final : list Agent) (events : list Event) : Prop :=
| completed (succ : list Agent) :
    final = done ++ succ -> length succ = length todo -> all_success succ ->
    (forall l, In (Rendered l) events -> no_error l) ->
    invoked events = todo ->
    loop_outcome done todo final events
| stopped (t1 t2 succ : list Agent) (agent : Agent) (msg : string) :
    todo = t1 ++ agent :: t2 ->
    final = (done ++ succ) ++ failed msg (running (reset agent)) :: map reset t2 ->
    length succ = length t1 -> all_success succ ->
    (forall l, In (Rendered l) events -> l = final \/ no_error l) ->
    invoked events = t1 ++ [agent] ->
    loop_outcome done todo final events.

End Unified.

(** ** [src/services/apiService.ts] *)

Module ApiService.

Definition processAgentPrompt (w : World) (i : nat) (gemini_client openai_client : option string)
    (agent : Unified.Agent) (documentContent : string) : Completion string * list Unified.Event :=
  let provider := Unified.provider_of (Unified.model agent) in
  let modelName := Unified.modelName_of (Unified.model agent) in
  let fullPrompt := fullPrompt documentContent (Unified.prompt agent) in
  if String.eqb provider "gemini" then
    match gemini_client with
    | None => (Throw (new_Error "Gemini API key is not configured."), [])
    | Some _ =>
        match generateContent w i modelName fullPrompt with
        | Normal text => (Normal text, [Unified.Requested provider modelName fullPrompt])
        | Throw error =>
            if instanceof_Error error
               && (Js.includes "API key not valid" (message error) || Js.includes "403" (message error))
            then (Throw (new_Error "The provided Gemini API key is not valid. Please check it."),
                  [Unified.Requested provider modelName fullPrompt])
            else (Throw (new_Error "Failed to get response from Gemini API."),
                  [Unified.Requested provider modelName fullPrompt])
        end
    end
  else if String.eqb provider "openai" then
    match openai_client with
    | None => (Throw (new_Error "OpenAI API key is not configured."), [])
    | Some _ =>
        match chat_completions_create w i modelName fullPrompt with
        | Normal content =>
            (Normal (match content with Some c => c | None => EmptyString end),
             [Unified.Requested provider modelName fullPrompt])
        | Throw error =>
            match api_status error with
            | Some 401%Z =>
                (Throw (new_Error "The provided OpenAI API key is not valid. Please check it."),
                 [Unified.Requested provider modelName fullPrompt])
            | _ => (Throw (new_Error "Failed to get response from OpenAI API."),
                    [Unified.Requested provider modelName fullPrompt])
            end
        end
    end
  else (Throw (new_Error ("Unsupported provider: " +:+ provider)), []).

End ApiService.

(** ** The application with one provider *)

Module Gemini.

Record Agent : Type := {
  id : string;
  name : string;
  prompt : string;
  status : AgentStatus;
  output : option string;
  error : option string;
  outputJson : JSON.value
}.

(** Component state and the module-level client [ai]. *)
Record State : Type := {
  envApiKey : string;
  userApiKey : string;
  apiKeyError : string;
  ai : option string;
  documentFile : DocumentFile;
  agents : list Agent;
  isProcessing : bool;
  analysisResult : option AnalysisResult;
  activeTab : string
}.

Definition setUserApiKey (v : string) (st : State) : State :=
  {| envApiKey := envApiKey st; userApiKey := v; apiKeyError := apiKeyError st; ai := ai st;
     documentFile := documentFile st; agents := agents st; isProcessing := isProcessing st;
     analysisResult := analysisResult st; activeTab := activeTab st |}.

Definition setApiKeyError (v : string) (st : State) : State :=
  {| envApiKey := envApiKey st; userApiKey := userApiKey st; apiKeyError := v; ai := ai st;
     documentFile := documentFile st; agents := agents st; isProcessing := isProcessing st;
     analysisResult := analysisResult st; activeTab := activeTab st |}.

Definition setAgents (v : list Agent) (st : State) : State :=
  {| envApiKey := envApiKey st; userApiKey := userApiKey st; apiKeyError := apiKeyError st;
     ai := ai st; documentFile := documentFile st; agents := v; isProcessing := isProcessing st;
     analysisResult := analysisResult st; activeTab := activeTab st |}.

Definition setIsProcessing (v : bool) (st : State) : State :=
  {| envApiKey := envApiKey st; userApiKey := userApiKey st; apiKeyError := apiKeyError st;
     ai := ai st; documentFile := documentFile st; agents := agents st; isProcessing := v;
     analysisResult := analysisResult st; activeTab := activeTab st |}.

Definition setAnalysisResult (v : option AnalysisResult) (st : State) : State :=
  {| envApiKey := envApiKey st; userApiKey := userApiKey st; apiKeyError := apiKeyError st;
     ai := ai st; documentFile := documentFile st; agents := agents st;
     isProcessing := isProcessing st; analysisResult := v; activeTab := activeTab st |}.

Definition setActiveTab (v : string) (st : State) : State :=
  {| envApiKey := envApiKey st; userApiKey := userApiKey st; apiKeyError := apiKeyError st;
     ai := ai st; documentFile := documentFile st; agents := agents st;
     isProcessing := isProcessing st; analysisResult := analysisResult st; activeTab := v |}.

Definition setDocumentFile (v : DocumentFile) (st : State) : State :=
  {| envApiKey := envApiKey st; userApiKey := userApiKey st; apiKeyError := apiKeyError st;
     ai := ai st; documentFile := v; agents := agents st;
     isProcessing := isProcessing st; analysisResult := analysisResult st;
     activeTab := activeTab st |}.

Definition effectiveApiKey (st : State) : string := Js.or_else (envApiKey st) (userApiKey st).
Definition isApiKeySet (st : State) : bool := Js.truthy (effectiveApiKey st).

Inductive Event : Type :=
| Rendered (agents : list Agent)
| Invoked (prompt : string) (documentContent : string)
| Requested (modelName : string) (prompt : string)
| Alerted (msg : string).

Definition processAgentPrompt (w : World) (i : nat) (client : option string)
    (prompt documentContent : string) : Completion string * list Event :=
  match client with
  | None => (Throw (new_Error "Gemini API key is not configured. Please set it first."), [])
  | Some _ =>
      let fullPrompt := fullPrompt documentContent prompt in
      match generateContent w i (Some "gemini-2.5-flash") fullPrompt with
      | Normal text => (Normal text, [Requested "gemini-2.5-flash" fullPrompt])
      | Throw error =>
          if instanceof_Error error && Js.includes "API key not valid" (message error)
          then (Throw (new_Error "The provided API key is not valid. Please check it and try again."),
                [Requested "gemini-2.5-flash" fullPrompt])
          else (Throw (new_Error "Failed to get response from Gemini API."),
                [Requested "gemini-2.5-flash" fullPrompt])
      end
  end.

(** [addAgent(template)] when [Date.now()] reads [now]. *)
Definition addAgent (now : Z) (template : Template) (st : State) : State :=
  let newAgent :=
    {| id := "agent-" +:+ Js.of_integer now;
       name := template_name template;
       prompt := template_prompt template;
       status := Pending;
       output := None; error := None; outputJson := JSON.JNull |} in
  setAgents (agents st ++ [newAgent]) st.

Definition handlePromptChange (i : string) (p : string) (st : State) : State :=
  setAgents
    (map (fun agent =>
            if String.eqb (id agent) i then
              {| id := id agent; name := name agent; prompt := p; status := status agent;
                 output := output agent; error := error agent; outputJson := outputJson agent |}
            else agent)
         (agents st)) st.

Definition handleDeleteAgent (i : string) (st : State) : State :=
  setAgents (List.filter (fun agent => negb (String.eqb (id agent) i)) (agents st)) st.

(** The string handed to [JSON.parse] ([None] is [undefined]): groups 1 to
    3 of the match joined by [||], or the whole text without a match. *)
Definition jsonString (text : string) : option string :=
  match RegExp.search RegExp.json_pattern_at text with
  | Some jsonMatch =>
      RegExp.or_undefined
        (RegExp.or_undefined (RegExp.group1 jsonMatch) (RegExp.group2 jsonMatch))
        (RegExp.group3 jsonMatch)
  | None => Some text
  end.

(** [parseJsonOutput]: the [catch] block returns [null]. *)
Definition parseJsonOutput (text : string) : JSON.value :=
  JSON.or_null (JSON.parse_any (jsonString text)).

Definition sentiment_role (a : Agent) : bool :=
  String.eqb (name a) "Sentiment Analyzer" && AgentStatus_eqb (status a) Success.
Definition entity_role (a : Agent) : bool :=
  String.eqb (name a) "Entity Extractor" && AgentStatus_eqb (status a) Success.

Definition analyzeResults (currentAgents : list Agent) (st : State) : Completion State :=
  let sentimentAgent := List.find sentiment_role currentAgents in
  let entityAgent := List.find entity_role currentAgents in
  match sentiment_of (option_map outputJson sentimentAgent) with
  | Throw e => Throw e
  | Normal s =>
      match entities_of (option_map outputJson entityAgent) with
      | Throw e => Throw e
      | Normal es =>
          let newAnalysis := {| sentiment := s; entities := es |} in
          if has_data newAnalysis
          then Normal (setActiveTab "dashboard" (setAnalysisResult (Some newAnalysis) st))
          else Normal st
      end
  end.

Definition reset (a : Agent) : Agent :=
  {| id := id a; name := name a; prompt := prompt a;
     status := Pending; output := None; error := None; outputJson := JSON.JNull |}.

Definition running (a : Agent) : Agent :=
  {| id := id a; name := name a; prompt := prompt a;
     status := Running; output := output a; error := error a; outputJson := outputJson a |}.

Definition succeeded (out : string) (json : JSON.value) (a : Agent) : Agent :=
  {| id := id a; name := name a; prompt := prompt a;
     status := Success; output := Some out; error := error a; outputJson := json |}.

Definition failed (errorMessage : string) (a : Agent) : Agent :=
  {| id := id a; name := name a; prompt := prompt a;
     status := Error; output := output a; error := Some errorMessage; outputJson := outputJson a |}.

Definition update (agent : Agent) (f : Agent -> Agent) (currentAgents : list Agent) : list Agent :=
  map (fun a => if String.eqb (id a) (id agent) then f a else a) currentAgents.

Definition on_error (errorMessage : string) (st : State) : State :=
  if Js.includes "API key" errorMessage
  then setUserApiKey EmptyString (setApiKeyError errorMessage st)
  else st.

Fixpoint run_loop (w : World) (i : nat) (todo : list Agent) (currentAgents : list Agent)
    (st : State) : list Agent * State * list Event :=
  match todo with
  | [] => (currentAgents, st, [])
  | agent :: rest =>
      let current1 := update agent running currentAgents in
      let st1 := setAgents current1 st in
      let (outcome, requests) :=
        processAgentPrompt w i (ai st) (prompt agent) (content (documentFile st)) in
      let before := Rendered current1 :: Invoked (prompt agent) (content (documentFile st)) :: requests in
      match outcome with
      | Normal out =>
          let json := parseJsonOutput out in
          let current2 := update agent (succeeded out json) current1 in
          let st2 := setAgents current2 st1 in
          let '(final, st3, events) := run_loop w (S i) rest current2 st2 in
          (final, st3, before ++ Rendered current2 :: events)
      | Throw e =>
          let errorMessage :=
            if instanceof_Error e then message e else "An unknown error occurred" in
          let st2 := on_error errorMessage st1 in
          let current2 := update agent (failed errorMessage) current1 in
          (current2, setAgents current2 st2, before ++ [Rendered current2])
      end
  end.

Definition runWorkflow (w : World) (st : State) : State * list Event * option Thrown :=
  if negb (isApiKeySet st) then
    (setApiKeyError "Please set your API key before running the workflow." st, [], None)
  else if negb (Js.truthy (content (documentFile st)))
          || DocumentType_eqb (doc_type (documentFile st)) EMPTY then
    (st, [Alerted "Please load a document first."], None)
  else
    let st1 := setAnalysisResult None (setIsProcessing true st) in
    let currentAgents := map reset (agents st) in
    let st2 := setAgents currentAgents st1 in
    let '(final, st3, events) := run_loop w 0 (agents st) currentAgents st2 in
    match analyzeResults final st3 with
    | Normal st4 => (setIsProcessing false st4, Rendered currentAgents :: events, None)
    | Throw e => (st3, Rendered currentAgents :: events, Some e)
    end.

Definition initial (env user : string) : State :=
  {| envApiKey := env; userApiKey := user; apiKeyError := EmptyString;
     ai := if Js.truthy (Js.or_else env user) then Some (Js.or_else env user) else None;
     documentFile := {| doc_id := "initial"; doc_name := "No document loaded";
                        doc_type := EMPTY; content := EmptyString |};
     agents := []; isProcessing := false; analysisResult := None; activeTab := "workflow" |}.

(** *** Observations on a run *)

(** The prompts sent to the provider, in order. *)
Fixpoint prompts (events : list Event) : list string :=
  match events with
  | [] => []
  | Requested _ p :: tl => p :: prompts tl
  | _ :: tl => prompts tl
  end.

(** The agent prompts handed to [processAgentPrompt], in order. *)
Fixpoint invoked (events : list Event) : list string :=
  match events with
  | [] => []
  | Invoked p _ :: tl => p :: invoked tl
  | _ :: tl => invoked tl
  end.

Definition prompt_for (st : State) (a : Agent) : string :=
  fullPrompt (content (documentFile st)) (prompt a).

Definition no_error (l : list Agent) : Prop := Forall (fun a => status a <> Error) l.
Definition all_success (l : list Agent) : Prop := Forall (fun a => status a = Success) l.

Definition untouched (b : Agent) : Prop :=
  status b = Pending /\ output b = None /\ error b = None /\ outputJson b = JSON.JNull.

Inductive loop_outcome (done todo final : list Agent) (events : list Event) : Prop :=
| completed (succ : list Agent) :
    final = done ++ succ -> length succ = length todo -> all_success succ ->
    (forall l, In (Rendered l) events -> no_error l) ->
    invoked events = map prompt todo ->
    loop_outcome done todo final events
| stopped (t1 t2 succ : list Agent) (agent : Agent) (msg : string) :
    todo = t1 ++ agent :: t2 ->
    final = (done ++ succ) ++ failed msg (running (reset agent)) :: map reset t2 ->
    length succ = length t1 -> all_success succ ->
    (forall l, In (Rendered l) events -> l = final \/ no_error l) ->
    invoked events = map prompt (t1 ++ [agent]) ->
    loop_outcome done todo final events.

End Gemini.

(** ** The extraction order as the specification words it

    Stated from the specification, to be compared with [parseJsonOutput]:
    a fenced block tagged json anywhere in the text comes first; otherwise
    the first balanced object or array literal; otherwise the whole text. *)

Module Claimed.

Definition is_open (c : ascii) : bool := Ascii.eqb c "{" || Ascii.eqb c "[".
Definition is_close (c : ascii) : bool := Ascii.eqb c "}" || Ascii.eqb c "]".

(** The shortest prefix of [s] that closes the [depth] brackets open so far
    and those it opens. *)
Fixpoint balanced_prefix (depth : nat) (s : string) : option string :=
  match s with
  | EmptyString => None
  | String c s' =>
      if is_open c then option_map (String c) (balanced_prefix (S depth) s')
      else if is_close c then
        match depth with
        | 0 => None
        | 1 => Some (String c EmptyString)
        | S d => option_map (String c) (balanced_prefix d s')
        end
      else option_map (String c) (balanced_prefix depth s')
  end.

Definition literal_at (s : string) : option string :=
  match s with
  | String c _ => if is_open c then balanced_prefix 0 s else None
  | EmptyString => None
  end.

Definition extractJson (text : string) : JSON.value :=
  match RegExp.search RegExp.fence_at text with
  | Some interior => JSON.or_null (JSON.parse interior)
  | None =>
      match RegExp.search literal_at text with
      | Some literal => JSON.or_null (JSON.parse literal)
      | None => JSON.or_null (JSON.parse text)
      end
  end.

End Claimed.

(** ** Where the pattern matches, stated without the search

    What it is for an alternative of the pattern to match at a position, and
    for a position to be the leftmost, as decompositions of the text; to be
    compared with [RegExp.search]. *)

Module Matching.

(** [s] starts with a fenced block tagged json, whatever its interior. *)
Definition starts_fenced (s : string) : Prop :=
  exists body post, s = RegExp.fence_open +:+ body +:+ RegExp.fence_close +:+ post.

(** [s] starts with the character [o] and holds a [c] after it. *)
Definition starts_span (o c : ascii) (s : string) : Prop :=
  exists mid post, s = String o (mid +:+ String c post).

(** An alternative of the pattern of the single-provider revision matches
    at the start of [s]. *)
Definition starts_match (s : string) : Prop :=
  starts_fenced s \/ starts_span "{" "}" s \/ starts_span "[" "]" s.

(** In [pre +:+ rest], no suffix that starts within [pre] satisfies [P]:
    the position of [rest] is the leftmost one where [P] can hold. *)
Definition leftmost (P : string -> Prop) (pre rest : string) : Prop :=
  forall p1 p2, pre = p1 +:+ p2 -> p2 <> EmptyString -> ~ P (p2 +:+ rest).

(** No suffix of [text] satisfies [P], the empty one included. *)
Definition nowhere (P : string -> Prop) (text : string) : Prop :=
  forall p1 p2, text = p1 +:+ p2 -> ~ P p2.

(** No position within [pre] has a match of [at_pos], by computation. *)
Fixpoint unmatched {A : Type} (at_pos : string -> option A) (pre rest : string) : bool :=
  match pre with
  | EmptyString => true
  | String _ p =>
      match at_pos (pre +:+ rest) with
      | Some _ => false
      | None => unmatched at_pos p rest
      end
  end.

End Matching.

(** ** Scenarios

    Concrete providers, templates and documents on which the properties
    below are exercised. *)

Module Scenario.

(** A provider that answers every request with [text]. *)
Definition answering (text : string) : World :=
  {| generateContent := fun _ _ _ => Normal text;
     chat_completions_create := fun _ _ _ => Normal (Some text) |}.

(** A provider that rejects the key on every request. *)
Definition rejecting : World :=
  {| generateContent := fun _ _ _ =>
       Throw {| instanceof_Error := true;
                message := "[400] API key not valid. Please pass a valid API key.";
                api_status := None |};
     chat_completions_create := fun _ _ _ =>
       Throw {| instanceof_Error := true; message := "401 Incorrect API key provided";
                api_status := Some 401%Z |} |}.

(** A provider whose first request succeeds with [text] and whose later
    requests fail. *)
Definition failing_after_first (text : string) : World :=
  {| generateContent := fun i _ _ =>
       match i with
       | O => Normal text
       | S _ => Throw (new_Error "503 Service Unavailable")
       end;
     chat_completions_create := fun i _ _ =>
       match i with
       | O => Normal (Some text)
       | S _ => Throw (new_Error "503 Service Unavailable")
       end |}.

Definition summarizer : Template :=
  {| template_name := "Summarizer"; template_prompt := "Summarize the document." |}.
Definition sentiment_analyzer : Template :=
  {| template_name := "Sentiment Analyzer";
     template_prompt := "Return the sentiment of the document as JSON." |}.

Definition report : DocumentFile :=
  {| doc_id := "report.txt"; doc_name := "report.txt"; doc_type := TXT;
     content := "Quarterly results were strong." |}.


End Scenario.

(** The test of [outputJson.filter(e => e.name && e.type)] on an element
    that is not [null]. *)
Definition is_entity (e : JSON.value) : bool :=
  JSON.truthy_opt (JSON.get e "name") && JSON.truthy_opt (JSON.get e "type").

(** ** Sequences of registry operations *)

Module Session.

(** Clicks on the add buttons, each with the clock reading of its call. *)
Fixpoint addAgents (clicks : list (Z * Template)) (st : Unified.State) : Unified.State :=
  match clicks with
  | [] => st
  | (now, template) :: tl => addAgents tl (Unified.addAgent now template st)
  end.

Fixpoint gemini_addAgents (clicks : list (Z * Template)) (st : Gemini.State) : Gemini.State :=
  match clicks with
  | [] => st
  | (now, template) :: tl => gemini_addAgents tl (Gemini.addAgent now template st)
  end.

(** The agents at the end of a run in which every call was answered, [outs]
    being the answers in the order of the calls. *)
Definition answered (agents0 : list Unified.Agent) (outs : list string) : list Unified.Agent :=
  map (fun ao => Unified.succeeded (snd ao) (Unified.parseJsonOutput (snd ao))
                   (Unified.running (Unified.reset (fst ao))))
      (combine agents0 outs).

End Session.

(** ** The provider clients ([src/App.tsx], [src/services/apiService.ts]) *)

Module Services.
Import Unified.

(** [MODEL_OPTIONS], the values the model selector offers. *)
Definition MODEL_OPTIONS : list string :=
  ["gemini/gemini-2.5-flash"; "openai/gpt-4o-mini"; "openai/gpt-4.1-mini"].

(** Assignments to the module-level variables [geminiAI] and [openai]. *)
Definition setGeminiAI (v : option string) (st : State) : State :=
  {| envGeminiApiKey := envGeminiApiKey st; envOpenAIApiKey := envOpenAIApiKey st;
     userGeminiApiKey := userGeminiApiKey st; userOpenAIApiKey := userOpenAIApiKey st;
     isApiKeyModalOpen := isApiKeyModalOpen st; apiKeyError := apiKeyError st;
     geminiAI := v; openai := openai st; documentFile := documentFile st;
     agents := agents st; isProcessing := isProcessing st;
     analysisResult := analysisResult st; activeTab := activeTab st |}.

Definition setOpenAI (v : option string) (st : State) : State :=
  {| envGeminiApiKey := envGeminiApiKey st; envOpenAIApiKey := envOpenAIApiKey st;
     userGeminiApiKey := userGeminiApiKey st; userOpenAIApiKey := userOpenAIApiKey st;
     isApiKeyModalOpen := isApiKeyModalOpen st; apiKeyError := apiKeyError st;
     geminiAI := geminiAI st; openai := v; documentFile := documentFile st;
     agents := agents st; isProcessing := isProcessing st;
     analysisResult := analysisResult st; activeTab := activeTab st |}.

Definition initGeminiService (apiKey : string) (st : State) : State :=
  if negb (Js.truthy apiKey) then setGeminiAI None st
  else setGeminiAI (Some apiKey) st.

Definition initOpenAIService (apiKey : string) (st : State) : State :=
  if negb (Js.truthy apiKey) then setOpenAI None st
  else setOpenAI (Some apiKey) st.

(** The effect that depends on the two effective keys. *)
Definition useEffect_keys (st : State) : State :=
  let st1 := if Js.truthy (effectiveGeminiApiKey st)
             then initGeminiService (effectiveGeminiApiKey st) st else st in
  if Js.truthy (effectiveOpenAIApiKey st)
  then initOpenAIService (effectiveOpenAIApiKey st) st1 else st1.

(** The clients exist for the providers whose key is set. *)
Definition clients_ready (st : State) : Prop :=
  (isGeminiKeySet st = true -> geminiAI st = Some (effectiveGeminiApiKey st))
  /\ (isOpenAIKeySet st = true -> openai st = Some (effectiveOpenAIApiKey st)).

(** [error instanceof Error ? error.message : 'An unknown error occurred'],
    the message the [catch] block of the run loop works with. *)
Definition message_of (e : Thrown) : string :=
  if instanceof_Error e then message e else "An unknown error occurred".

(** The provider failures that [unifiedProcessAgentPrompt] reads as a
    rejected key. *)
Definition gemini_rejects_key (e : Thrown) : bool :=
  instanceof_Error e
  && (Js.includes "API key not valid" (message e) || Js.includes "403" (message e)).

Definition openai_rejects_key (e : Thrown) : bool :=
  match api_status e with Some 401%Z => true | _ => false end.

End Services.

(** The single-provider revision. *)
Module GeminiServices.
Import Gemini.

Definition setAi (v : option string) (st : State) : State :=
  {| envApiKey := envApiKey st; userApiKey := userApiKey st; apiKeyError := apiKeyError st;
     ai := v; documentFile := documentFile st; agents := agents st;
     isProcessing := isProcessing st; analysisResult := analysisResult st;
     activeTab := activeTab st |}.

Definition initGeminiService (apiKey : string) (st : State) : State :=
  if negb (Js.truthy apiKey) then setAi None st
  else setAi (Some apiKey) st.

(** The effect that depends on [effectiveApiKey] and [apiKeyError]. *)
Definition useEffect_key (st : State) : State :=
  if Js.truthy (effectiveApiKey st) then
    let st1 := initGeminiService (effectiveApiKey st) st in
    if Js.truthy (apiKeyError st1) then setApiKeyError EmptyString st1 else st1
  else st.

End GeminiServices.

(** ** [useLocalStorage]

    [window.localStorage] as a finite map from keys to texts.  Storage that
    refuses a write (quota, private mode) is outside the embedding: [setItem]
    is taken to succeed. *)

Module LocalStorage.




End LocalStorage.

(** ** [String.prototype.trim]

    The code points of WhiteSpace and LineTerminator, in UTF-8.  No form is
    a prefix of another, and none starts with a continuation byte, so
    stripping forms from the bytes strips code points from the string. *)

Module Whitespace.

Fixpoint of_bytes (l : list nat) : string :=
  match l with
  | [] => EmptyString
  | n :: tl => String (ascii_of_nat n) (of_bytes tl)
  end.

Definition spaces : list string :=
  map of_bytes
    [ [9]; [10]; [11]; [12]; [13]; [32];                    (* TAB LF VT FF CR SP *)
      [194; 160];                                           (* U+00A0 *)
      [225; 154; 128];                                      (* U+1680 *)
      [226; 128; 128]; [226; 128; 129]; [226; 128; 130]; [226; 128; 131];
      [226; 128; 132]; [226; 128; 133]; [226; 128; 134]; [226; 128; 135];
      [226; 128; 136]; [226; 128; 137]; [226; 128; 138];    (* U+2000 to U+200A *)
      [226; 128; 168]; [226; 128; 169];                     (* U+2028 U+2029 *)
      [226; 128; 175];                                      (* U+202F *)
      [226; 129; 159];                                      (* U+205F *)
      [227; 128; 128];                                      (* U+3000 *)
      [239; 187; 191] ].                                    (* U+FEFF *)

(** The number of bytes of the white space at the start of [s]; 0 when [s]
    starts with none. *)
Definition space_length (s : string) : nat :=
  match List.find (fun p => Js.startsWith p s) spaces with
  | Some p => String.length p
  | None => 0
  end.

Fixpoint trimStart (s : string) : string :=
  match space_length s, s with
  | 1, String _ s1 => trimStart s1
  | 2, String _ (String _ s2) => trimStart s2
  | 3, String _ (String _ (String _ s3)) => trimStart s3
  | _, _ => s
  end.

(** [s] is white space from start to end. *)
Fixpoint blank (s : string) : bool :=
  match s with
  | EmptyString => true
  | String _ s1 =>
      match space_length s, s1 with
      | 1, _ => blank s1
      | 2, String _ s2 => blank s2
      | 3, String _ (String _ s3) => blank s3
      | _, _ => false
      end
  end.

Fixpoint trimEnd (s : string) : string :=
  match s with
  | EmptyString => EmptyString
  | String c s1 => if blank s then EmptyString else String c (trimEnd s1)
  end.

Definition trim (s : string) : string := trimEnd (trimStart s).

End Whitespace.

(** ** Saving keys in the dialog *)

Module KeyDialog.
Import Unified.

(** [handleSaveApiKeys] of [src/App.tsx], with the two input fields. *)
Definition handleSaveApiKeys (tempGeminiKey tempOpenAIKey : string) (st : State) : State :=
  let st1 := if Js.truthy tempGeminiKey
             then setUserGeminiApiKey (Whitespace.trim tempGeminiKey) st else st in
  let st2 := if Js.truthy tempOpenAIKey
             then setUserOpenAIApiKey (Whitespace.trim tempOpenAIKey) st1 else st1 in
  setIsApiKeyModalOpen false (setApiKeyError EmptyString st2).

(** The button of the dialog of the single-provider revision:
    [if (tempApiKey.trim()) setUserApiKey(tempApiKey.trim())]. *)
Definition saveAndContinue (tempApiKey : string) (st : Gemini.State) : Gemini.State :=
  if Js.truthy (Whitespace.trim tempApiKey)
  then Gemini.setUserApiKey (Whitespace.trim tempApiKey) st else st.

End KeyDialog.

(** ** Loading a document

    A chosen file, as the browser and [pdfjsLib] present it: its name, its
    MIME type, what [file.text()] resolves to, and, read as a PDF, either a
    rejection of [getDocument] or its pages, each of which renders to a
    data URL or rejects.  The OCR model is an oracle like the providers of a
    run: what the [i]-th call answers for a model, an instruction and the
    image data ([None] is [undefined]). *)

Record File : Type := {
  file_name : string;
  file_type : string;
  file_text : string;
  file_pages : Completion (list (Completion string))
}.

Record Vision : Type := {
  ocr_generateContent : nat -> string -> string -> option string -> Completion string
}.

Inductive OcrEvent : Type :=
| OcrRequested (model : string) (imageDataBase64 : option string).

(** [`--- Page ${i} ---\n${ocrText}`] and its counterpart for a failure. *)
Definition page_section (i : nat) (ocrText : string) : string :=
  "--- Page " +:+ Js.of_integer (Z.of_nat i) +:+ " ---" +:+ Js.newline +:+ ocrText.

Definition failed_section (i : nat) (errorMessage : string) : string :=
  "--- Page " +:+ Js.of_integer (Z.of_nat i) +:+ " ---" +:+ Js.newline
    +:+ "[OCR Failed: " +:+ errorMessage +:+ "]".

(** The sections of consecutive pages from page [i] on. *)
Fixpoint page_sections (i : nat) (ocrTexts : list string) : list string :=
  match ocrTexts with
  | [] => []
  | t :: tl => page_section i t :: page_sections (S i) tl
  end.

(** [pageTexts.join('\n\n')]. *)
Definition join_pages (pageTexts : list string) : string :=
  String.concat (Js.newline +:+ Js.newline) pageTexts.

(** [{ ...prev, content }]. *)
Definition with_content (prev : DocumentFile) (c : string) : DocumentFile :=
  {| doc_id := doc_id prev; doc_name := doc_name prev; doc_type := doc_type prev; content := c |}.

(** [ocrError instanceof Error ? ocrError.message : 'An OCR error occurred']. *)
Definition ocr_message_of (e : Thrown) : string :=
  if instanceof_Error e then message e else "An OCR error occurred".

(** *** [src/App.tsx] *)

Module Documents.
Import Unified.

(** The component state: the state of the run and the OCR flag. *)
Record Component : Type := { app : State; isOcrProcessing : bool }.

Definition lift (f : State -> State) (c : Component) : Component :=
  {| app := f (app c); isOcrProcessing := isOcrProcessing c |}.

Definition setIsOcrProcessing (v : bool) (c : Component) : Component :=
  {| app := app c; isOcrProcessing := v |}.

Definition performOcrWithGemini (v : Vision) (i : nat) (client : option string)
    (imageDataBase64 : option string) : Completion string * list OcrEvent :=
  match client with
  | None => (Throw (new_Error "Gemini API key is not configured for OCR."), [])
  | Some _ =>
      match ocr_generateContent v i "gemini-2.5-flash"
              "Perform OCR on this image. Extract all text accurately." imageDataBase64 with
      | Normal text => (Normal text, [OcrRequested "gemini-2.5-flash" imageDataBase64])
      | Throw error =>
          if instanceof_Error error
             && (Js.includes "API key not valid" (message error) || Js.includes "403" (message error))
          then (Throw (new_Error "The provided Gemini API key is not valid. Please check it."),
                [OcrRequested "gemini-2.5-flash" imageDataBase64])
          else (Throw (new_Error "Failed to perform OCR with Gemini API."),
                [OcrRequested "gemini-2.5-flash" imageDataBase64])
      end
  end.

(** The message [performOcrWithGemini] throws when the model failed with [e]. *)
Definition ocr_failure (e : Thrown) : string :=
  if instanceof_Error e
     && (Js.includes "API key not valid" (message e) || Js.includes "403" (message e))
  then "The provided Gemini API key is not valid. Please check it."
  else "Failed to perform OCR with Gemini API.".

(** [canvas.toDataURL('image/jpeg').split(',')[1]]. *)
Definition base64_of (url : string) : option string := nth_error (Js.split "," url) 1.

Definition resetState (c : Component) : Component :=
  setIsOcrProcessing false
    (lift (fun st => setIsProcessing false (setAnalysisResult None (setAgents [] st))) c).

(** The page loop of the [onload] callback, from page [i] on: the page
    texts, or the rejection that left the loop. *)
Fixpoint ocr_pages (v : Vision) (i : nat) (pages : list (Completion string)) (c : Component)
    : Completion (list string) * Component * list OcrEvent :=
  match pages with
  | [] => (Normal [], c, [])
  | Throw e :: _ => (Throw e, c, [])
  | Normal url :: rest =>
      let base64Data := base64_of url in
      match performOcrWithGemini v (i - 1) (geminiAI (app c)) base64Data with
      | (Normal ocrText, requests) =>
          let '(texts, c', events) := ocr_pages v (S i) rest c in
          (match texts with
           | Normal tl => Normal (page_section i ocrText :: tl)
           | Throw e => Throw e
           end, c', requests ++ events)
      | (Throw ocrError, requests) =>
          let errorMessage := ocr_message_of ocrError in
          let c' :=
            if Js.includes "API key" errorMessage
            then lift (fun st => setIsApiKeyModalOpen true
                                   (setUserGeminiApiKey EmptyString
                                      (setApiKeyError errorMessage st))) c
            else c in
          (Normal [failed_section i errorMessage], c', requests)
      end
  end.

(** The [onload] callback of the reader.  A rejection of [getDocument] or
    of a page ends it before the document is set. *)
Definition onload (v : Vision) (file : File) (c : Component) : Component * list OcrEvent :=
  match file_pages file with
  | Throw _ => (c, [])
  | Normal pages =>
      match ocr_pages v 1 pages c with
      | (Normal pageTexts, c', events) =>
          (lift (fun st => setDocumentFile (with_content (documentFile st) (join_pages pageTexts)) st)
             c', events)
      | (Throw _, c', events) => (c', events)
      end
  end.

(** [processPdf] up to its return: the key check, then the reader is
    started inside [try]/[finally] (creating and starting a reader on a
    chosen file does not throw, so the [catch] block is not entered).  The
    boolean tells whether [onload] was registered. *)
Definition processPdf (file : File) (c : Component) : Component * bool :=
  if negb (isGeminiKeySet (app c)) then
    (lift (fun st => setIsApiKeyModalOpen true
                       (setApiKeyError "A Gemini API key is required for PDF processing (OCR)." st))
       c, false)
  else
    let c1 := setIsOcrProcessing true c in
    (setIsOcrProcessing false c1, true).

(** [handleFileChange] for [event.target.files?.[0]]. *)
Definition handleFileChange (file : option File) (c : Component) : Component * bool :=
  match file with
  | None => (c, false)
  | Some f =>
      let c1 := resetState c in
      if String.eqb (file_type f) "application/pdf" then
        processPdf f
          (lift (setDocumentFile
                   {| doc_id := file_name f; doc_name := file_name f; doc_type := PDF;
                      content := "Processing PDF..." |}) c1)
      else
        (lift (setDocumentFile
                 {| doc_id := file_name f; doc_name := file_name f; doc_type := TXT;
                    content := file_text f |}) c1, false)
  end.

(** The handler followed by the callback it registered, nothing between. *)
Definition load (v : Vision) (file : File) (c : Component) : Component * list OcrEvent :=
  let (c1, registered) := handleFileChange (Some file) c in
  if registered then onload v file c1 else (c1, []).

End Documents.

(** *** The single-provider revision *)

Module GeminiDocuments.
Import Gemini.

Record Component : Type := { app : State; isOcrProcessing : bool }.

Definition lift (f : State -> State) (c : Component) : Component :=
  {| app := f (app c); isOcrProcessing := isOcrProcessing c |}.

Definition setIsOcrProcessing (v : bool) (c : Component) : Component :=
  {| app := app c; isOcrProcessing := v |}.

Definition performOcr (v : Vision) (i : nat) (client : option string)
    (imageDataBase64 : option string) : Completion string * list OcrEvent :=
  match client with
  | None => (Throw (new_Error "Gemini API key is not configured. Please set it first."), [])
  | Some _ =>
      match ocr_generateContent v i "gemini-2.5-flash"
              "Perform OCR on this image. Extract all text accurately, preserving the original line breaks and structure as much as possible. Do not describe the image, only return the transcribed text."
              imageDataBase64 with
      | Normal text => (Normal text, [OcrRequested "gemini-2.5-flash" imageDataBase64])
      | Throw error =>
          if instanceof_Error error && Js.includes "API key not valid" (message error)
          then (Throw (new_Error "The provided API key is not valid. Please check it and try again."),
                [OcrRequested "gemini-2.5-flash" imageDataBase64])
          else (Throw (new_Error "Failed to perform OCR with Gemini API."),
                [OcrRequested "gemini-2.5-flash" imageDataBase64])
      end
  end.

Definition resetState (c : Component) : Component :=
  setIsOcrProcessing false
    (lift (fun st => setIsProcessing false (setAnalysisResult None (setAgents [] st))) c).

Fixpoint ocr_pages (v : Vision) (i : nat) (pages : list (Completion string)) (c : Component)
    : Completion (list string) * Component * list OcrEvent :=
  match pages with
  | [] => (Normal [], c, [])
  | Throw e :: _ => (Throw e, c, [])
  | Normal imageDataUrl :: rest =>
      let base64Data := nth_error (Js.split "," imageDataUrl) 1 in
      match performOcr v (i - 1) (ai (app c)) base64Data with
      | (Normal ocrText, requests) =>
          let '(texts, c', events) := ocr_pages v (S i) rest c in
          (match texts with
           | Normal tl => Normal (page_section i ocrText :: tl)
           | Throw e => Throw e
           end, c', requests ++ events)
      | (Throw ocrError, requests) =>
          let errorMessage := ocr_message_of ocrError in
          let c' :=
            if Js.includes "API key" errorMessage
            then lift (fun st => setUserApiKey EmptyString (setApiKeyError errorMessage st)) c
            else c in
          (Normal [failed_section i errorMessage], c', requests)
      end
  end.

Definition onload (v : Vision) (file : File) (c : Component) : Component * list OcrEvent :=
  match file_pages file with
  | Throw _ => (c, [])
  | Normal pages =>
      match ocr_pages v 1 pages c with
      | (Normal pageTexts, c', events) =>
          (lift (fun st => setDocumentFile (with_content (documentFile st) (join_pages pageTexts)) st)
             c', events)
      | (Throw _, c', events) => (c', events)
      end
  end.

Definition processPdf (file : File) (c : Component) : Component * bool :=
  if negb (isApiKeySet (app c)) then
    (lift (setApiKeyError "Please set your API key before processing a PDF.") c, false)
  else
    let c1 := setIsOcrProcessing true c in
    (setIsOcrProcessing false c1, true).

(** [handleFileChange]: a file that is neither a PDF nor plain text resets
    the state and loads nothing. *)
Definition handleFileChange (file : option File) (c : Component) : Component * bool :=
  match file with
  | None => (c, false)
  | Some f =>
      let c1 := resetState c in
      if String.eqb (file_type f) "application/pdf" then
        processPdf f
          (lift (setDocumentFile
                   {| doc_id := file_name f; doc_name := file_name f; doc_type := PDF;
                      content := "Processing PDF..." |}) c1)
      else if String.eqb (file_type f) "text/plain" then
        (lift (setDocumentFile
                 {| doc_id := file_name f; doc_name := file_name f; doc_type := TXT;
                    content := file_text f |}) c1, false)
      else (c1, false)
  end.

Definition load (v : Vision) (file : File) (c : Component) : Component * list OcrEvent :=
  let (c1, registered) := handleFileChange (Some file) c in
  if registered then onload v file c1 else (c1, []).

End GeminiDocuments.

(** ** Files and OCR models for examples *)

Module Uploads.

(** A scanned PDF of three pages and a PDF without pages. *)
Definition scan : File :=
  {| file_name := "scan.pdf"; file_type := "application/pdf"; file_text := "%PDF-1.7";
     file_pages := Normal [Normal "data:image/jpeg;base64,AAAA";
                           Normal "data:image/jpeg;base64,BBBB";
                           Normal "data:image/jpeg;base64,CCCC"] |}.

Definition no_pages : File :=
  {| file_name := "empty.pdf"; file_type := "application/pdf"; file_text := "%PDF-1.7";
     file_pages := Normal [] |}.

Definition notes_txt : File :=
  {| file_name := "notes.txt"; file_type := "text/plain"; file_text := "Meeting notes.";
     file_pages := Throw (new_Error "Invalid PDF structure.") |}.

Definition empty_txt : File :=
  {| file_name := "empty.txt"; file_type := "text/plain"; file_text := EmptyString;
     file_pages := Throw (new_Error "Invalid PDF structure.") |}.

Definition readme_md : File :=
  {| file_name := "README.md"; file_type := "text/markdown"; file_text := "# Title";
     file_pages := Throw (new_Error "Invalid PDF structure.") |}.

(** An OCR model that reads every page. *)
Definition reading : Vision :=
  {| ocr_generateContent := fun i _ _ _ => Normal ("Text of page " +:+ Js.of_integer (Z.of_nat (S i)) +:+ ".") |}.

(** An OCR model that reads two pages and then answers 403. *)
Definition denied_at_third : Vision :=
  {| ocr_generateContent := fun i _ _ _ =>
       match i with
       | 0 => Normal "First page."
       | 1 => Normal "Second page."
       | _ => Throw (new_Error "[403 Forbidden] Quota exceeded for this project.")
       end |}.

End Uploads.

(** ** The notes editor *)

Module Notes.

(** The replacement text of [String.prototype.replace] for a string
    pattern (no capture groups): [$$] is a dollar sign, [$&] the matched
    text, [$`] the text before the match, [$'] the text after it; any other
    dollar sign stands for itself. *)
Fixpoint substitute (matched before after : string) (replacement : string) : string :=
  match replacement with
  | EmptyString => EmptyString
  | String c tl =>
      if Ascii.eqb c "$" then
        match tl with
        | String d rest =>
            if Ascii.eqb d "$" then String "$" (substitute matched before after rest)
            else if Ascii.eqb d "&" then matched +:+ substitute matched before after rest
            else if Ascii.eqb d "`" then before +:+ substitute matched before after rest
            else if Ascii.eqb d "'" then after +:+ substitute matched before after rest
            else String "$" (substitute matched before after tl)
        | EmptyString => String "$" EmptyString
        end
      else String c (substitute matched before after tl)
  end.

(** [s.replace(pattern, replacement)] for two strings: the first
    occurrence only. *)
Definition replace (s pattern replacement : string) : string :=
  match Js.split_at_first pattern s with
  | Some (before, after) => before +:+ substitute pattern before after replacement +:+ after
  | None => s
  end.

(** [`<span style="color: ${color}; font-weight: 600;">${textToColor}</span>`]. *)
Definition coloredText (color textToColor : string) : string :=
  "<span style=" +:+ String JSON.dquote "color: " +:+ color +:+ "; font-weight: 600;"
    +:+ String JSON.dquote ">" +:+ textToColor +:+ "</span>".

(** [applyColor]: the notes and the text field afterwards. *)
Definition applyColor (notes textToColor color : string) : string * string :=
  if negb (Js.truthy (Whitespace.trim textToColor)) then (notes, textToColor)
  else (replace notes textToColor (coloredText color textToColor), EmptyString).

End Notes.

(** * Properties *)

#[local] Arguments String.append !_ _ / : simpl nomatch.

(** ** Strings *)

Module JsFacts.
Import Js.

Lemma append_assoc (a b c : string) : (a +:+ b) +:+ c = a +:+ (b +:+ c).
Proof. induction a as [|x a IH]; simpl; [reflexivity | now rewrite IH]. Qed.

Lemma append_nil_r (a : string) : a +:+ "" = a.
Proof. induction a as [|x a IH]; simpl; [reflexivity | now rewrite IH]. Qed.

Lemma length_append (a b : string) :
  String.length (a +:+ b) = String.length a + String.length b.
Proof. induction a as [|x a IH]; simpl; [reflexivity | now rewrite IH]. Qed.

Lemma startsWith_append (p s : string) : startsWith p (p +:+ s) = true.
Proof. induction p as [|x p IH]; simpl; [reflexivity | now rewrite Ascii.eqb_refl]. Qed.

Lemma startsWith_first (c a : ascii) (p s : string) :
  startsWith (String c p) (String a s) = if Ascii.eqb c a then startsWith p s else false.
Proof. reflexivity. Qed.

Lemma drop_append (p s : string) : drop (String.length p) (p +:+ s) = s.
Proof. induction p as [|x p IH]; simpl; [reflexivity | exact IH]. Qed.

Lemma length_drop (n : nat) (s : string) : String.length (drop n s) <= String.length s.
Proof. revert s. induction n as [|n IH]; intros [|c s]; simpl; try lia. specialize (IH s). lia. Qed.


Lemma avoids_append (c : ascii) (a b : string) :
  avoids c (a +:+ b) = avoids c a && avoids c b.
Proof.
  induction a as [|x a IH]; simpl; [reflexivity|].
  rewrite IH. now rewrite andb_assoc.
Qed.

Lemma split_at_first_eq (pat s : string) :
  split_at_first pat s =
  if startsWith pat s then Some (EmptyString, drop (String.length pat) s)
  else match s with
       | EmptyString => None
       | String c s' =>
           match split_at_first pat s' with
           | Some (before, after) => Some (String c before, after)
           | None => None
           end
       end.
Proof. destruct s; reflexivity. Qed.

Lemma includes_eq (needle hay : string) :
  includes needle hay =
  if startsWith needle hay then true
  else match hay with
       | EmptyString => false
       | String _ hay' => includes needle hay'
       end.
Proof. destruct hay; reflexivity. Qed.
(** A pattern whose first character does not occur again in it cannot match
    across the end of [b]. *)
Lemma startsWith_inside (c : ascii) (pat b t : string) :
  avoids c pat = true ->
  startsWith pat (b +:+ String c t) = true -> startsWith pat b = true.
Proof.
  revert b. induction pat as [|x pat IH]; intros b Hp H; [reflexivity|].
  simpl in Hp. apply andb_prop in Hp as [Hx Hp]. apply negb_true_iff in Hx.
  destruct b as [|y b]; simpl in *.
  - rewrite Hx in H. discriminate.
  - destruct (Ascii.eqb x y); [apply (IH b Hp H) | discriminate].
Qed.

Lemma split_at_first_first (c : ascii) (pat body tail : string) :
  avoids c pat = true ->
  includes (String c pat) body = false ->
  split_at_first (String c pat) (body +:+ String c pat +:+ tail) = Some (body, tail).
Proof.
  intros Hp. induction body as [|x body IH]; intros Hb.
  - change ("" +:+ String c pat +:+ tail) with (String c pat +:+ tail).
    rewrite split_at_first_eq, startsWith_append, drop_append. reflexivity.
  - rewrite includes_eq in Hb.
    destruct (startsWith (String c pat) (String x body)) eqn:Es; [discriminate|].
    change (String x body +:+ String c pat +:+ tail)
      with (String x (body +:+ String c pat +:+ tail)).
    rewrite split_at_first_eq.
    destruct (startsWith (String c pat) (String x (body +:+ String c pat +:+ tail))) eqn:Es2.
    + exfalso. simpl in Es, Es2. destruct (Ascii.eqb c x); [|discriminate].
      change (String c pat +:+ tail) with (String c (pat +:+ tail)) in Es2.
      rewrite (startsWith_inside c pat body _ Hp Es2) in Es. discriminate.
    + rewrite (IH Hb). reflexivity.
Qed.

Lemma upto_last_avoids (c : ascii) (s : string) : avoids c s = true -> upto_last c s = None.
Proof.
  induction s as [|a s IH]; simpl; [reflexivity|]. intros H.
  apply andb_prop in H as [Ha Hs]. apply negb_true_iff in Ha. rewrite (IH Hs), Ha. reflexivity.
Qed.

Lemma upto_last_append (c : ascii) (mid post : string) :
  avoids c post = true ->
  upto_last c (mid +:+ String c post) = Some (mid +:+ String c EmptyString).
Proof.
  intros Hp. induction mid as [|a mid IH]; simpl.
  - rewrite (upto_last_avoids c post Hp), Ascii.eqb_refl. reflexivity.
  - rewrite IH. reflexivity.
Qed.


Lemma startsWith_split (p s : string) :
  startsWith p s = true -> s = p +:+ drop (String.length p) s.
Proof.
  revert s. induction p as [|x p IH]; intros s H; [reflexivity|].
  destruct s as [|a s]; [discriminate|]. rewrite startsWith_first in H.
  destruct (Ascii.eqb_spec x a) as [->|]; [|discriminate].
  simpl. f_equal. apply (IH s H).
Qed.

Lemma split_at_first_none (pat s : string) :
  includes pat s = false -> split_at_first pat s = None.
Proof.
  induction s as [|c s IH]; intros H; rewrite includes_eq in H;
    rewrite split_at_first_eq.
  - destruct (startsWith pat EmptyString); [discriminate | reflexivity].
  - destruct (startsWith pat (String c s)); [discriminate|]. rewrite (IH H). reflexivity.
Qed.

(** The split is at an occurrence of the pattern, and at the first one. *)
Lemma split_at_first_occurrence (pat s before after : string) :
  split_at_first pat s = Some (before, after) ->
  s = before +:+ pat +:+ after
  /\ (forall b1 b2, before = b1 +:+ b2 -> b2 <> EmptyString ->
                    startsWith pat (b2 +:+ pat +:+ after) = false).
Proof.
  revert before. induction s as [|c s IH]; intros before H; rewrite split_at_first_eq in H.
  - destruct (startsWith pat EmptyString) eqn:E; [|discriminate].
    inversion H; subst. split.
    + apply (startsWith_split _ _ E).
    + intros [|x b1] [|y b2] Hb Hne; try discriminate. congruence.
  - destruct (startsWith pat (String c s)) eqn:E.
    + inversion H; subst. split.
      * apply (startsWith_split _ _ E).
      * intros [|x b1] [|y b2] Hb Hne; try discriminate. congruence.
    + destruct (split_at_first pat s) as [[b a]|] eqn:Es; [|discriminate].
      inversion H; subst. destruct (IH b eq_refl) as [Hs Hfirst]. split.
      * simpl. f_equal. exact Hs.
      * intros b1 b2 Hb Hne. destruct b1 as [|x b1].
        -- simpl in Hb. subst b2. simpl. rewrite <- Hs. exact E.
        -- simpl in Hb. inversion Hb; subst. apply (Hfirst b1 b2 eq_refl Hne).
Qed.


End JsFacts.

(** ** JSON: parsing the text of a value gives the value back *)

Module JSONFacts.
Import JSON JsFacts.

















Lemma existsb_eqb_app (k : string) (a b : list string) :
  existsb (String.eqb k) (a ++ b) = existsb (String.eqb k) a || existsb (String.eqb k) b.
Proof. apply existsb_app. Qed.

























(** *** The fuel of [parse] suffices *)













End JSONFacts.

(** ** Which text a match selects *)

Module RegExpFacts.
Import RegExp JsFacts.

Lemma search_here {A : Type} (at_pos : string -> option A) (s : string) (m : A) :
  at_pos s = Some m -> search at_pos s = Some m.
Proof. intros H. destruct s; simpl; rewrite H; reflexivity. Qed.

(** The interior of a fenced block ends at the first closing fence. *)
Lemma fence_at_first (body tail : string) :
  Js.includes fence_close body = false ->
  fence_at (fence_open +:+ body +:+ fence_close +:+ tail) = Some body.
Proof.
  intros Hb. unfold fence_at.
  rewrite startsWith_append, drop_append.
  change fence_close with (String Js.lf "```") in *.
  rewrite (split_at_first_first Js.lf "```" body tail eq_refl Hb). reflexivity.
Qed.

Lemma fence_at_other (a : ascii) (s : string) :
  Ascii.eqb a "`" = false -> fence_at (String a s) = None.
Proof.
  intros H. unfold fence_at, fence_open.
  simpl ("```json" +:+ Js.newline). rewrite startsWith_first, Ascii.eqb_sym, H. reflexivity.
Qed.

Lemma span_at_other (o c a : ascii) (s : string) :
  Ascii.eqb a o = false -> span_at o c (String a s) = None.
Proof. intros H. unfold span_at. rewrite H. reflexivity. Qed.

(** A span runs from its opening character to the last closing one. *)
Lemma span_at_last (o c : ascii) (mid post : string) :
  Js.avoids c post = true ->
  span_at o c (String o (mid +:+ String c post)) = Some (String o (mid +:+ String c EmptyString)).
Proof.
  intros H. unfold span_at. rewrite Ascii.eqb_refl, (upto_last_append c mid post H). reflexivity.
Qed.

Lemma plain_cons (a : ascii) (s : string) :
  plain (String a s) = true ->
  Ascii.eqb a "`" = false /\ Ascii.eqb a "{" = false /\ Ascii.eqb a "[" = false
  /\ plain s = true.
Proof.
  unfold plain. simpl. intros H.
  repeat match goal with
         | H : _ && _ = true |- _ => apply andb_prop in H as [? ?]
         | H : negb _ = true |- _ => apply negb_true_iff in H
         end.
  repeat split; try assumption. repeat (apply andb_true_intro; split); assumption.
Qed.

Lemma json_pattern_at_plain (a : ascii) (s : string) :
  Ascii.eqb a "`" = false -> Ascii.eqb a "{" = false -> Ascii.eqb a "[" = false ->
  json_pattern_at (String a s) = None.
Proof.
  intros H1 H2 H3. unfold json_pattern_at.
  rewrite (fence_at_other a s H1), (span_at_other _ _ a s H2), (span_at_other _ _ a s H3).
  reflexivity.
Qed.

(** The search passes over text in which no alternative can start. *)
Lemma search_plain (pre rest : string) :
  plain pre = true ->
  search json_pattern_at (pre +:+ rest) = search json_pattern_at rest.
Proof.
  induction pre as [|a pre IH]; intros H; [reflexivity|].
  apply plain_cons in H as (H1 & H2 & H3 & Hpre).
  change (String a pre +:+ rest) with (String a (pre +:+ rest)).
  simpl search. rewrite (json_pattern_at_plain a _ H1 H2 H3). apply (IH Hpre).
Qed.

Lemma search_fence_plain (pre rest : string) :
  Js.avoids "`" pre = true ->
  search fence_at (pre +:+ rest) = search fence_at rest.
Proof.
  induction pre as [|a pre IH]; intros H; [reflexivity|].
  simpl in H. apply andb_prop in H as [Ha Hpre]. apply negb_true_iff in Ha.
  change (String a pre +:+ rest) with (String a (pre +:+ rest)).
  simpl search. rewrite (fence_at_other a _ Ha). apply (IH Hpre).
Qed.

Lemma search_none_plain (text : string) :
  plain text = true -> search json_pattern_at text = None.
Proof.
  intros H. rewrite <- (append_nil_r text), (search_plain text "" H). reflexivity.
Qed.

Lemma search_fence_none (text : string) :
  Js.avoids "`" text = true -> search fence_at text = None.
Proof.
  intros H. rewrite <- (append_nil_r text), (search_fence_plain text "" H). reflexivity.
Qed.

Lemma or_undefined_some (s : string) (b : option string) :
  Js.truthy s = true -> or_undefined (Some s) b = Some s.
Proof. intros H. unfold or_undefined. rewrite H. reflexivity. Qed.




Lemma jsonString_plain (text : string) :
  plain text = true -> Gemini.jsonString text = Some text.
Proof. intros H. unfold Gemini.jsonString. rewrite (search_none_plain text H). reflexivity. Qed.


Lemma candidate_plain (text : string) :
  Js.avoids "`" text = true -> Unified.candidate text = text.
Proof. intros H. unfold Unified.candidate. rewrite (search_fence_none text H). reflexivity. Qed.

End RegExpFacts.

(** ** The leftmost match, by decomposition of the text *)

Module MatchingFacts.
Import RegExp JsFacts Matching.

Lemma includes_append (pat a b : string) :
  Js.includes pat (a +:+ pat +:+ b) = true.
Proof.
  induction a as [|c a IH].
  - change ("" +:+ pat +:+ b) with (pat +:+ b).
    rewrite includes_eq, startsWith_append. reflexivity.
  - change (String c a +:+ pat +:+ b) with (String c (a +:+ pat +:+ b)).
    rewrite includes_eq, IH. destruct (Js.startsWith pat _); reflexivity.
Qed.

Lemma split_at_first_some (pat s : string) :
  Js.includes pat s = true -> exists before after, Js.split_at_first pat s = Some (before, after).
Proof.
  induction s as [|c s IH]; intros H; rewrite includes_eq in H; rewrite split_at_first_eq.
  - destruct (Js.startsWith pat EmptyString); [eauto | discriminate].
  - destruct (Js.startsWith pat (String c s)); [eauto|].
    destruct (IH H) as (b & a & ->). eauto.
Qed.

(** No occurrence of the pattern starts before the split. *)
Lemma includes_before_split (c : ascii) (pat body tail : string) :
  (forall b1 b2, body = b1 +:+ b2 -> b2 <> EmptyString ->
                 Js.startsWith (String c pat) (b2 +:+ String c pat +:+ tail) = false) ->
  Js.includes (String c pat) body = false.
Proof.
  induction body as [|a body IH]; intros H.
  - reflexivity.
  - rewrite includes_eq.
    destruct (Js.startsWith (String c pat) (String a body)) eqn:E.
    + exfalso. pose proof (H "" (String a body) eq_refl ltac:(discriminate)) as H0.
      apply startsWith_split in E.
      rewrite E in H0. rewrite append_assoc, startsWith_append in H0. discriminate.
    + apply IH. intros b1 b2 Hb Hne.
      apply (H (String a b1) b2); [rewrite Hb; reflexivity | exact Hne].
Qed.

(** [fence_at] finds the interior of the block at the start of the text,
    up to the first closing fence. *)
Lemma fence_at_some (s body : string) :
  fence_at s = Some body <->
  exists post, s = fence_open +:+ body +:+ fence_close +:+ post
               /\ Js.includes fence_close body = false.
Proof.
  split.
  - unfold fence_at. destruct (Js.startsWith fence_open s) eqn:E; [|discriminate].
    destruct (Js.split_at_first fence_close _) as [[b a]|] eqn:Es; [|discriminate].
    intros H. inversion H; subst b. exists a.
    destruct (split_at_first_occurrence _ _ _ _ Es) as [Hs Hfirst]. split.
    + rewrite (startsWith_split _ _ E) at 1. rewrite Hs. reflexivity.
    + apply (includes_before_split Js.lf "```" body a Hfirst).
  - intros (post & -> & Hb). apply (RegExpFacts.fence_at_first body post Hb).
Qed.

Lemma fence_at_none (s : string) : fence_at s = None <-> ~ starts_fenced s.
Proof.
  split.
  - intros H (body & post & ->). unfold fence_at in H.
    rewrite startsWith_append, drop_append in H.
    destruct (split_at_first_some fence_close (body +:+ fence_close +:+ post)
                (includes_append _ _ _)) as (b & a & Hs).
    rewrite Hs in H. discriminate.
  - intros H. destruct (fence_at s) as [body|] eqn:E; [|reflexivity].
    exfalso. apply H. apply fence_at_some in E as (post & -> & _). exists body, post. reflexivity.
Qed.

Lemma upto_last_some (c : ascii) (s p : string) :
  Js.upto_last c s = Some p ->
  exists mid post, s = mid +:+ String c post /\ Js.avoids c post = true
                   /\ p = mid +:+ String c EmptyString.
Proof.
  revert p. induction s as [|a s IH]; intros p H; [discriminate|].
  simpl in H. destruct (Js.upto_last c s) as [q|] eqn:E.
  - inversion H; subst. destruct (IH q eq_refl) as (mid & post & -> & Hp & ->).
    exists (String a mid), post. repeat split; assumption.
  - destruct (Ascii.eqb_spec a c) as [->|]; [|discriminate]. inversion H; subst.
    exists "", s. repeat split.
    clear -E. induction s as [|b s IH]; [reflexivity|].
    simpl in E. destruct (Js.upto_last c s); [discriminate|].
    simpl. destruct (Ascii.eqb b c); [discriminate|]. apply IH. reflexivity.
Qed.

Lemma upto_last_none (c : ascii) (mid post : string) :
  Js.upto_last c (mid +:+ String c post) <> None.
Proof.
  induction mid as [|a mid IH].
  - simpl. destruct (Js.upto_last c post); [discriminate|]. rewrite Ascii.eqb_refl. discriminate.
  - change (String a mid +:+ String c post) with (String a (mid +:+ String c post)).
    cbn [Js.upto_last]. destruct (Js.upto_last c (mid +:+ String c post)); [discriminate|].
    exfalso. apply IH. reflexivity.
Qed.

(** [span_at] finds the text from the opening character at the start to the
    last closing character. *)
Lemma span_at_some (o c : ascii) (s m : string) :
  span_at o c s = Some m <->
  exists mid post, s = String o (mid +:+ String c post) /\ Js.avoids c post = true
                   /\ m = String o (mid +:+ String c EmptyString).
Proof.
  split.
  - unfold span_at. destruct s as [|a s]; [discriminate|].
    destruct (Ascii.eqb_spec a o) as [->|]; [|discriminate].
    destruct (Js.upto_last c s) as [p|] eqn:E; [|discriminate].
    intros H. inversion H; subst.
    destruct (upto_last_some c s p E) as (mid & post & -> & Hp & ->).
    exists mid, post. repeat split. exact Hp.
  - intros (mid & post & -> & Hp & ->). apply (RegExpFacts.span_at_last o c mid post Hp).
Qed.

Lemma span_at_none (o c : ascii) (s : string) : span_at o c s = None <-> ~ starts_span o c s.
Proof.
  split.
  - intros H (mid & post & ->). unfold span_at in H. rewrite Ascii.eqb_refl in H.
    destruct (Js.upto_last c (mid +:+ String c post)) eqn:E; [discriminate|].
    apply (upto_last_none c mid post E).
  - intros H. destruct (span_at o c s) as [m|] eqn:E; [|reflexivity].
    exfalso. apply H. apply span_at_some in E as (mid & post & -> & _). exists mid, post. reflexivity.
Qed.

Lemma json_pattern_at_none (s : string) : json_pattern_at s = None <-> ~ starts_match s.
Proof.
  unfold json_pattern_at, starts_match. split.
  - intros H.
    destruct (fence_at s) eqn:Ef; [discriminate|].
    destruct (span_at "{" "}" s) eqn:Eb; [discriminate|].
    destruct (span_at "[" "]" s) eqn:Ek; [discriminate|].
    apply fence_at_none in Ef. apply span_at_none in Eb. apply span_at_none in Ek. tauto.
  - intros H.
    assert (Ef : fence_at s = None) by (apply fence_at_none; tauto).
    assert (Eb : span_at "{" "}" s = None) by (apply span_at_none; tauto).
    assert (Ek : span_at "[" "]" s = None) by (apply span_at_none; tauto).
    rewrite Ef, Eb, Ek. reflexivity.
Qed.

(** The search returns the match at the leftmost position that has one. *)
Lemma search_leftmost {A : Type} (at_pos : string -> option A) (pre s : string) (m : A) :
  at_pos s = Some m ->
  (forall p1 p2, pre = p1 +:+ p2 -> p2 <> EmptyString -> at_pos (p2 +:+ s) = None) ->
  search at_pos (pre +:+ s) = Some m.
Proof.
  intros Hs. induction pre as [|a pre IH]; intros H.
  - apply (RegExpFacts.search_here _ _ _ Hs).
  - change (String a pre +:+ s) with (String a (pre +:+ s)). cbn [search].
    change (String a (pre +:+ s)) with (String a pre +:+ s).
    rewrite (H "" (String a pre) eq_refl ltac:(discriminate)).
    apply IH. intros p1 p2 Hp Hne.
    apply (H (String a p1) p2); [rewrite Hp; reflexivity | exact Hne].
Qed.

Lemma search_some {A : Type} (at_pos : string -> option A) (text : string) (m : A) :
  search at_pos text = Some m ->
  exists pre s, text = pre +:+ s /\ at_pos s = Some m
                /\ (forall p1 p2, pre = p1 +:+ p2 -> p2 <> EmptyString ->
                                  at_pos (p2 +:+ s) = None).
Proof.
  induction text as [|a text IH]; cbn [search].
  - destruct (at_pos "") as [x|] eqn:E; [|discriminate]. intros H. inversion H; subst.
    exists "", "". repeat split; [exact E|]. intros [|? ?] [|? ?] Hp Hne; try discriminate. congruence.
  - destruct (at_pos (String a text)) as [x|] eqn:E.
    + intros H. inversion H; subst. exists "", (String a text). repeat split; [exact E|].
      intros [|? ?] [|? ?] Hp Hne; try discriminate. congruence.
    + intros H. destruct (IH H) as (pre & s & -> & Hs & Hleft).
      exists (String a pre), s. repeat split; [exact Hs|].
      intros [|x p1] p2 Hp Hne.
      * change ("" +:+ p2) with p2 in Hp. rewrite <- Hp. exact E.
      * change (String x p1 +:+ p2) with (String x (p1 +:+ p2)) in Hp.
        inversion Hp; subst. apply (Hleft p1 p2 eq_refl Hne).
Qed.

Lemma search_none {A : Type} (at_pos : string -> option A) (text : string) :
  search at_pos text = None <-> (forall p1 p2, text = p1 +:+ p2 -> at_pos p2 = None).
Proof.
  split.
  - induction text as [|a text IH]; cbn [search].
    + destruct (at_pos "") eqn:E; [discriminate|]. intros _ [|? ?] [|? ?] Hp; try discriminate.
      exact E.
    + destruct (at_pos (String a text)) eqn:E; [discriminate|]. intros H [|x p1] p2 Hp.
      * change ("" +:+ p2) with p2 in Hp. rewrite <- Hp. exact E.
      * change (String x p1 +:+ p2) with (String x (p1 +:+ p2)) in Hp.
        inversion Hp; subst. apply (IH H p1 p2 eq_refl).
  - induction text as [|a text IH]; intros H; cbn [search].
    + rewrite (H "" "" eq_refl). reflexivity.
    + rewrite (H "" (String a text) eq_refl). apply IH.
      intros p1 p2 Hp. apply (H (String a p1) p2). rewrite Hp. reflexivity.
Qed.

Lemma unmatched_none {A : Type} (at_pos : string -> option A) (pre rest : string) :
  unmatched at_pos pre rest = true ->
  forall p1 p2, pre = p1 +:+ p2 -> p2 <> EmptyString -> at_pos (p2 +:+ rest) = None.
Proof.
  induction pre as [|a pre IH]; cbn [unmatched].
  - intros _ [|? ?] [|? ?] Hp Hne; try discriminate. congruence.
  - destruct (at_pos (String a pre +:+ rest)) eqn:E; [discriminate|].
    intros H [|x p1] p2 Hp Hne.
    + change ("" +:+ p2) with p2 in Hp. rewrite <- Hp. exact E.
    + change (String x p1 +:+ p2) with (String x (p1 +:+ p2)) in Hp.
      inversion Hp; subst. apply (IH H p1 p2 eq_refl Hne).
Qed.

Lemma unmatched_leftmost (pre rest : string) :
  unmatched json_pattern_at pre rest = true -> leftmost starts_match pre rest.
Proof.
  intros H p1 p2 Hp Hne. apply json_pattern_at_none. apply (unmatched_none _ _ _ H p1 p2 Hp Hne).
Qed.

Lemma unmatched_fence_leftmost (pre rest : string) :
  unmatched fence_at pre rest = true -> leftmost starts_fenced pre rest.
Proof.
  intros H p1 p2 Hp Hne. apply fence_at_none. apply (unmatched_none _ _ _ H p1 p2 Hp Hne).
Qed.

(** The candidate of the single-provider revision when the leftmost match
    is a fenced block, a brace span, a bracket span, and without a match. *)
Lemma jsonString_leftmost_fence (pre body post : string) :
  Js.includes fence_close body = false ->
  leftmost starts_match pre (fence_open +:+ body +:+ fence_close +:+ post) ->
  Gemini.jsonString (pre +:+ fence_open +:+ body +:+ fence_close +:+ post)
  = if Js.truthy body then Some body else None.
Proof.
  intros Hbody Hleft. unfold Gemini.jsonString.
  assert (Hp : json_pattern_at (fence_open +:+ body +:+ fence_close +:+ post)
               = Some {| group1 := Some body; group2 := None; group3 := None |}).
  { unfold json_pattern_at. rewrite (RegExpFacts.fence_at_first body post Hbody). reflexivity. }
  rewrite (search_leftmost json_pattern_at pre _ _ Hp).
  - cbn [group1 group2 group3]. destruct (Js.truthy body) eqn:E.
    + rewrite !(RegExpFacts.or_undefined_some _ _ E). reflexivity.
    + unfold or_undefined. cbv beta iota. rewrite E. reflexivity.
  - intros p1 p2 Hpre Hne. apply json_pattern_at_none. apply (Hleft p1 p2 Hpre Hne).
Qed.

Lemma jsonString_leftmost_span (o c : ascii) (pre mid post : string) :
  (o = "{"%char /\ c = "}"%char) \/ (o = "["%char /\ c = "]"%char) ->
  Js.avoids c post = true ->
  leftmost starts_match pre (String o (mid +:+ String c post)) ->
  Gemini.jsonString (pre +:+ String o (mid +:+ String c post))
  = Some (String o (mid +:+ String c EmptyString)).
Proof.
  intros Hoc Hpost Hleft. unfold Gemini.jsonString.
  assert (Hp : exists g, json_pattern_at (String o (mid +:+ String c post)) = Some g
                         /\ or_undefined (or_undefined (group1 g) (group2 g)) (group3 g)
                            = Some (String o (mid +:+ String c EmptyString))).
  { destruct Hoc as [[-> ->]|[-> ->]]; unfold json_pattern_at.
    - rewrite (RegExpFacts.fence_at_other "{" _ eq_refl),
        (RegExpFacts.span_at_last "{" "}" mid post Hpost).
      eexists. split; reflexivity.
    - rewrite (RegExpFacts.fence_at_other "[" _ eq_refl),
        (RegExpFacts.span_at_other "{" "}" "[" _ eq_refl),
        (RegExpFacts.span_at_last "[" "]" mid post Hpost).
      eexists. split; reflexivity. }
  destruct Hp as (g & Hg & Hor).
  rewrite (search_leftmost json_pattern_at pre _ _ Hg); [exact Hor|].
  intros p1 p2 Hpre Hne. apply json_pattern_at_none. apply (Hleft p1 p2 Hpre Hne).
Qed.

Lemma jsonString_nowhere (text : string) :
  nowhere starts_match text -> Gemini.jsonString text = Some text.
Proof.
  intros H. unfold Gemini.jsonString.
  assert (E : search json_pattern_at text = None).
  { apply search_none. intros p1 p2 Hp. apply json_pattern_at_none. apply (H p1 p2 Hp). }
  rewrite E. reflexivity.
Qed.

(** Every text has a leftmost match or none. *)
Lemma jsonString_cases (text : string) :
  (exists pre body post,
     text = pre +:+ fence_open +:+ body +:+ fence_close +:+ post
     /\ Js.includes fence_close body = false
     /\ leftmost starts_match pre (fence_open +:+ body +:+ fence_close +:+ post))
  \/ (exists pre mid post,
        text = pre +:+ "{" +:+ mid +:+ "}" +:+ post /\ Js.avoids "}" post = true
        /\ leftmost starts_match pre ("{" +:+ mid +:+ "}" +:+ post))
  \/ (exists pre mid post,
        text = pre +:+ "[" +:+ mid +:+ "]" +:+ post /\ Js.avoids "]" post = true
        /\ leftmost starts_match pre ("[" +:+ mid +:+ "]" +:+ post))
  \/ nowhere starts_match text.
Proof.
  destruct (search json_pattern_at text) as [g|] eqn:E.
  - destruct (search_some _ _ _ E) as (pre & s & -> & Hs & Hleft).
    assert (Hl : leftmost starts_match pre s).
    { intros p1 p2 Hp Hne. apply json_pattern_at_none. apply (Hleft p1 p2 Hp Hne). }
    unfold json_pattern_at in Hs.
    destruct (fence_at s) as [body|] eqn:Ef.
    + apply fence_at_some in Ef as (post & -> & Hb). left. exists pre, body, post. auto.
    + destruct (span_at "{" "}" s) as [m|] eqn:Eb.
      * apply span_at_some in Eb as (mid & post & -> & Hp & _).
        right; left. exists pre, mid, post. auto.
      * destruct (span_at "[" "]" s) as [m|] eqn:Ek; [|discriminate].
        apply span_at_some in Ek as (mid & post & -> & Hp & _).
        right; right; left. exists pre, mid, post. auto.
  - right; right; right. intros p1 p2 Hp. apply json_pattern_at_none.
    apply (proj1 (search_none _ _) E p1 p2 Hp).
Qed.

Lemma candidate_leftmost_fence (pre body post : string) :
  Js.includes fence_close body = false ->
  leftmost starts_fenced pre (fence_open +:+ body +:+ fence_close +:+ post) ->
  Unified.candidate (pre +:+ fence_open +:+ body +:+ fence_close +:+ post) = body.
Proof.
  intros Hbody Hleft. unfold Unified.candidate.
  rewrite (search_leftmost fence_at pre _ _ (RegExpFacts.fence_at_first body post Hbody));
    [reflexivity|].
  intros p1 p2 Hpre Hne. apply fence_at_none. apply (Hleft p1 p2 Hpre Hne).
Qed.

Lemma candidate_nowhere (text : string) :
  nowhere starts_fenced text -> Unified.candidate text = text.
Proof.
  intros H. unfold Unified.candidate.
  assert (E : search fence_at text = None).
  { apply search_none. intros p1 p2 Hp. apply fence_at_none. apply (H p1 p2 Hp). }
  rewrite E. reflexivity.
Qed.

Lemma candidate_cases (text : string) :
  (exists pre body post,
     text = pre +:+ fence_open +:+ body +:+ fence_close +:+ post
     /\ Js.includes fence_close body = false
     /\ leftmost starts_fenced pre (fence_open +:+ body +:+ fence_close +:+ post))
  \/ nowhere starts_fenced text.
Proof.
  destruct (search fence_at text) as [body|] eqn:E.
  - destruct (search_some _ _ _ E) as (pre & s & -> & Hs & Hleft).
    apply fence_at_some in Hs as (post & -> & Hb). left. exists pre, body, post.
    repeat split; [exact Hb|].
    intros p1 p2 Hp Hne. apply fence_at_none. apply (Hleft p1 p2 Hp Hne).
  - right. intros p1 p2 Hp. apply fence_at_none. apply (proj1 (search_none _ _) E p1 p2 Hp).
Qed.

(** An empty interior is handed over as [undefined], which does not parse
    either. *)
Lemma parse_any_fence (body : string) :
  JSON.parse_any (if Js.truthy body then Some body else None) = JSON.parse body.
Proof. destruct body; reflexivity. Qed.

End MatchingFacts.

(** ** Lists *)

Module ListFacts.

(** Where a list made of a prefix, one element and a suffix holds its [k]-th
    element. *)
Lemma nth_error_split {A : Type} (X Y : list A) (e a : A) (k : nat) :
  nth_error (X ++ e :: Y) k = Some a ->
  (k < length X /\ In a X) \/ (k = length X /\ a = e) \/ (length X < k /\ In a Y).
Proof.
  revert k. induction X as [|x X IH]; intros k H; simpl in *.
  - destruct k as [|k]; simpl in H.
    + inversion H; subst. right. left. auto.
    + right. right. split; [lia|]. apply (nth_error_In _ _ H).
  - destruct k as [|k]; simpl in H.
    + inversion H; subst. left. split; [lia | auto].
    + destruct (IH k H) as [[? ?]|[[? ?]|[? ?]]]; [left | right; left | right; right];
        split; auto; lia.
Qed.

Lemma nth_error_after {A : Type} (X Y : list A) (e b : A) (j : nat) :
  length X < j -> nth_error (X ++ e :: Y) j = Some b -> In b Y.
Proof.
  intros Hj H. destruct (nth_error_split _ _ _ _ _ H) as [[? ?]|[[? ?]|[? ?]]]; [lia | lia | auto].
Qed.

Lemma nth_error_map_firstn {A B : Type} (f : A -> B) (l : list A) :
  forall n k y, nth_error (map f (firstn n l)) k = Some y ->
  exists x, nth_error l k = Some x /\ y = f x.
Proof.
  induction l as [|x l IH]; intros n k y H.
  - rewrite firstn_nil in H. destruct k; discriminate.
  - destruct n as [|n]; [destruct k; discriminate|]. destruct k as [|k]; simpl in *.
    + inversion H; subst. eauto.
    + apply (IH n k y H).
Qed.

End ListFacts.

(** ** Runs of the application with several providers *)

Module UnifiedFacts.
Import Unified ListFacts.

Lemma prompts_app (a b : list Event) : prompts (a ++ b) = prompts a ++ prompts b.
Proof. induction a as [|[] a IH]; simpl; [reflexivity | exact IH | exact IH | now rewrite IH]. Qed.

Lemma invoked_app (a b : list Event) : invoked (a ++ b) = invoked a ++ invoked b.
Proof. induction a as [|[] a IH]; simpl; [reflexivity | exact IH | now rewrite IH | exact IH]. Qed.

(** What one call sends: nothing, or the prompt built from the document and
    the agent's own prompt; a call that succeeds has sent it. *)
Lemma unifiedProcessAgentPrompt_requests (w : World) (i : nat) (g o : option string) (agent : Agent)
    (documentContent : string) (outcome : Completion string) (requests : list Event) :
  unifiedProcessAgentPrompt w i g o agent documentContent = (outcome, requests) ->
  (prompts requests = [] \/ prompts requests = [fullPrompt documentContent (prompt agent)])
  /\ invoked requests = []
  /\ (forall l, ~ In (Rendered l) requests)
  /\ (forall out, outcome = Normal out -> prompts requests = [fullPrompt documentContent (prompt agent)]).
Proof.
  unfold unifiedProcessAgentPrompt. intros H.
  repeat match type of H with
         | (if ?b then _ else _) = _ => destruct b
         | match ?x with _ => _ end = _ => destruct x
         end;
    inversion H; subst; simpl; (split; [auto|]); (split; [reflexivity|]);
    (split; [intros l Hin; simpl in Hin; intuition discriminate|]);
    intros out Hout; try discriminate Hout; reflexivity.
Qed.

Lemma run_loop_prompts (w : World) (todo : list Agent) :
  forall i cur st final st' events,
  run_loop w i todo cur st = (final, st', events) ->
  exists n, prompts events = map (prompt_for st) (firstn n todo).
Proof.
  induction todo as [|agent rest IH]; intros i cur st final st' events H; simpl in H.
  - inversion H; subst. exists 0. reflexivity.
  - destruct (unifiedProcessAgentPrompt w i (geminiAI st) (openai st) agent (content (documentFile st)))
      as [outcome requests] eqn:E.
    destruct (unifiedProcessAgentPrompt_requests _ _ _ _ _ _ _ _ E) as (Hreq & _ & _ & Hok).
    destruct outcome as [out|e].
    + destruct (run_loop w (S i) rest _ _) as [[final' st3] events'] eqn:ER.
      inversion H; subst. destruct (IH _ _ _ _ _ _ ER) as [n Hn].
      exists (S n). simpl. rewrite prompts_app. simpl. rewrite (Hok out eq_refl), Hn. reflexivity.
    + inversion H; subst. simpl. rewrite prompts_app. simpl. rewrite app_nil_r.
      destruct Hreq as [-> | ->]; [exists 0 | exists 1]; reflexivity.
Qed.

(** The [n]-th prompt of a run is built from the document and the prompt of
    the [n]-th agent, whatever the providers answered. *)
Lemma runWorkflow_prompts (w : World) (st : State) (n : nat) (p : string) :
  nth_error (prompts (snd (runWorkflow w st))) n = Some p ->
  exists a, nth_error (agents st) n = Some a /\ p = prompt_for st a.
Proof.
  unfold runWorkflow. destruct (missing_key st); [simpl; destruct n; discriminate|].
  destruct (run_loop w 0 (agents st) _ _) as [[final st3] events] eqn:ER.
  simpl. intros H. destruct (run_loop_prompts _ _ _ _ _ _ _ _ ER) as [m Hm].
  rewrite Hm in H. apply nth_error_map_firstn in H as (a & Ha & ->). exists a. auto.
Qed.

Lemma on_error_env (m : string) (st : State) :
  envGeminiApiKey (on_error m st) = envGeminiApiKey st
  /\ envOpenAIApiKey (on_error m st) = envOpenAIApiKey st.
Proof.
  unfold on_error. destruct (Js.includes "API key" m); [|auto].
  destruct (Js.includes "gemini" (Js.toLowerCase m)), (Js.includes "openai" (Js.toLowerCase m));
    auto.
Qed.

Lemma run_loop_env (w : World) (todo : list Agent) :
  forall i cur st final st' events,
  run_loop w i todo cur st = (final, st', events) ->
  envGeminiApiKey st' = envGeminiApiKey st /\ envOpenAIApiKey st' = envOpenAIApiKey st.
Proof.
  induction todo as [|agent rest IH]; intros i cur st final st' events H; simpl in H.
  - inversion H; subst. auto.
  - destruct (unifiedProcessAgentPrompt w i (geminiAI st) (openai st) agent (content (documentFile st)))
      as [outcome requests] eqn:E.
    destruct outcome as [out|e].
    + destruct (run_loop w (S i) rest _ _) as [[final' st3] events'] eqn:ER.
      inversion H; subst. apply (IH _ _ _ _ _ _ ER).
    + inversion H; subst. cbn [setAgents envGeminiApiKey envOpenAIApiKey].
      match goal with
      | |- context [on_error ?m ?s] => destruct (on_error_env m s) as [-> ->]
      end. auto.
Qed.

(** *** The loop stops at the first failure *)

Lemma update_outside (agent : Agent) (f : Agent -> Agent) (l : list Agent) :
  ~ In (id agent) (map id l) -> update agent f l = l.
Proof.
  unfold update. induction l as [|a l IH]; simpl; intros H; [reflexivity|].
  destruct (String.eqb_spec (id a) (id agent)) as [E|E]; [exfalso; apply H; left; exact E|].
  rewrite IH; [reflexivity | tauto].
Qed.

Lemma update_here (agent : Agent) (f : Agent -> Agent) (before after : list Agent) (a : Agent) :
  id a = id agent ->
  ~ In (id agent) (map id before) -> ~ In (id agent) (map id after) ->
  update agent f (before ++ a :: after) = before ++ f a :: after.
Proof.
  intros Ha Hb Hafter. unfold update. rewrite map_app. simpl.
  fold (update agent f before). fold (update agent f after).
  rewrite (update_outside _ _ _ Hb), (update_outside _ _ _ Hafter).
  rewrite Ha, String.eqb_refl. reflexivity.
Qed.

Lemma map_id_reset (l : list Agent) : map id (map reset l) = map id l.
Proof. rewrite map_map. reflexivity. Qed.

Lemma no_error_success (l : list Agent) : all_success l -> no_error l.
Proof. apply List.Forall_impl. intros a H. rewrite H. discriminate. Qed.

Lemma no_error_reset (l : list Agent) : no_error (map reset l).
Proof. apply List.Forall_forall. intros a H. apply in_map_iff in H as (x & <- & _). discriminate. Qed.

Lemma run_loop_outcome (w : World) (todo : list Agent) :
  forall i done st final st' events,
  NoDup (map id done ++ map id todo) ->
  all_success done ->
  agents st = done ++ map reset todo ->
  run_loop w i todo (done ++ map reset todo) st = (final, st', events) ->
  loop_outcome done todo final events /\ agents st' = final.
Proof.
  induction todo as [|agent rest IH]; intros i done st final st' events Hnd Hdone Hst H.
  - simpl in H. inversion H; subst. split; [|exact Hst].
    apply (completed _ _ _ _ []); simpl; auto; [constructor | intros l []].
  - simpl in H.
    destruct (unifiedProcessAgentPrompt w i (geminiAI st) (openai st) agent (content (documentFile st)))
      as [outcome requests] eqn:E.
    destruct (unifiedProcessAgentPrompt_requests _ _ _ _ _ _ _ _ E) as (_ & Hinv & Hnr & _).
    assert (Hb : ~ In (id agent) (map id done)).
    { intros Hin. apply NoDup_app in Hnd as (_ & Hd & _). apply (Hd (id agent)).
      - apply list_elem_of_In. exact Hin.
      - simpl. left. }
    assert (Ha : ~ In (id agent) (map id (map reset rest))).
    { rewrite map_id_reset. apply NoDup_app in Hnd as (_ & _ & Hr). simpl in Hr.
      apply NoDup_cons in Hr as [Hr _]. intros Hin. apply Hr. apply list_elem_of_In. exact Hin. }
    assert (H1 : update agent running (done ++ reset agent :: map reset rest)
                 = done ++ running (reset agent) :: map reset rest).
    { apply update_here; auto. }
    assert (Hclean1 : no_error (done ++ running (reset agent) :: map reset rest)).
    { apply Forall_app. split; [apply no_error_success; exact Hdone|].
      constructor; [discriminate | apply no_error_reset]. }
    simpl map in H. rewrite H1 in H.
    destruct outcome as [out|e].
    + assert (H2 : update agent (succeeded out (parseJsonOutput out))
                     (done ++ running (reset agent) :: map reset rest)
                   = (done ++ [succeeded out (parseJsonOutput out) (running (reset agent))])
                     ++ map reset rest).
      { rewrite update_here; auto. rewrite <- app_assoc. reflexivity. }
      rewrite H2 in H.
      destruct (run_loop w (S i) rest _ _) as [[final' st3] events'] eqn:ER.
      inversion H; subst. clear H.
      assert (Hdone' : all_success (done ++ [succeeded out (parseJsonOutput out) (running (reset agent))])).
      { apply Forall_app. split; [exact Hdone | constructor; [reflexivity | constructor]]. }
      apply IH in ER; [ | | exact Hdone' | reflexivity].
      2:{ rewrite map_app. simpl. rewrite <- app_assoc. simpl. exact Hnd. }
      destruct ER as [Hout Hfin]. split; [|exact Hfin].
      assert (Hclean2 : no_error ((done ++ [succeeded out (parseJsonOutput out) (running (reset agent))])
                                  ++ map reset rest)).
      { apply Forall_app. split; [apply no_error_success; exact Hdone' | apply no_error_reset]. }
      assert (Hev : forall l,
                 In (Rendered l)
                   (Rendered (done ++ running (reset agent) :: map reset rest)
                    :: Invoked agent (content (documentFile st)) :: requests
                    ++ Rendered ((done ++ [succeeded out (parseJsonOutput out) (running (reset agent))])
                                 ++ map reset rest) :: events') ->
                 no_error l \/ In (Rendered l) events').
      { intros l [Hl|[Hl|Hl]]; [inversion Hl; subst; auto | discriminate |].
        apply in_app_or in Hl as [Hl|[Hl|Hl]]; [exfalso; apply (Hnr l Hl) | inversion Hl; subst; auto | auto]. }
      destruct Hout as [succ Hf Hlen Hs Hcl Hi | t1 t2 succ a msg Ht Hf Hlen Hs Hcl Hi].
      * apply (completed _ _ _ _ (succeeded out (parseJsonOutput out) (running (reset agent)) :: succ)).
        -- rewrite Hf, <- app_assoc. reflexivity.
        -- simpl. lia.
        -- constructor; [reflexivity | exact Hs].
        -- intros l Hl. destruct (Hev l Hl) as [?|Hin]; [assumption | apply (Hcl l Hin)].
        -- simpl. rewrite invoked_app, Hinv. simpl. rewrite Hi. reflexivity.
      * apply (stopped _ _ _ _ (agent :: t1) t2
                 (succeeded out (parseJsonOutput out) (running (reset agent)) :: succ) a msg).
        -- rewrite Ht. reflexivity.
        -- rewrite Hf, <- !app_assoc. reflexivity.
        -- simpl. lia.
        -- constructor; [reflexivity | exact Hs].
        -- intros l Hl. destruct (Hev l Hl) as [?|Hin]; [right; assumption | apply (Hcl l Hin)].
        -- simpl. rewrite invoked_app, Hinv. simpl. rewrite Hi. reflexivity.
    + set (msg := if instanceof_Error e then message e else "An unknown error occurred") in *.
      assert (H2 : update agent (failed msg) (done ++ running (reset agent) :: map reset rest)
                   = done ++ failed msg (running (reset agent)) :: map reset rest).
      { apply update_here; auto. }
      rewrite H2 in H. inversion H; subst. clear H. split; [|reflexivity].
      apply (stopped _ _ _ _ [] rest [] agent msg); simpl; auto.
      * rewrite app_nil_r. reflexivity.
      * constructor.
      * intros l [Hl|[Hl|Hl]]; [inversion Hl; subst; auto | discriminate |].
        apply in_app_or in Hl as [Hl|[Hl|[]]]; [exfalso; apply (Hnr l Hl) |].
        inversion Hl; subst. left. reflexivity.
      * rewrite invoked_app, Hinv. reflexivity.
Qed.

Lemma no_error_in (l : list Agent) (a : Agent) :
  no_error l -> In a l -> status a <> Error.
Proof. unfold no_error. rewrite List.Forall_forall. auto. Qed.

Lemma stops_at_error (agents0 final : list Agent) (events : list Event) :
  loop_outcome [] agents0 final events ->
  forall l k a,
  In (Rendered l) events -> nth_error l k = Some a -> status a = Error ->
  (forall j b, k < j -> nth_error final j = Some b -> untouched b)
  /\ invoked events = firstn (S k) agents0.
Proof.
  intros Hout l k a Hl Hk Ha.
  destruct Hout as [succ Hf Hlen Hs Hcl Hi | t1 t2 succ agent msg Ht Hf Hlen Hs Hcl Hi].
  - exfalso. apply (no_error_in _ _ (Hcl l Hl) (nth_error_In _ _ Hk) Ha).
  - destruct (Hcl l Hl) as [->|Hno].
    2:{ exfalso. apply (no_error_in _ _ Hno (nth_error_In _ _ Hk) Ha). }
    simpl in Hf. subst final.
    assert (Hkeq : k = length succ).
    { destruct (nth_error_split _ _ _ _ _ Hk) as [[_ Hin]|[[? _]|[_ Hin]]]; [exfalso | assumption | exfalso].
      - unfold all_success in Hs. rewrite List.Forall_forall in Hs. rewrite (Hs a Hin) in Ha. discriminate.
      - apply in_map_iff in Hin as (x & <- & _). discriminate. }
    split.
    + intros j b Hj Hb. subst k. apply (nth_error_after _ _ _ _ _ Hj) in Hb.
      apply in_map_iff in Hb as (x & <- & _). repeat split.
    + rewrite Hi, Ht, Hkeq, Hlen.
      replace (S (length t1)) with (length t1 + 1) by lia.
      rewrite firstn_app_2. reflexivity.
Qed.

Lemma runWorkflow_stops_at_error (w : World) (st st' : State) (events : list Event) :
  NoDup (map id (agents st)) ->
  runWorkflow w st = (st', events) ->
  forall l k a,
  In (Rendered l) events -> nth_error l k = Some a -> status a = Error ->
  (forall j b, k < j -> nth_error (agents st') j = Some b -> untouched b)
  /\ invoked events = firstn (S k) (agents st).
Proof.
  intros Hnd H l k a Hl Hk Ha. unfold runWorkflow in H.
  destruct (missing_key st); [inversion H; subst; destruct Hl|].
  destruct (run_loop w 0 (agents st) _ _) as [[final st3] events'] eqn:ER.
  inversion H; subst. clear H.
  apply (run_loop_outcome w (agents st) 0 []) in ER; [ | exact Hnd | constructor | reflexivity].
  destruct ER as [Hout Hfin]. simpl agents. rewrite Hfin.
  destruct Hl as [Hl|Hl].
  - exfalso. inversion Hl; subst. apply nth_error_In in Hk.
    apply in_map_iff in Hk as (x & <- & _). discriminate.
  - apply (stops_at_error _ _ _ Hout l k a Hl Hk Ha).
Qed.
End UnifiedFacts.

Module GeminiFacts.
Import Gemini ListFacts.

Lemma gemini_invoked_app (a b : list Event) : invoked (a ++ b) = invoked a ++ invoked b.
Proof.
  induction a as [|[] a IH]; simpl; [reflexivity | exact IH | now rewrite IH | exact IH | exact IH].
Qed.

(** One call hands the loop no snapshot and no further call. *)
Lemma gemini_processAgentPrompt_requests (w : World) (i : nat) (client : option string)
    (p documentContent : string) (outcome : Completion string) (requests : list Event) :
  processAgentPrompt w i client p documentContent = (outcome, requests) ->
  invoked requests = [] /\ (forall l, ~ In (Rendered l) requests).
Proof.
  unfold processAgentPrompt. intros H.
  repeat match type of H with
         | (if ?b then _ else _) = _ => destruct b
         | match ?x with _ => _ end = _ => destruct x
         end;
    inversion H; subst; simpl; (split; [reflexivity|]);
    intros l Hin; simpl in Hin; intuition discriminate.
Qed.


(** *** The loop stops at the first failure *)

Lemma gemini_update_outside (agent : Agent) (f : Agent -> Agent) (l : list Agent) :
  ~ In (id agent) (map id l) -> update agent f l = l.
Proof.
  unfold update. induction l as [|a l IH]; simpl; intros H; [reflexivity|].
  destruct (String.eqb_spec (id a) (id agent)) as [E|E]; [exfalso; apply H; left; exact E|].
  rewrite IH; [reflexivity | tauto].
Qed.

Lemma gemini_update_here (agent : Agent) (f : Agent -> Agent) (before after : list Agent) (a : Agent) :
  id a = id agent ->
  ~ In (id agent) (map id before) -> ~ In (id agent) (map id after) ->
  update agent f (before ++ a :: after) = before ++ f a :: after.
Proof.
  intros Ha Hb Hafter. unfold update. rewrite map_app. simpl.
  fold (update agent f before). fold (update agent f after).
  rewrite (gemini_update_outside _ _ _ Hb), (gemini_update_outside _ _ _ Hafter).
  rewrite Ha, String.eqb_refl. reflexivity.
Qed.

Lemma gemini_map_id_reset (l : list Agent) : map id (map reset l) = map id l.
Proof. rewrite map_map. reflexivity. Qed.

Lemma gemini_no_error_success (l : list Agent) : all_success l -> no_error l.
Proof. apply List.Forall_impl. intros a H. rewrite H. discriminate. Qed.

Lemma gemini_no_error_reset (l : list Agent) : no_error (map reset l).
Proof. apply List.Forall_forall. intros a H. apply in_map_iff in H as (x & <- & _). discriminate. Qed.

Lemma gemini_run_loop_outcome (w : World) (todo : list Agent) :
  forall i done st final st' events,
  NoDup (map id done ++ map id todo) ->
  all_success done ->
  agents st = done ++ map reset todo ->
  run_loop w i todo (done ++ map reset todo) st = (final, st', events) ->
  loop_outcome done todo final events /\ agents st' = final.
Proof.
  induction todo as [|agent rest IH]; intros i done st final st' events Hnd Hdone Hst H.
  - simpl in H. inversion H; subst. split; [|exact Hst].
    apply (completed _ _ _ _ []); simpl; auto; [constructor | intros l []].
  - simpl in H.
    destruct (processAgentPrompt w i (ai st) (prompt agent) (content (documentFile st)))
      as [outcome requests] eqn:E.
    destruct (gemini_processAgentPrompt_requests _ _ _ _ _ _ _ E) as (Hinv & Hnr).
    assert (Hb : ~ In (id agent) (map id done)).
    { intros Hin. apply NoDup_app in Hnd as (_ & Hd & _). apply (Hd (id agent)).
      - apply list_elem_of_In. exact Hin.
      - simpl. left. }
    assert (Ha : ~ In (id agent) (map id (map reset rest))).
    { rewrite gemini_map_id_reset. apply NoDup_app in Hnd as (_ & _ & Hr). simpl in Hr.
      apply NoDup_cons in Hr as [Hr _]. intros Hin. apply Hr. apply list_elem_of_In. exact Hin. }
    assert (H1 : update agent running (done ++ reset agent :: map reset rest)
                 = done ++ running (reset agent) :: map reset rest).
    { apply gemini_update_here; auto. }
    assert (Hclean1 : no_error (done ++ running (reset agent) :: map reset rest)).
    { apply Forall_app. split; [apply gemini_no_error_success; exact Hdone|].
      constructor; [discriminate | apply gemini_no_error_reset]. }
    simpl map in H. rewrite H1 in H.
    destruct outcome as [out|e].
    + assert (H2 : update agent (succeeded out (parseJsonOutput out))
                     (done ++ running (reset agent) :: map reset rest)
                   = (done ++ [succeeded out (parseJsonOutput out) (running (reset agent))])
                     ++ map reset rest).
      { rewrite gemini_update_here; auto. rewrite <- app_assoc. reflexivity. }
      rewrite H2 in H.
      destruct (run_loop w (S i) rest _ _) as [[final' st3] events'] eqn:ER.
      inversion H; subst. clear H.
      assert (Hdone' : all_success (done ++ [succeeded out (parseJsonOutput out) (running (reset agent))])).
      { apply Forall_app. split; [exact Hdone | constructor; [reflexivity | constructor]]. }
      apply IH in ER; [ | | exact Hdone' | reflexivity].
      2:{ rewrite map_app. simpl. rewrite <- app_assoc. simpl. exact Hnd. }
      destruct ER as [Hout Hfin]. split; [|exact Hfin].
      assert (Hclean2 : no_error ((done ++ [succeeded out (parseJsonOutput out) (running (reset agent))])
                                  ++ map reset rest)).
      { apply Forall_app. split; [apply gemini_no_error_success; exact Hdone' | apply gemini_no_error_reset]. }
      assert (Hev : forall l,
                 In (Rendered l)
                   (Rendered (done ++ running (reset agent) :: map reset rest)
                    :: Invoked (prompt agent) (content (documentFile st)) :: requests
                    ++ Rendered ((done ++ [succeeded out (parseJsonOutput out) (running (reset agent))])
                                 ++ map reset rest) :: events') ->
                 no_error l \/ In (Rendered l) events').
      { intros l [Hl|[Hl|Hl]]; [inversion Hl; subst; auto | discriminate |].
        apply in_app_or in Hl as [Hl|[Hl|Hl]]; [exfalso; apply (Hnr l Hl) | inversion Hl; subst; auto | auto]. }
      destruct Hout as [succ Hf Hlen Hs Hcl Hi | t1 t2 succ a msg Ht Hf Hlen Hs Hcl Hi].
      * apply (completed _ _ _ _ (succeeded out (parseJsonOutput out) (running (reset agent)) :: succ)).
        -- rewrite Hf, <- app_assoc. reflexivity.
        -- simpl. lia.
        -- constructor; [reflexivity | exact Hs].
        -- intros l Hl. destruct (Hev l Hl) as [?|Hin]; [assumption | apply (Hcl l Hin)].
        -- simpl. rewrite gemini_invoked_app, Hinv. simpl. rewrite Hi. reflexivity.
      * apply (stopped _ _ _ _ (agent :: t1) t2
                 (succeeded out (parseJsonOutput out) (running (reset agent)) :: succ) a msg).
        -- rewrite Ht. reflexivity.
        -- rewrite Hf, <- !app_assoc. reflexivity.
        -- simpl. lia.
        -- constructor; [reflexivity | exact Hs].
        -- intros l Hl. destruct (Hev l Hl) as [?|Hin]; [right; assumption | apply (Hcl l Hin)].
        -- simpl. rewrite gemini_invoked_app, Hinv. simpl. rewrite Hi. reflexivity.
    + set (msg := if instanceof_Error e then message e else "An unknown error occurred") in *.
      assert (H2 : update agent (failed msg) (done ++ running (reset agent) :: map reset rest)
                   = done ++ failed msg (running (reset agent)) :: map reset rest).
      { apply gemini_update_here; auto. }
      rewrite H2 in H. inversion H; subst. clear H. split; [|reflexivity].
      apply (stopped _ _ _ _ [] rest [] agent msg); simpl; auto.
      * rewrite app_nil_r. reflexivity.
      * constructor.
      * intros l [Hl|[Hl|Hl]]; [inversion Hl; subst; auto | discriminate |].
        apply in_app_or in Hl as [Hl|[Hl|[]]]; [exfalso; apply (Hnr l Hl) |].
        inversion Hl; subst. left. reflexivity.
      * rewrite gemini_invoked_app, Hinv. reflexivity.
Qed.

Lemma gemini_no_error_in (l : list Agent) (a : Agent) :
  no_error l -> In a l -> status a <> Error.
Proof. unfold no_error. rewrite List.Forall_forall. auto. Qed.

Lemma gemini_stops_at_error (agents0 final : list Agent) (events : list Event) :
  loop_outcome [] agents0 final events ->
  forall l k a,
  In (Rendered l) events -> nth_error l k = Some a -> status a = Error ->
  (forall j b, k < j -> nth_error final j = Some b -> untouched b)
  /\ invoked events = map prompt (firstn (S k) agents0).
Proof.
  intros Hout l k a Hl Hk Ha.
  destruct Hout as [succ Hf Hlen Hs Hcl Hi | t1 t2 succ agent msg Ht Hf Hlen Hs Hcl Hi].
  - exfalso. apply (gemini_no_error_in _ _ (Hcl l Hl) (nth_error_In _ _ Hk) Ha).
  - destruct (Hcl l Hl) as [->|Hno].
    2:{ exfalso. apply (gemini_no_error_in _ _ Hno (nth_error_In _ _ Hk) Ha). }
    simpl in Hf. subst final.
    assert (Hkeq : k = length succ).
    { destruct (nth_error_split _ _ _ _ _ Hk) as [[_ Hin]|[[? _]|[_ Hin]]]; [exfalso | assumption | exfalso].
      - unfold all_success in Hs. rewrite List.Forall_forall in Hs. rewrite (Hs a Hin) in Ha. discriminate.
      - apply in_map_iff in Hin as (x & <- & _). discriminate. }
    split.
    + intros j b Hj Hb. subst k. apply (nth_error_after _ _ _ _ _ Hj) in Hb.
      apply in_map_iff in Hb as (x & <- & _). repeat split.
    + rewrite Hi, Ht, Hkeq, Hlen.
      replace (S (length t1)) with (length t1 + 1) by lia.
      rewrite firstn_app_2. reflexivity.
Qed.



Lemma gemini_analyzeResults_agents (currentAgents : list Agent) (st st' : State) :
  analyzeResults currentAgents st = Normal st' -> agents st' = agents st.
Proof.
  unfold analyzeResults. intros H.
  repeat match type of H with
         | (if ?b then _ else _) = _ => destruct b
         | match ?x with _ => _ end = _ => destruct x
         end; inversion H; subst; reflexivity.
Qed.

Lemma gemini_runWorkflow_stops_at_error (w : World) (st st' : State) (events : list Event)
    (thrown : option Thrown) :
  NoDup (map id (agents st)) ->
  runWorkflow w st = (st', events, thrown) ->
  forall l k a,
  In (Rendered l) events -> nth_error l k = Some a -> status a = Error ->
  (forall j b, k < j -> nth_error (agents st') j = Some b -> untouched b)
  /\ invoked events = map prompt (firstn (S k) (agents st)).
Proof.
  intros Hnd H l k a Hl Hk Ha. unfold runWorkflow in H.
  destruct (negb (isApiKeySet st)); [inversion H; subst; destruct Hl|].
  destruct (negb (Js.truthy (content (documentFile st)))
            || DocumentType_eqb (doc_type (documentFile st)) EMPTY).
  { inversion H; subst. destruct Hl as [Hl|[]]. discriminate. }
  destruct (run_loop w 0 (agents st) _ _) as [[final st3] events'] eqn:ER.
  apply (gemini_run_loop_outcome w (agents st) 0 []) in ER; [ | exact Hnd | constructor | reflexivity].
  destruct ER as [Hout Hfin].
  assert (Hst' : agents st' = final /\ events = Rendered (map reset (agents st)) :: events').
  { destruct (analyzeResults final st3) as [st4|e] eqn:EA; inversion H; subst.
    - simpl. rewrite (gemini_analyzeResults_agents _ _ _ EA). auto.
    - auto. }
  destruct Hst' as [-> ->].
  destruct Hl as [Hl|Hl].
  - exfalso. inversion Hl; subst. apply nth_error_In in Hk.
    apply in_map_iff in Hk as (x & <- & _). discriminate.
  - apply (gemini_stops_at_error _ _ _ Hout l k a Hl Hk Ha).
Qed.

(** The guard on the document: with a key set and no document, the run
    only alerts. *)
Lemma gemini_runWorkflow_needs_document (w : World) (st : State) :
  isApiKeySet st = true ->
  content (documentFile st) = EmptyString \/ doc_type (documentFile st) = EMPTY ->
  runWorkflow w st = (st, [Alerted "Please load a document first."], None).
Proof.
  intros Hkey Hdoc. unfold runWorkflow. rewrite Hkey. simpl negb.
  destruct Hdoc as [-> | ->]; [reflexivity|].
  rewrite orb_true_r. reflexivity.
Qed.

End GeminiFacts.

Module AnalysisFacts.

(** The histogram read from a non-empty string label. *)
Lemma sentiment_of_label (ps : list (string * JSON.value)) (label : string) :
  JSON.lookup "sentiment" ps = Some (JSON.JString label) ->
  Js.truthy label = true ->
  exists h,
    sentiment_of (Some (JSON.JObject ps)) = Normal (Some h)
    /\ (Js.toLowerCase label = "positive" -> h = {| positive := 1; negative := 0; neutral := 0 |})
    /\ (Js.toLowerCase label = "negative" -> h = {| positive := 0; negative := 1; neutral := 0 |})
    /\ (Js.toLowerCase label <> "positive" -> Js.toLowerCase label <> "negative" ->
        h = {| positive := 0; negative := 0; neutral := 1 |})
    /\ (positive h + negative h + neutral h = 1)%Z.
Proof.
  intros Hl Ht. unfold sentiment_of. cbn [JSON.get]. rewrite Hl. cbn [JSON.truthy_opt JSON.truthy].
  rewrite Ht.
  destruct (String.eqb_spec (Js.toLowerCase label) "positive") as [Ep|Ep].
  - eexists. split; [reflexivity|]. rewrite Ep. repeat split; try reflexivity; congruence.
  - destruct (String.eqb_spec (Js.toLowerCase label) "negative") as [En|En].
    + eexists. split; [reflexivity|]. rewrite En. repeat split; try reflexivity; congruence.
    + eexists. split; [reflexivity|]. repeat split; try reflexivity; congruence.
Qed.

(** Without a truthy label there is no histogram. *)
Lemma sentiment_of_falsy (json : JSON.value) :
  JSON.truthy_opt (JSON.get json "sentiment") = false ->
  sentiment_of (Some json) = Normal None.
Proof. intros H. unfold sentiment_of. destruct json; try rewrite H; reflexivity. Qed.

(** The labels that are not truthy. *)
Lemma falsy_label (x : option JSON.value) :
  JSON.truthy_opt x = false <->
  x = None \/ x = Some JSON.JNull \/ x = Some (JSON.JBool false)
  \/ x = Some (JSON.JString EmptyString)
  \/ exists lit, x = Some (JSON.JNumber lit) /\ JSON.denotes_zero lit = true.
Proof.
  split.
  - destruct x as [v|]; [|left; reflexivity].
    destruct v as [|b|lit|s|l|ps]; cbn [JSON.truthy_opt JSON.truthy]; intros H;
      try discriminate.
    + right; left. reflexivity.
    + destruct b; [discriminate|]. right; right; left. reflexivity.
    + do 4 right. exists lit. split; [reflexivity|]. apply negb_false_iff in H. exact H.
    + destruct s; [|discriminate]. right; right; right; left. reflexivity.
  - intros [->|[->|[->|[->|(lit & -> & H)]]]]; cbn [JSON.truthy_opt JSON.truthy Js.truthy];
      try reflexivity.
    rewrite H. reflexivity.
Qed.

End AnalysisFacts.

Module RegistryFacts.

(** Distinct clock readings print differently. *)
Lemma of_integer_inj (a b : Z) : Js.of_integer a = Js.of_integer b -> a = b.
Proof.
  unfold Js.of_integer. intros H.
  assert (Hnn : forall z, Z.to_int z <> Decimal.Pos Decimal.Nil /\ Z.to_int z <> Decimal.Neg Decimal.Nil).
  { intros [|p|p]; simpl; split; try discriminate; intros E; inversion E as [E'];
      apply (Unsigned.to_uint_nonnil p E'). }
  destruct (Hnn a) as [Ha1 Ha2]. destruct (Hnn b) as [Hb1 Hb2].
  pose proof (NilZero.isi _ Ha1 Ha2) as Ia. pose proof (NilZero.isi _ Hb1 Hb2) as Ib.
  rewrite H in Ia. rewrite Ia in Ib. inversion Ib as [E].
  rewrite <- (DecimalZ.of_to a), <- (DecimalZ.of_to b), E. reflexivity.
Qed.

Lemma append_inj_l (p a b : string) : p +:+ a = p +:+ b -> a = b.
Proof. induction p as [|c p IH]; simpl; intros H; [exact H | inversion H; auto]. Qed.

Lemma agent_id_inj (a b : Z) :
  "agent-" +:+ Js.of_integer a = "agent-" +:+ Js.of_integer b -> a = b.
Proof. intros H. apply of_integer_inj. apply (append_inj_l "agent-"). exact H. Qed.

Lemma not_NoDup_twice {A : Type} (l : list A) (x : A) : ~ List.NoDup (l ++ [x; x]).
Proof.
  intros H. apply List.NoDup_remove_2 in H. apply H. apply in_or_app. right. left. reflexivity.
Qed.

End RegistryFacts.

Module PreconditionFacts.
Import Unified.

Lemma requires_has (st : State) (p : string) :
  bool_decide (p ∈ (list_to_set (map (fun a => provider_of (model a)) (agents st)) : gset string))
  = true <-> requires st p.
Proof.
  unfold requires. rewrite bool_decide_eq_true, elem_of_list_to_set, list_elem_of_In. reflexivity.
Qed.

Lemma requires_has_not (st : State) (p : string) :
  bool_decide (p ∈ (list_to_set (map (fun a => provider_of (model a)) (agents st)) : gset string))
  = false <-> ~ requires st p.
Proof.
  rewrite <- requires_has. destruct (bool_decide _); split; intros; congruence.
Qed.

(** The message of the first provider, Gemini before OpenAI, that is named
    by an agent and has no key. *)
Lemma missing_key_first (st : State) :
  (requires st "gemini" /\ isGeminiKeySet st = false) \/
  (requires st "openai" /\ isOpenAIKeySet st = false) ->
  exists msg,
    missing_key st = Some msg
    /\ (requires st "gemini" /\ isGeminiKeySet st = false ->
        msg = "A Gemini API key is required for this workflow.")
    /\ (~ (requires st "gemini" /\ isGeminiKeySet st = false) ->
        msg = "An OpenAI API key is required for this workflow.").
Proof.
  intros H. unfold missing_key.
  destruct (bool_decide ("gemini" ∈ _)) eqn:Eg.
  - apply requires_has in Eg. destruct (isGeminiKeySet st) eqn:Kg; simpl.
    + destruct H as [[_ H]|[Ho Ko]]; [discriminate|].
      apply requires_has in Ho. rewrite Ho, Ko. simpl.
      eexists. split; [reflexivity|]. split; [intros [_ ?]; discriminate | reflexivity].
    + eexists. split; [reflexivity|]. split; [reflexivity | intros Hn; exfalso; apply Hn; auto].
  - apply requires_has_not in Eg. simpl.
    destruct H as [[Hg _]|[Ho Ko]]; [contradiction|].
    apply requires_has in Ho. rewrite Ho, Ko. simpl.
    eexists. split; [reflexivity|]. split; [intros [? _]; contradiction | reflexivity].
Qed.

End PreconditionFacts.

Module KeyFacts.
Import Unified UnifiedFacts.

Lemma update_no_error (agent : Agent) (f : Agent -> Agent) (l : list Agent) :
  (forall a, status (f a) <> Error) -> no_error l -> no_error (update agent f l).
Proof.
  intros Hf Hl. unfold no_error, update in *. rewrite List.Forall_forall in *.
  intros a Ha. apply in_map_iff in Ha as (x & <- & Hx).
  destruct (String.eqb (id x) (id agent)); [apply Hf | apply (Hl x Hx)].
Qed.

Lemma update_failed_message (agent : Agent) (msg : string) (l : list Agent) (a : Agent) :
  no_error l -> In a (update agent (failed msg) l) -> status a = Error -> error a = Some msg.
Proof.
  intros Hl Ha Hs. unfold update in Ha. apply in_map_iff in Ha as (x & <- & Hx).
  destruct (String.eqb (id x) (id agent)); [reflexivity|].
  exfalso. apply (no_error_in l x Hl Hx Hs).
Qed.

Lemma on_error_user_keys (m : string) (l : list Agent) (st : State) :
  userGeminiApiKey (on_error m (setAgents l st)) = userGeminiApiKey (on_error m st)
  /\ userOpenAIApiKey (on_error m (setAgents l st)) = userOpenAIApiKey (on_error m st).
Proof.
  unfold on_error. destruct (Js.includes "API key" m); [|auto].
  destruct (Js.includes "gemini" (Js.toLowerCase m)), (Js.includes "openai" (Js.toLowerCase m));
    auto.
Qed.

(** A run that renders an agent in error has failed once, with one message;
    the stored keys are then those that [on_error] leaves for that message.
    A run that renders none leaves the stored keys alone. *)
Lemma run_loop_failure (w : World) (todo : list Agent) :
  forall i cur st final st' events,
  no_error cur ->
  run_loop w i todo cur st = (final, st', events) ->
  ((forall l, In (Rendered l) events -> no_error l)
   /\ userGeminiApiKey st' = userGeminiApiKey st
   /\ userOpenAIApiKey st' = userOpenAIApiKey st)
  \/ (exists msg,
        (forall l a, In (Rendered l) events -> In a l -> status a = Error -> error a = Some msg)
        /\ userGeminiApiKey st' = userGeminiApiKey (on_error msg st)
        /\ userOpenAIApiKey st' = userOpenAIApiKey (on_error msg st)).
Proof.
  induction todo as [|agent rest IH]; intros i cur st final st' events Hcur H; simpl in H.
  - inversion H; subst. left. split; [intros l []|auto].
  - destruct (unifiedProcessAgentPrompt w i (geminiAI st) (openai st) agent (content (documentFile st)))
      as [outcome requests] eqn:E.
    destruct (unifiedProcessAgentPrompt_requests _ _ _ _ _ _ _ _ E) as (_ & _ & Hnr & _).
    assert (H1 : no_error (update agent running cur)).
    { apply update_no_error; [discriminate | exact Hcur]. }
    destruct outcome as [out|e].
    + assert (H2 : no_error (update agent (succeeded out (parseJsonOutput out))
                               (update agent running cur))).
      { apply update_no_error; [discriminate | exact H1]. }
      destruct (run_loop w (S i) rest _ _) as [[final' st3] events'] eqn:ER.
      inversion H; subst. clear H.
      assert (Hev : forall l,
                 In (Rendered l)
                   (Rendered (update agent running cur)
                    :: Invoked agent (content (documentFile st)) :: requests
                    ++ Rendered (update agent (succeeded out (parseJsonOutput out))
                                   (update agent running cur)) :: events') ->
                 no_error l \/ In (Rendered l) events').
      { intros l [Hl|[Hl|Hl]]; [inversion Hl; subst; auto | discriminate |].
        apply in_app_or in Hl as [Hl|[Hl|Hl]];
          [exfalso; apply (Hnr l Hl) | inversion Hl; subst; auto | auto]. }
      destruct (IH _ _ _ _ _ _ H2 ER) as [(Hcl & Kg & Ko) | (msg & Hm & Kg & Ko)].
      * left. split; [|split; [exact Kg | exact Ko]].
        intros l Hl. destruct (Hev l Hl) as [?|Hin]; [assumption | apply (Hcl l Hin)].
      * right. exists msg. split.
        -- intros l a Hl Ha Hs. destruct (Hev l Hl) as [Hno|Hin].
           ++ exfalso. apply (no_error_in l a Hno Ha Hs).
           ++ apply (Hm l a Hin Ha Hs).
        -- rewrite Kg, Ko.
           destruct (on_error_user_keys msg (update agent running cur) st) as [E1 E2].
           destruct (on_error_user_keys msg
                       (update agent (succeeded out (parseJsonOutput out)) (update agent running cur))
                       (setAgents (update agent running cur) st)) as [E3 E4].
           rewrite E3, E4, E1, E2. auto.
    + set (msg := if instanceof_Error e then message e else "An unknown error occurred") in *.
      inversion H; subst. clear H. right. exists msg. split.
      * intros l a [Hl|[Hl|Hl]] Ha Hs; [inversion Hl; subst | discriminate |].
        -- exfalso. apply (no_error_in _ a H1 Ha Hs).
        -- apply in_app_or in Hl as [Hl|[Hl|[]]]; [exfalso; apply (Hnr l Hl)|].
           inversion Hl; subst. apply (update_failed_message agent msg _ a H1 Ha Hs).
      * cbn [setAgents userGeminiApiKey userOpenAIApiKey].
        apply on_error_user_keys.
Qed.

Lemma on_error_invalid_gemini (st : State) :
  userGeminiApiKey (on_error invalid_gemini_key st) = EmptyString
  /\ userOpenAIApiKey (on_error invalid_gemini_key st) = userOpenAIApiKey st.
Proof. split; reflexivity. Qed.

Lemma on_error_invalid_openai (st : State) :
  userOpenAIApiKey (on_error invalid_openai_key st) = EmptyString
  /\ userGeminiApiKey (on_error invalid_openai_key st) = userGeminiApiKey st.
Proof. split; reflexivity. Qed.

End KeyFacts.

Module ApiServiceFacts.

Lemma processAgentPrompt_requests (w : World) (i : nat) (g o : option string)
    (agent : Unified.Agent) (documentContent : string) :
  Unified.prompts (snd (ApiService.processAgentPrompt w i g o agent documentContent)) = []
  \/ Unified.prompts (snd (ApiService.processAgentPrompt w i g o agent documentContent))
     = [fullPrompt documentContent (Unified.prompt agent)].
Proof.
  unfold ApiService.processAgentPrompt.
  repeat match goal with
         | |- context [if ?b then _ else _] => destruct b
         | |- context [match ?x with _ => _ end] => destruct x
         end; simpl; auto.
Qed.

End ApiServiceFacts.

(** * The claims *)

(** C1 -- in a run over agents with pairwise distinct ids, once a render
    shows the agent at index [k] in Error, every agent after [k] is, when
    the run finishes, as the reset left it (Pending, no output, no error, no
    parsed output), and the agents handed to the provider call are exactly
    those up to [k]; for the multi-provider and the single-provider run.
    The loop finds the agent to update by its id, and ids are not always
    distinct: after two [addAgent] calls within one clock reading, the
    failure of the first agent marks the second as failed too, although it
    was never handed to the provider call. *)
Theorem C1_error_stops_the_run (w : World) :
  (forall (st st' : Unified.State) (events : list Unified.Event),
     NoDup (map Unified.id (Unified.agents st)) ->
     Unified.runWorkflow w st = (st', events) ->
     forall l k a,
     In (Unified.Rendered l) events -> nth_error l k = Some a -> Unified.status a = Error ->
     (forall j b, k < j -> nth_error (Unified.agents st') j = Some b -> Unified.untouched b)
     /\ Unified.invoked events = firstn (S k) (Unified.agents st))
  /\ (forall (st st' : Gemini.State) (events : list Gemini.Event) (thrown : option Thrown),
       NoDup (map Gemini.id (Gemini.agents st)) ->
       Gemini.runWorkflow w st = (st', events, thrown) ->
       forall l k a,
       In (Gemini.Rendered l) events -> nth_error l k = Some a -> Gemini.status a = Error ->
       (forall j b, k < j -> nth_error (Gemini.agents st') j = Some b -> Gemini.untouched b)
       /\ Gemini.invoked events = map Gemini.prompt (firstn (S k) (Gemini.agents st)))
  /\ (let st :=
        Unified.addAgent 1700000000000 Scenario.sentiment_analyzer
          (Unified.addAgent 1700000000000 Scenario.summarizer
             (Unified.setDocumentFile Scenario.report
                (Unified.initial "env-gemini-key" "" "" ""))) in
      let st' := fst (Unified.runWorkflow Scenario.rejecting st) in
      let events := snd (Unified.runWorkflow Scenario.rejecting st) in
      map Unified.id (Unified.agents st) = ["agent-1700000000000"; "agent-1700000000000"]
      /\ map Unified.name (Unified.invoked events) = ["Summarizer"]
      /\ map Unified.status (Unified.agents st') = [Error; Error]
      /\ map Unified.error (Unified.agents st')
         = [Some Unified.invalid_gemini_key; Some Unified.invalid_gemini_key])
  /\ (let gst :=
        Gemini.addAgent 1700000000000 Scenario.sentiment_analyzer
          (Gemini.addAgent 1700000000000 Scenario.summarizer
             (Gemini.setDocumentFile Scenario.report (Gemini.initial "env-key" ""))) in
      let '(gst', gevents, _) := Gemini.runWorkflow Scenario.rejecting gst in
      Gemini.invoked gevents = ["Summarize the document."]
      /\ map Gemini.status (Gemini.agents gst') = [Error; Error]).
Proof.
  split; [|split; [|split]].
  - intros st st' events. apply UnifiedFacts.runWorkflow_stops_at_error.
  - intros st st' events thrown. apply GeminiFacts.gemini_runWorkflow_stops_at_error.
  - vm_compute. repeat split.
  - vm_compute. repeat split.
Qed.

Lemma C1_error_stops_the_run_witness :
  let w := Scenario.failing_after_first "A summary." in
  let st :=
    Unified.setDocumentFile Scenario.report
      (Unified.addAgent 3 Scenario.summarizer
         (Unified.addAgent 2 Scenario.sentiment_analyzer
            (Unified.addAgent 1 Scenario.summarizer (Unified.initial "env-gemini-key" "" "" "")))) in
  let st' := fst (Unified.runWorkflow w st) in
  let events := snd (Unified.runWorkflow w st) in
  map Unified.status (Unified.agents st') = [Success; Error; Pending]
  /\ (forall b, nth_error (Unified.agents st') 2 = Some b -> Unified.untouched b)
  /\ Unified.invoked events = firstn 2 (Unified.agents st).
Proof.
  intros w st st' events. split; [reflexivity|].
  assert (Hnd : NoDup (map Unified.id (Unified.agents st))).
  { apply NoDup_ListNoDup. repeat constructor; simpl; intuition discriminate. }
  assert (Hin : In (Unified.Rendered (Unified.agents st')) events).
  { vm_compute. repeat (first [left; reflexivity | right]). }
  destruct (proj1 (C1_error_stops_the_run w) st st' events Hnd eq_refl
              (Unified.agents st') 1 (Unified.failed "Failed to get response from Gemini API."
                 (Unified.running (Unified.reset
                    {| Unified.id := "agent-2"; Unified.name := "Sentiment Analyzer";
                       Unified.prompt := "Return the sentiment of the document as JSON.";
                       Unified.model := Unified.default_model; Unified.status := Pending;
                       Unified.output := None; Unified.error := None;
                       Unified.outputJson := JSON.JNull |})))
              Hin eq_refl eq_refl) as [Hrest Hinv].
  split; [exact (fun b => Hrest 2 b ltac:(lia)) | exact Hinv].
Defined.

(** C2, as the specification words it, fails: a brace span that starts
    before a fenced block wins over the block, a span runs to the last
    closing character (so two literals in one text give no value), and
    [src/App.tsx] does not look for object or array literals at all. *)
Lemma C2_counterexample :
  (Gemini.parseJsonOutput ("{} " +:+ RegExp.fenced "[2]") = JSON.JObject []
   /\ Claimed.extractJson ("{} " +:+ RegExp.fenced "[2]") = JSON.JArray [JSON.JNumber "2"]
   /\ Gemini.parseJsonOutput ("{} " +:+ RegExp.fenced "[2]")
      <> Claimed.extractJson ("{} " +:+ RegExp.fenced "[2]"))
  /\ (Gemini.parseJsonOutput "[1] and [2]" = JSON.JNull
      /\ Claimed.extractJson "[1] and [2]" = JSON.JArray [JSON.JNumber "1"]
      /\ Gemini.parseJsonOutput "[1] and [2]" <> Claimed.extractJson "[1] and [2]")
  /\ (Unified.parseJsonOutput "Result: [1,2]" = JSON.JNull
      /\ Claimed.extractJson "Result: [1,2]" = JSON.JArray [JSON.JNumber "1"; JSON.JNumber "2"]
      /\ Unified.parseJsonOutput "Result: [1,2]" <> Claimed.extractJson "Result: [1,2]").
Proof. vm_compute. repeat split; discriminate. Qed.

(** C2, amended -- [parseJsonOutput] parses one candidate, and the result is
    its value, or [null] when it does not parse.  In the single-provider
    revision the candidate is found at the leftmost position of the text
    where an alternative of the pattern matches: a fenced block tagged json
    (the candidate is its interior, up to the first closing fence), or an
    opening brace with a closing brace after it (the candidate runs to the
    last closing brace of the text), or an opening bracket with a closing
    bracket after it (the candidate runs to the last closing bracket);
    without a match anywhere the candidate is the whole text; every text is
    in one of these cases.  In [src/App.tsx] the candidate is the interior
    of the leftmost fenced block, else the whole text. *)
Theorem C2_candidate_selected (text : string) :
  (forall pre body post,
     text = pre +:+ RegExp.fence_open +:+ body +:+ RegExp.fence_close +:+ post ->
     Js.includes RegExp.fence_close body = false ->
     Matching.leftmost Matching.starts_match pre
       (RegExp.fence_open +:+ body +:+ RegExp.fence_close +:+ post) ->
     Gemini.parseJsonOutput text = JSON.or_null (JSON.parse body))
  /\ (forall pre mid post,
        text = pre +:+ "{" +:+ mid +:+ "}" +:+ post -> Js.avoids "}" post = true ->
        Matching.leftmost Matching.starts_match pre ("{" +:+ mid +:+ "}" +:+ post) ->
        Gemini.parseJsonOutput text = JSON.or_null (JSON.parse ("{" +:+ mid +:+ "}")))
  /\ (forall pre mid post,
        text = pre +:+ "[" +:+ mid +:+ "]" +:+ post -> Js.avoids "]" post = true ->
        Matching.leftmost Matching.starts_match pre ("[" +:+ mid +:+ "]" +:+ post) ->
        Gemini.parseJsonOutput text = JSON.or_null (JSON.parse ("[" +:+ mid +:+ "]")))
  /\ (Matching.nowhere Matching.starts_match text ->
      Gemini.parseJsonOutput text = JSON.or_null (JSON.parse text))
  /\ ((exists pre body post,
         text = pre +:+ RegExp.fence_open +:+ body +:+ RegExp.fence_close +:+ post
         /\ Js.includes RegExp.fence_close body = false
         /\ Matching.leftmost Matching.starts_match pre
              (RegExp.fence_open +:+ body +:+ RegExp.fence_close +:+ post))
      \/ (exists pre mid post,
            text = pre +:+ "{" +:+ mid +:+ "}" +:+ post /\ Js.avoids "}" post = true
            /\ Matching.leftmost Matching.starts_match pre ("{" +:+ mid +:+ "}" +:+ post))
      \/ (exists pre mid post,
            text = pre +:+ "[" +:+ mid +:+ "]" +:+ post /\ Js.avoids "]" post = true
            /\ Matching.leftmost Matching.starts_match pre ("[" +:+ mid +:+ "]" +:+ post))
      \/ Matching.nowhere Matching.starts_match text)
  /\ (forall pre body post,
        text = pre +:+ RegExp.fence_open +:+ body +:+ RegExp.fence_close +:+ post ->
        Js.includes RegExp.fence_close body = false ->
        Matching.leftmost Matching.starts_fenced pre
          (RegExp.fence_open +:+ body +:+ RegExp.fence_close +:+ post) ->
        Unified.parseJsonOutput text = JSON.or_null (JSON.parse body))
  /\ (Matching.nowhere Matching.starts_fenced text ->
      Unified.parseJsonOutput text = JSON.or_null (JSON.parse text))
  /\ ((exists pre body post,
         text = pre +:+ RegExp.fence_open +:+ body +:+ RegExp.fence_close +:+ post
         /\ Js.includes RegExp.fence_close body = false
         /\ Matching.leftmost Matching.starts_fenced pre
              (RegExp.fence_open +:+ body +:+ RegExp.fence_close +:+ post))
      \/ Matching.nowhere Matching.starts_fenced text).
Proof.
  split; [|split; [|split; [|split; [|split; [|split; [|split]]]]]].
  - intros pre body post -> Hbody Hleft. unfold Gemini.parseJsonOutput.
    rewrite (MatchingFacts.jsonString_leftmost_fence pre body post Hbody Hleft).
    rewrite MatchingFacts.parse_any_fence. reflexivity.
  - intros pre mid post -> Hpost Hleft. unfold Gemini.parseJsonOutput.
    change (pre +:+ "{" +:+ mid +:+ "}" +:+ post) with (pre +:+ String "{" (mid +:+ String "}" post)).
    rewrite (MatchingFacts.jsonString_leftmost_span "{" "}" pre mid post
               (or_introl (conj eq_refl eq_refl)) Hpost Hleft).
    reflexivity.
  - intros pre mid post -> Hpost Hleft. unfold Gemini.parseJsonOutput.
    change (pre +:+ "[" +:+ mid +:+ "]" +:+ post) with (pre +:+ String "[" (mid +:+ String "]" post)).
    rewrite (MatchingFacts.jsonString_leftmost_span "[" "]" pre mid post
               (or_intror (conj eq_refl eq_refl)) Hpost Hleft).
    reflexivity.
  - intros H. unfold Gemini.parseJsonOutput. rewrite (MatchingFacts.jsonString_nowhere text H).
    reflexivity.
  - apply MatchingFacts.jsonString_cases.
  - intros pre body post -> Hbody Hleft. unfold Unified.parseJsonOutput.
    rewrite (MatchingFacts.candidate_leftmost_fence pre body post Hbody Hleft). reflexivity.
  - intros H. unfold Unified.parseJsonOutput. rewrite (MatchingFacts.candidate_nowhere text H).
    reflexivity.
  - apply MatchingFacts.candidate_cases.
Qed.

Lemma C2_candidate_selected_witness :
  let block := RegExp.fence_open +:+ "[1, 2]" +:+ RegExp.fence_close +:+ " done." in
  Matching.leftmost Matching.starts_match "Use `jq` on { it: " block
  /\ Gemini.parseJsonOutput ("Use `jq` on { it: " +:+ block)
     = JSON.JArray [JSON.JNumber "1"; JSON.JNumber "2"]
  /\ Unified.parseJsonOutput ("Use `jq` on { it: " +:+ block)
     = JSON.JArray [JSON.JNumber "1"; JSON.JNumber "2"]
  /\ Gemini.parseJsonOutput ("See " +:+ "{" +:+ "} or " +:+ block +:+ " {" +:+ "}" +:+ ".")
     = JSON.or_null (JSON.parse ("{" +:+ "} or " +:+ block +:+ " {" +:+ "}"))
  /\ Gemini.parseJsonOutput "Result: 42" = JSON.JNull.
Proof.
  intros block.
  assert (Hl : Matching.leftmost Matching.starts_match "Use `jq` on { it: " block)
    by (apply MatchingFacts.unmatched_leftmost; reflexivity).
  assert (Hu : Matching.leftmost Matching.starts_fenced "Use `jq` on { it: " block)
    by (apply MatchingFacts.unmatched_fence_leftmost; reflexivity).
  split; [exact Hl|].
  destruct (C2_candidate_selected ("Use `jq` on { it: " +:+ block))
    as (Hf & _ & _ & _ & _ & Uf & _).
  split; [exact (Hf "Use `jq` on { it: " "[1, 2]" " done." eq_refl eq_refl Hl)|].
  split; [exact (Uf "Use `jq` on { it: " "[1, 2]" " done." eq_refl eq_refl Hu)|].
  split.
  - destruct (C2_candidate_selected ("See " +:+ "{" +:+ "} or " +:+ block +:+ " {" +:+ "}" +:+ "."))
      as (_ & Hb & _).
    apply (Hb "See " ("} or " +:+ block +:+ " {") "." eq_refl eq_refl).
    apply MatchingFacts.unmatched_leftmost. reflexivity.
  - destruct (C2_candidate_selected "Result: 42") as (_ & _ & _ & Hn & _).
    rewrite Hn; [reflexivity|].
    intros p1 p2 Hp. apply MatchingFacts.json_pattern_at_none.
    apply (proj1 (MatchingFacts.search_none RegExp.json_pattern_at "Result: 42") eq_refl p1 p2 Hp).
Defined.


(** C4 -- the guard on the document exists in the single-provider revision
    only.  There, with a key set and a document of type EMPTY, [runWorkflow]
    alerts and changes nothing.  [runWorkflow] of [src/App.tsx] has no such
    guard: with the keys it needs and at least one agent, whatever the
    document, it resets the agents, sets the first one running and hands it
    to the provider call together with the document content. *)
Theorem C4_empty_document_is_dispatched (w : World) :
  (forall st : Gemini.State,
     Gemini.isApiKeySet st = true -> doc_type (Gemini.documentFile st) = EMPTY ->
     Gemini.runWorkflow w st = (st, [Gemini.Alerted "Please load a document first."], None))
  /\ (forall (st : Unified.State) (agent : Unified.Agent) (rest : list Unified.Agent),
        doc_type (Unified.documentFile st) = EMPTY ->
        Unified.missing_key st = None ->
        Unified.agents st = agent :: rest ->
        exists later,
          snd (Unified.runWorkflow w st)
          = Unified.Rendered (map Unified.reset (Unified.agents st))
            :: Unified.Rendered (Unified.update agent Unified.running
                                   (map Unified.reset (Unified.agents st)))
            :: Unified.Invoked agent (content (Unified.documentFile st))
            :: later
          /\ nth_error (Unified.update agent Unified.running
                          (map Unified.reset (Unified.agents st))) 0
             = Some (Unified.running (Unified.reset agent))).
Proof.
  split.
  - intros st Hkey Hdoc. apply GeminiFacts.gemini_runWorkflow_needs_document; auto.
  - intros st agent rest _ Hkeys Hagents. unfold Unified.runWorkflow.
    rewrite Hkeys, Hagents. cbn [Unified.run_loop].
    destruct (Unified.unifiedProcessAgentPrompt w 0 _ _ agent _) as [[out|e] requests].
    + destruct (Unified.run_loop w 1 rest _ _) as [[final st3] events].
      eexists. split; [reflexivity|].
      unfold Unified.update. cbn [map nth_error Unified.reset Unified.id].
      rewrite String.eqb_refl. reflexivity.
    + eexists. split; [reflexivity|].
      unfold Unified.update. cbn [map nth_error Unified.reset Unified.id].
      rewrite String.eqb_refl. reflexivity.
Qed.

Lemma C4_empty_document_is_dispatched_witness :
  let st := Unified.addAgent 1700000000000 Scenario.summarizer
              (Unified.initial "env-gemini-key" "" "" "") in
  let run := Unified.runWorkflow (Scenario.answering "A summary.") st in
  doc_type (Unified.documentFile st) = EMPTY
  /\ content (Unified.documentFile st) = EmptyString
  /\ (exists a later,
        snd run = Unified.Rendered (map Unified.reset (Unified.agents st))
                  :: Unified.Rendered [Unified.running (Unified.reset a)]
                  :: Unified.Invoked a EmptyString :: later)
  /\ Unified.prompts (snd run) = [fullPrompt EmptyString "Summarize the document."]
  /\ map Unified.status (Unified.agents (fst run)) = [Success].
Proof.
  intros st run. split; [reflexivity|]. split; [reflexivity|]. split; [|split; reflexivity].
  destruct (proj2 (C4_empty_document_is_dispatched (Scenario.answering "A summary.")) st
              _ [] eq_refl eq_refl eq_refl) as (later & Hrun & _).
  eexists. exists later. exact Hrun.
Defined.

(** C5, as stated, fails on its last clause: with two providers named and
    no key for either, the one message shown names Gemini only. *)
Lemma C5_counterexample :
  let st :=
    Unified.handleAgentChange "agent-2" Unified.field_model "openai/gpt-4o-mini"
      (Unified.addAgent 2 Scenario.sentiment_analyzer
         (Unified.addAgent 1 Scenario.summarizer (Unified.initial "" "" "" ""))) in
  let st' := fst (Unified.runWorkflow (Scenario.answering "ok") st) in
  map (fun a => Unified.provider_of (Unified.model a)) (Unified.agents st) = ["gemini"; "openai"]
  /\ Unified.isGeminiKeySet st = false /\ Unified.isOpenAIKeySet st = false
  /\ Unified.apiKeyError st' = "A Gemini API key is required for this workflow."
  /\ Js.includes "OpenAI" (Unified.apiKeyError st') = false.
Proof. vm_compute. repeat split. Qed.

(** C5, amended -- when an agent names Gemini or OpenAI and that provider has
    no key, [runWorkflow] stops before it changes any agent and before any
    request: it opens the key dialog with one message, for Gemini if Gemini
    is named and has no key, else for OpenAI; nothing else changes. *)
Theorem C5_missing_key_refuses (w : World) (st : Unified.State) :
  (Unified.requires st "gemini" /\ Unified.isGeminiKeySet st = false) \/
  (Unified.requires st "openai" /\ Unified.isOpenAIKeySet st = false) ->
  exists msg,
    Unified.runWorkflow w st
    = (Unified.setIsApiKeyModalOpen true (Unified.setApiKeyError msg st), [])
    /\ Unified.runWorkflow_analyzed w st
       = (Unified.setIsApiKeyModalOpen true (Unified.setApiKeyError msg st), [], None)
    /\ Unified.agents (fst (Unified.runWorkflow w st)) = Unified.agents st
    /\ (Unified.requires st "gemini" /\ Unified.isGeminiKeySet st = false ->
        msg = "A Gemini API key is required for this workflow.")
    /\ (~ (Unified.requires st "gemini" /\ Unified.isGeminiKeySet st = false) ->
        msg = "An OpenAI API key is required for this workflow.").
Proof.
  intros H. destruct (PreconditionFacts.missing_key_first st H) as (msg & Hm & Hg & Ho).
  exists msg. unfold Unified.runWorkflow, Unified.runWorkflow_analyzed. rewrite Hm.
  repeat split; assumption.
Qed.

Lemma C5_missing_key_refuses_witness :
  let st :=
    Unified.handleAgentChange "agent-2" Unified.field_model "openai/gpt-4o-mini"
      (Unified.addAgent 2 Scenario.sentiment_analyzer
         (Unified.addAgent 1 Scenario.summarizer (Unified.initial "env-gemini-key" "" "" ""))) in
  exists msg,
    Unified.runWorkflow (Scenario.answering "ok") st
    = (Unified.setIsApiKeyModalOpen true (Unified.setApiKeyError msg st), [])
    /\ msg = "An OpenAI API key is required for this workflow.".
Proof.
  intros st.
  destruct (C5_missing_key_refuses (Scenario.answering "ok") st) as (msg & H1 & _ & _ & _ & Ho).
  - right. split; [right; left; reflexivity | reflexivity].
  - exists msg. split; [exact H1|]. apply Ho. intros [_ Hk]. discriminate Hk.
Defined.

(** C6, as stated, fails: a sentiment agent that succeeded with an empty
    label, or with no structured output, gives no histogram at all. *)
Lemma C6_counterexample :
  let labelled (json : JSON.value) : Gemini.Agent :=
    {| Gemini.id := "agent-1"; Gemini.name := "Sentiment Analyzer";
       Gemini.prompt := "Return the sentiment."; Gemini.status := Success;
       Gemini.output := Some "text"; Gemini.error := None; Gemini.outputJson := json |} in
  let st := Gemini.initial "key" "" in
  Gemini.sentiment_role (labelled (JSON.JObject [("sentiment", JSON.JString "")])) = true
  /\ Gemini.analyzeResults [labelled (JSON.JObject [("sentiment", JSON.JString "")])] st = Normal st
  /\ Gemini.analyzeResults [labelled JSON.JNull] st = Normal st
  /\ Gemini.analysisResult st = None.
Proof. vm_compute. repeat split. Qed.

(** C6, amended -- let [a] be the first successful agent named Sentiment
    Analyzer, and let the entity step complete.  When the structured output
    of [a] has a non-empty string under [sentiment], [analyzeResults]
    publishes a histogram with a unit count in exactly one bucket: positive
    or negative when the label is that word in any letter case, neutral for
    every other label.  When it has no truthy value under [sentiment] (the
    output is [null] or no object, the property is missing, or the label is
    [null], [false], a zero or the empty string), no histogram is made: the
    analysis has no sentiment, and it is published only with an entity. *)
Theorem C6_sentiment_bucket :
  (forall (agents : list Gemini.Agent) (st : Gemini.State) a ps label es,
     List.find Gemini.sentiment_role agents = Some a ->
     Gemini.outputJson a = JSON.JObject ps ->
     JSON.lookup "sentiment" ps = Some (JSON.JString label) ->
     label <> EmptyString ->
     entities_of (option_map Gemini.outputJson (List.find Gemini.entity_role agents)) = Normal es ->
     exists h,
       Gemini.analyzeResults agents st
       = Normal (Gemini.setActiveTab "dashboard"
                   (Gemini.setAnalysisResult (Some {| sentiment := Some h; entities := es |}) st))
       /\ (Js.toLowerCase label = "positive" -> h = {| positive := 1; negative := 0; neutral := 0 |})
       /\ (Js.toLowerCase label = "negative" -> h = {| positive := 0; negative := 1; neutral := 0 |})
       /\ (Js.toLowerCase label <> "positive" -> Js.toLowerCase label <> "negative" ->
           h = {| positive := 0; negative := 0; neutral := 1 |})
       /\ (positive h + negative h + neutral h = 1)%Z)
  /\ (forall (agents : list Unified.Agent) (st : Unified.State) a ps label es,
        List.find Unified.sentiment_role agents = Some a ->
        Unified.outputJson a = JSON.JObject ps ->
        JSON.lookup "sentiment" ps = Some (JSON.JString label) ->
        label <> EmptyString ->
        entities_of (option_map Unified.outputJson (List.find Unified.entity_role agents)) = Normal es ->
        exists h,
          Unified.analyzeResults agents st
          = Normal (Unified.setActiveTab "dashboard"
                      (Unified.setAnalysisResult (Some {| sentiment := Some h; entities := es |}) st))
          /\ (Js.toLowerCase label = "positive" -> h = {| positive := 1; negative := 0; neutral := 0 |})
          /\ (Js.toLowerCase label = "negative" -> h = {| positive := 0; negative := 1; neutral := 0 |})
          /\ (Js.toLowerCase label <> "positive" -> Js.toLowerCase label <> "negative" ->
              h = {| positive := 0; negative := 0; neutral := 1 |})
          /\ (positive h + negative h + neutral h = 1)%Z)
  /\ (forall (agents : list Gemini.Agent) (st : Gemini.State) a es,
        List.find Gemini.sentiment_role agents = Some a ->
        JSON.truthy_opt (JSON.get (Gemini.outputJson a) "sentiment") = false ->
        entities_of (option_map Gemini.outputJson (List.find Gemini.entity_role agents)) = Normal es ->
        Gemini.analyzeResults agents st
        = Normal (match es with
                  | Some (_ :: _) =>
                      Gemini.setActiveTab "dashboard"
                        (Gemini.setAnalysisResult (Some {| sentiment := None; entities := es |}) st)
                  | _ => st
                  end))
  /\ (forall (agents : list Unified.Agent) (st : Unified.State) a es,
        List.find Unified.sentiment_role agents = Some a ->
        JSON.truthy_opt (JSON.get (Unified.outputJson a) "sentiment") = false ->
        entities_of (option_map Unified.outputJson (List.find Unified.entity_role agents)) = Normal es ->
        Unified.analyzeResults agents st
        = Normal (match es with
                  | Some (_ :: _) =>
                      Unified.setActiveTab "dashboard"
                        (Unified.setAnalysisResult (Some {| sentiment := None; entities := es |}) st)
                  | _ => st
                  end))
  /\ (forall json : JSON.value,
        JSON.truthy_opt (JSON.get json "sentiment") = false <->
        JSON.get json "sentiment" = None
        \/ JSON.get json "sentiment" = Some JSON.JNull
        \/ JSON.get json "sentiment" = Some (JSON.JBool false)
        \/ JSON.get json "sentiment" = Some (JSON.JString EmptyString)
        \/ exists lit, JSON.get json "sentiment" = Some (JSON.JNumber lit)
                       /\ JSON.denotes_zero lit = true).
Proof.
  split; [|split; [|split; [|split]]].
  - intros agents st a ps label es Hfind Hjson Hlabel Hne Hent.
    assert (Ht : Js.truthy label = true) by (destruct label; [congruence | reflexivity]).
    destruct (AnalysisFacts.sentiment_of_label ps label Hlabel Ht) as (h & Hs & Hp & Hn & Ho & Hsum).
    exists h. split; [|auto].
    unfold Gemini.analyzeResults. rewrite Hfind. cbn [option_map]. rewrite Hjson, Hs, Hent.
    reflexivity.
  - intros agents st a ps label es Hfind Hjson Hlabel Hne Hent.
    assert (Ht : Js.truthy label = true) by (destruct label; [congruence | reflexivity]).
    destruct (AnalysisFacts.sentiment_of_label ps label Hlabel Ht) as (h & Hs & Hp & Hn & Ho & Hsum).
    exists h. split; [|auto].
    unfold Unified.analyzeResults. rewrite Hfind. cbn [option_map]. rewrite Hjson, Hs, Hent.
    reflexivity.
  - intros agents st a es Hfind Hfalsy Hent.
    unfold Gemini.analyzeResults. rewrite Hfind. cbn [option_map].
    rewrite (AnalysisFacts.sentiment_of_falsy _ Hfalsy), Hent.
    destruct es as [[|e es]|]; reflexivity.
  - intros agents st a es Hfind Hfalsy Hent.
    unfold Unified.analyzeResults. rewrite Hfind. cbn [option_map].
    rewrite (AnalysisFacts.sentiment_of_falsy _ Hfalsy), Hent.
    destruct es as [[|e es]|]; reflexivity.
  - intros json. apply AnalysisFacts.falsy_label.
Qed.

Lemma C6_sentiment_bucket_witness :
  let agent (json : JSON.value) : Gemini.Agent :=
    {| Gemini.id := "agent-1"; Gemini.name := "Sentiment Analyzer";
       Gemini.prompt := "Return the sentiment."; Gemini.status := Success;
       Gemini.output := Some "text"; Gemini.error := None; Gemini.outputJson := json |} in
  (exists st',
     Gemini.analyzeResults [agent (JSON.JObject [("sentiment", JSON.JString "Positive")])]
       (Gemini.initial "key" "") = Normal st'
     /\ option_map sentiment (Gemini.analysisResult st')
        = Some (Some {| positive := 1; negative := 0; neutral := 0 |}))
  /\ Gemini.analyzeResults [agent (JSON.JObject [("sentiment", JSON.JNumber "0.0")])]
       (Gemini.initial "key" "") = Normal (Gemini.initial "key" "")
  /\ Gemini.analyzeResults [agent (JSON.JString "Positive")]
       (Gemini.initial "key" "") = Normal (Gemini.initial "key" "").
Proof.
  intros agent. split; [|split].
  - destruct (proj1 C6_sentiment_bucket
                [agent (JSON.JObject [("sentiment", JSON.JString "Positive")])]
                (Gemini.initial "key" "")
                (agent (JSON.JObject [("sentiment", JSON.JString "Positive")]))
                [("sentiment", JSON.JString "Positive")] "Positive" None
                eq_refl eq_refl eq_refl ltac:(discriminate) eq_refl)
      as (h & Heq & Hp & _).
    eexists. split; [exact Heq|]. simpl. rewrite (Hp eq_refl). reflexivity.
  - exact (proj1 (proj2 (proj2 C6_sentiment_bucket))
             [agent (JSON.JObject [("sentiment", JSON.JNumber "0.0")])]
             (Gemini.initial "key" "")
             (agent (JSON.JObject [("sentiment", JSON.JNumber "0.0")])) None
             eq_refl eq_refl eq_refl).
  - exact (proj1 (proj2 (proj2 C6_sentiment_bucket))
             [agent (JSON.JString "Positive")] (Gemini.initial "key" "")
             (agent (JSON.JString "Positive")) None eq_refl eq_refl eq_refl).
Defined.



(** C8 -- [addAgent] appends one agent, pending and without output, error or
    structured output, whose id is the clock reading; two additions within
    one reading of the clock therefore give two agents of one id, in
    [src/App.tsx] and in the single-provider revision. *)
Theorem C8_addAgent_clock_collision :
  (forall now t st,
     Unified.agents (Unified.addAgent now t st)
     = Unified.agents st
       ++ [{| Unified.id := "agent-" +:+ Js.of_integer now;
              Unified.name := template_name t; Unified.prompt := template_prompt t;
              Unified.model := Unified.default_model; Unified.status := Pending;
              Unified.output := None; Unified.error := None;
              Unified.outputJson := JSON.JNull |}])
  /\ (forall now t1 t2 st,
        ~ List.NoDup (map Unified.id
                        (Unified.agents (Unified.addAgent now t2 (Unified.addAgent now t1 st)))))
  /\ (forall now t st,
        Gemini.agents (Gemini.addAgent now t st)
        = Gemini.agents st
          ++ [{| Gemini.id := "agent-" +:+ Js.of_integer now;
                 Gemini.name := template_name t; Gemini.prompt := template_prompt t;
                 Gemini.status := Pending; Gemini.output := None; Gemini.error := None;
                 Gemini.outputJson := JSON.JNull |}])
  /\ (forall now t1 t2 st,
        ~ List.NoDup (map Gemini.id
                        (Gemini.agents (Gemini.addAgent now t2 (Gemini.addAgent now t1 st)))))
  /\ map Unified.id
       (Unified.agents
          (Unified.addAgent 1700000000000 Scenario.sentiment_analyzer
             (Unified.addAgent 1700000000000 Scenario.summarizer (Unified.initial "key" "" "" ""))))
     = ["agent-1700000000000"; "agent-1700000000000"].
Proof.
  split; [reflexivity|]. split.
  { intros now t1 t2 st. cbn [Unified.addAgent Unified.agents Unified.setAgents].
    rewrite <- app_assoc, map_app. apply RegistryFacts.not_NoDup_twice. }
  split; [reflexivity|]. split.
  { intros now t1 t2 st. cbn [Gemini.addAgent Gemini.agents Gemini.setAgents].
    rewrite <- app_assoc, map_app. apply RegistryFacts.not_NoDup_twice. }
  vm_compute. reflexivity.
Qed.

(** C9 -- the prompt sent for the agent at position [n] is built from the
    document content and that agent's own prompt only: two runs from the same
    state against providers that answer differently send the same [n]-th
    prompt, and every request of [processAgentPrompt] of the service module
    carries the prompt built from its own two arguments. *)
Theorem C9_prompt_noninterference (w1 w2 : World) (st : Unified.State) (n : nat) (p1 p2 : string) :
  nth_error (Unified.prompts (snd (Unified.runWorkflow w1 st))) n = Some p1 ->
  nth_error (Unified.prompts (snd (Unified.runWorkflow w2 st))) n = Some p2 ->
  p1 = p2
  /\ (exists a, nth_error (Unified.agents st) n = Some a
                /\ p1 = fullPrompt (content (Unified.documentFile st)) (Unified.prompt a))
  /\ (forall i g o agent documentContent p,
        In p (Unified.prompts (snd (ApiService.processAgentPrompt w1 i g o agent documentContent))) ->
        p = fullPrompt documentContent (Unified.prompt agent)).
Proof.
  intros H1 H2.
  apply UnifiedFacts.runWorkflow_prompts in H1 as (a1 & Ha1 & ->).
  apply UnifiedFacts.runWorkflow_prompts in H2 as (a2 & Ha2 & ->).
  assert (a1 = a2) as -> by congruence.
  split; [reflexivity|]. split; [exists a2; split; [assumption | reflexivity]|].
  intros i g o agent documentContent p Hp.
  destruct (ApiServiceFacts.processAgentPrompt_requests w1 i g o agent documentContent) as [E|E];
    rewrite E in Hp; simpl in Hp; intuition.
Qed.

Lemma C9_prompt_noninterference_witness :
  let st :=
    Unified.setDocumentFile Scenario.report
      (Unified.addAgent 2 Scenario.sentiment_analyzer
         (Unified.addAgent 1 Scenario.summarizer (Unified.initial "env-gemini-key" "" "" ""))) in
  nth_error (Unified.prompts (snd (Unified.runWorkflow (Scenario.answering "First answer.") st))) 1
  = nth_error (Unified.prompts (snd (Unified.runWorkflow (Scenario.answering "Another answer.") st))) 1
  /\ Js.includes "answer"
       (fullPrompt (content Scenario.report) (template_prompt Scenario.sentiment_analyzer)) = false.
Proof.
  intros st. split; [|reflexivity].
  assert (H1 : nth_error (Unified.prompts (snd (Unified.runWorkflow (Scenario.answering "First answer.") st))) 1
               = Some (fullPrompt (content Scenario.report) (template_prompt Scenario.sentiment_analyzer)))
    by reflexivity.
  assert (H2 : nth_error (Unified.prompts (snd (Unified.runWorkflow (Scenario.answering "Another answer.") st))) 1
               = Some (fullPrompt (content Scenario.report) (template_prompt Scenario.sentiment_analyzer)))
    by reflexivity.
  destruct (C9_prompt_noninterference _ _ st 1 _ _ H1 H2) as (Heq & _).
  rewrite H1, H2. exact (f_equal Some Heq).
Defined.

(** C10 -- A run never changes a key that comes from the environment, so
    with such a key the effective key is the same after the run as before;
    when a step fails because a provider rejected its key, only the stored
    user key of that provider is cleared. *)
Theorem C10_environment_key_survives (w : World) (st : Unified.State) :
  let st' := fst (Unified.runWorkflow w st) in
  let events := snd (Unified.runWorkflow w st) in
  Unified.envGeminiApiKey st' = Unified.envGeminiApiKey st
  /\ Unified.envOpenAIApiKey st' = Unified.envOpenAIApiKey st
  /\ (Js.truthy (Unified.envGeminiApiKey st) = true ->
      Unified.effectiveGeminiApiKey st' = Unified.effectiveGeminiApiKey st)
  /\ (Js.truthy (Unified.envOpenAIApiKey st) = true ->
      Unified.effectiveOpenAIApiKey st' = Unified.effectiveOpenAIApiKey st)
  /\ (forall l a,
        In (Unified.Rendered l) events -> In a l -> Unified.status a = Error ->
        (Unified.error a = Some Unified.invalid_gemini_key ->
         Unified.userGeminiApiKey st' = EmptyString
         /\ Unified.userOpenAIApiKey st' = Unified.userOpenAIApiKey st)
        /\ (Unified.error a = Some Unified.invalid_openai_key ->
            Unified.userOpenAIApiKey st' = EmptyString
            /\ Unified.userGeminiApiKey st' = Unified.userGeminiApiKey st)).
Proof.
  intros st' events.
  assert (Henv : Unified.envGeminiApiKey st' = Unified.envGeminiApiKey st
                 /\ Unified.envOpenAIApiKey st' = Unified.envOpenAIApiKey st).
  { subst st'. unfold Unified.runWorkflow. destruct (Unified.missing_key st); [split; reflexivity|].
    destruct (Unified.run_loop w 0 (Unified.agents st) _ _) as [[final st3] ev] eqn:ER.
    apply UnifiedFacts.run_loop_env in ER. exact ER. }
  destruct Henv as [Hg Ho]. split; [exact Hg|]. split; [exact Ho|].
  split; [|split].
  - intros Ht. unfold Unified.effectiveGeminiApiKey, Js.or_else. rewrite Hg, Ht. reflexivity.
  - intros Ht. unfold Unified.effectiveOpenAIApiKey, Js.or_else. rewrite Ho, Ht. reflexivity.
  - subst st' events. unfold Unified.runWorkflow.
    destruct (Unified.missing_key st); [intros l a []|].
    destruct (Unified.run_loop w 0 (Unified.agents st) _ _) as [[final st3] ev] eqn:ER.
    apply KeyFacts.run_loop_failure in ER; [|apply UnifiedFacts.no_error_reset].
    cbn [fst snd]. intros l a Hl Ha Hs.
    destruct Hl as [Hl|Hl].
    { exfalso. inversion Hl; subst.
      apply (UnifiedFacts.no_error_in _ a (UnifiedFacts.no_error_reset _) Ha Hs). }
    destruct ER as [(Hcl & _ & _) | (msg & Hm & Kg & Ko)].
    { exfalso. apply (UnifiedFacts.no_error_in l a (Hcl l Hl) Ha Hs). }
    cbn [Unified.setIsProcessing Unified.userGeminiApiKey Unified.userOpenAIApiKey].
    rewrite Kg, Ko. pose proof (Hm l a Hl Ha Hs) as Hmsg. split; intros He.
    + rewrite He in Hmsg. inversion Hmsg; subst.
      rewrite !(proj1 (KeyFacts.on_error_invalid_gemini _)), !(proj2 (KeyFacts.on_error_invalid_gemini _)).
      split; reflexivity.
    + rewrite He in Hmsg. inversion Hmsg; subst.
      rewrite !(proj1 (KeyFacts.on_error_invalid_openai _)), !(proj2 (KeyFacts.on_error_invalid_openai _)).
      split; reflexivity.
Qed.

Lemma C10_environment_key_survives_witness :
  let st :=
    Unified.addAgent 1 Scenario.summarizer (Unified.initial "env-gemini-key" "" "old-user-key" "sk-user") in
  let st' := fst (Unified.runWorkflow Scenario.rejecting st) in
  Unified.effectiveGeminiApiKey st' = "env-gemini-key"
  /\ Unified.userGeminiApiKey st' = EmptyString
  /\ Unified.userOpenAIApiKey st' = "sk-user".
Proof.
  intros st st'.
  destruct (C10_environment_key_survives Scenario.rejecting st) as (_ & _ & Heff & _ & Hkeys).
  split; [exact (Heff eq_refl)|].
  pose (a := {| Unified.id := "agent-1"; Unified.name := "Summarizer";
                Unified.prompt := "Summarize the document.";
                Unified.model := Unified.default_model; Unified.status := Error;
                Unified.output := None; Unified.error := Some Unified.invalid_gemini_key;
                Unified.outputJson := JSON.JNull |}).
  refine (proj1 (Hkeys [a] a _ _ eq_refl) eq_refl).
  - vm_compute. right. right. right. right. left. reflexivity.
  - left. reflexivity.
Defined.

(** * Further properties of the sources *)

Module RegistryOps.

Lemma state_eta (st : Unified.State) : Unified.setAgents (Unified.agents st) st = st.
Proof. destruct st; reflexivity. Qed.

Lemma gemini_state_eta (st : Gemini.State) : Gemini.setAgents (Gemini.agents st) st = st.
Proof. destruct st; reflexivity. Qed.

Lemma filter_all {A : Type} (f : A -> bool) (l : list A) :
  (forall a, In a l -> f a = true) -> List.filter f l = l.
Proof.
  induction l as [|x l IH]; intros H; simpl; [reflexivity|].
  rewrite (H x (or_introl eq_refl)), IH; [reflexivity|]. intros a Ha. apply H. right. exact Ha.
Qed.

(** Ids after a sequence of additions: those before, then one per click. *)
Lemma addAgents_ids (clicks : list (Z * Template)) (st : Unified.State) :
  map Unified.id (Unified.agents (Session.addAgents clicks st))
  = map Unified.id (Unified.agents st)
    ++ map (fun c => "agent-" +:+ Js.of_integer (fst c)) clicks.
Proof.
  revert st. induction clicks as [|[now t] tl IH]; intros st; simpl.
  - rewrite app_nil_r. reflexivity.
  - rewrite IH. cbn [Unified.addAgent Unified.agents Unified.setAgents].
    rewrite map_app, <- app_assoc. reflexivity.
Qed.

Lemma gemini_addAgents_ids (clicks : list (Z * Template)) (st : Gemini.State) :
  map Gemini.id (Gemini.agents (Session.gemini_addAgents clicks st))
  = map Gemini.id (Gemini.agents st)
    ++ map (fun c => "agent-" +:+ Js.of_integer (fst c)) clicks.
Proof.
  revert st. induction clicks as [|[now t] tl IH]; intros st; simpl.
  - rewrite app_nil_r. reflexivity.
  - rewrite IH. cbn [Gemini.addAgent Gemini.agents Gemini.setAgents].
    rewrite map_app, <- app_assoc. reflexivity.
Qed.

Lemma NoDup_click_ids (clicks : list (Z * Template)) :
  NoDup (map fst clicks) -> NoDup (map (fun c => "agent-" +:+ Js.of_integer (fst c)) clicks).
Proof.
  induction clicks as [|[now t] tl IH]; simpl; intros H; [constructor|].
  apply NoDup_cons in H as [Hx Htl]. apply NoDup_cons. split; [|exact (IH Htl)].
  intros Hin. apply Hx. apply list_elem_of_In in Hin. apply in_map_iff in Hin as ([n' t'] & E & Hin).
  simpl in E. apply RegistryFacts.agent_id_inj in E. subst n'.
  apply list_elem_of_In. apply in_map_iff. exists (now, t'). auto.
Qed.

End RegistryOps.

(** X1 -- Additions at pairwise distinct clock readings, none of which names an id
    already in the registry, keep the ids pairwise distinct; from the empty
    registry of a fresh page, distinct readings are enough. *)
Theorem addAgents_distinct_clocks_distinct_ids (clicks : list (Z * Template)) :
  NoDup (map fst clicks) ->
  (forall st : Unified.State,
     NoDup (map Unified.id (Unified.agents st)) ->
     (forall c, In c clicks ->
                ~ In ("agent-" +:+ Js.of_integer (fst c)) (map Unified.id (Unified.agents st))) ->
     NoDup (map Unified.id (Unified.agents (Session.addAgents clicks st))))
  /\ (forall st : Gemini.State,
        NoDup (map Gemini.id (Gemini.agents st)) ->
        (forall c, In c clicks ->
                   ~ In ("agent-" +:+ Js.of_integer (fst c)) (map Gemini.id (Gemini.agents st))) ->
        NoDup (map Gemini.id (Gemini.agents (Session.gemini_addAgents clicks st))))
  /\ (forall envGemini envOpenAI userGemini userOpenAI,
        NoDup (map Unified.id
                 (Unified.agents
                    (Session.addAgents clicks
                       (Unified.initial envGemini envOpenAI userGemini userOpenAI)))))
  /\ (forall env user,
        NoDup (map Gemini.id
                 (Gemini.agents (Session.gemini_addAgents clicks (Gemini.initial env user))))).
Proof.
  intros Hclicks.
  assert (Hu : forall st : Unified.State,
             NoDup (map Unified.id (Unified.agents st)) ->
             (forall c, In c clicks ->
                        ~ In ("agent-" +:+ Js.of_integer (fst c)) (map Unified.id (Unified.agents st))) ->
             NoDup (map Unified.id (Unified.agents (Session.addAgents clicks st)))).
  { intros st Hst Hfresh. rewrite RegistryOps.addAgents_ids. apply NoDup_app.
    split; [exact Hst|]. split; [|apply RegistryOps.NoDup_click_ids; exact Hclicks].
    intros x Hx Hx'. apply list_elem_of_In in Hx. apply list_elem_of_In in Hx'.
    apply in_map_iff in Hx' as (c & <- & Hc). exact (Hfresh c Hc Hx). }
  assert (Hg : forall st : Gemini.State,
             NoDup (map Gemini.id (Gemini.agents st)) ->
             (forall c, In c clicks ->
                        ~ In ("agent-" +:+ Js.of_integer (fst c)) (map Gemini.id (Gemini.agents st))) ->
             NoDup (map Gemini.id (Gemini.agents (Session.gemini_addAgents clicks st)))).
  { intros st Hst Hfresh. rewrite RegistryOps.gemini_addAgents_ids. apply NoDup_app.
    split; [exact Hst|]. split; [|apply RegistryOps.NoDup_click_ids; exact Hclicks].
    intros x Hx Hx'. apply list_elem_of_In in Hx. apply list_elem_of_In in Hx'.
    apply in_map_iff in Hx' as (c & <- & Hc). exact (Hfresh c Hc Hx). }
  split; [exact Hu|]. split; [exact Hg|]. split.
  - intros. apply Hu; [constructor | intros c _ []].
  - intros. apply Hg; [constructor | intros c _ []].
Qed.

Lemma addAgents_distinct_clocks_distinct_ids_witness :
  NoDup (map Unified.id
           (Unified.agents
              (Session.addAgents
                 [(1700000000000%Z, Scenario.summarizer);
                  (1700000000001%Z, Scenario.sentiment_analyzer);
                  (1700000000417%Z, Scenario.summarizer)]
                 (Unified.initial "" "" "" "")))).
Proof.
  apply (addAgents_distinct_clocks_distinct_ids
           [(1700000000000%Z, Scenario.summarizer);
            (1700000000001%Z, Scenario.sentiment_analyzer);
            (1700000000417%Z, Scenario.summarizer)]).
  apply NoDup_ListNoDup. repeat constructor; simpl; intuition discriminate.
Defined.

(** X2 -- Deleting the agent that was just added gives the registry back, when
    its id was not in use; when the id was in use, the older agents of that
    id go as well. *)
Theorem delete_after_add (now : Z) (t : Template) :
  (forall st : Unified.State,
     ~ In ("agent-" +:+ Js.of_integer now) (map Unified.id (Unified.agents st)) ->
     Unified.handleDeleteAgent ("agent-" +:+ Js.of_integer now) (Unified.addAgent now t st) = st)
  /\ (forall st : Unified.State,
        In ("agent-" +:+ Js.of_integer now) (map Unified.id (Unified.agents st)) ->
        length (Unified.agents
                  (Unified.handleDeleteAgent ("agent-" +:+ Js.of_integer now)
                     (Unified.addAgent now t st)))
        < length (Unified.agents st))
  /\ (forall st : Gemini.State,
        ~ In ("agent-" +:+ Js.of_integer now) (map Gemini.id (Gemini.agents st)) ->
        Gemini.handleDeleteAgent ("agent-" +:+ Js.of_integer now) (Gemini.addAgent now t st) = st)
  /\ (forall st : Gemini.State,
        In ("agent-" +:+ Js.of_integer now) (map Gemini.id (Gemini.agents st)) ->
        length (Gemini.agents
                  (Gemini.handleDeleteAgent ("agent-" +:+ Js.of_integer now)
                     (Gemini.addAgent now t st)))
        < length (Gemini.agents st)).
Proof.
  set (newid := "agent-" +:+ Js.of_integer now).
  assert (filter_length_lt : forall {A : Type} (f : A -> bool) (l : list A) (x : A),
             In x l -> f x = false -> length (List.filter f l) < length l).
  { intros A f l x. induction l as [|y l IH]; intros Hin Hf; [destruct Hin|].
    simpl. pose proof (List.filter_length_le f l) as Hle.
    destruct Hin as [->|Hin].
    - rewrite Hf. lia.
    - specialize (IH Hin Hf). destruct (f y); simpl; lia. }
  repeat split.
  - intros st Hfresh. unfold Unified.handleDeleteAgent, Unified.addAgent.
    cbn [Unified.agents Unified.setAgents].
    rewrite List.filter_app. cbn [List.filter Unified.id]. fold newid.
    rewrite String.eqb_refl. cbn [negb]. rewrite app_nil_r, RegistryOps.filter_all.
    + destruct st; reflexivity.
    + intros a Ha. destruct (String.eqb_spec (Unified.id a) newid) as [E|E]; [|reflexivity].
      exfalso. apply Hfresh. rewrite <- E. apply in_map. exact Ha.
  - intros st Hused. apply in_map_iff in Hused as (a & Ha & Hin).
    unfold Unified.handleDeleteAgent, Unified.addAgent. cbn [Unified.agents Unified.setAgents].
    rewrite List.filter_app. cbn [List.filter Unified.id]. fold newid.
    rewrite String.eqb_refl. cbn [negb]. rewrite app_nil_r.
    apply (filter_length_lt _ _ _ a Hin). fold newid in Ha. rewrite Ha, String.eqb_refl. reflexivity.
  - intros st Hfresh. unfold Gemini.handleDeleteAgent, Gemini.addAgent.
    cbn [Gemini.agents Gemini.setAgents].
    rewrite List.filter_app. cbn [List.filter Gemini.id]. fold newid.
    rewrite String.eqb_refl. cbn [negb]. rewrite app_nil_r, RegistryOps.filter_all.
    + destruct st; reflexivity.
    + intros a Ha. destruct (String.eqb_spec (Gemini.id a) newid) as [E|E]; [|reflexivity].
      exfalso. apply Hfresh. rewrite <- E. apply in_map. exact Ha.
  - intros st Hused. apply in_map_iff in Hused as (a & Ha & Hin).
    unfold Gemini.handleDeleteAgent, Gemini.addAgent. cbn [Gemini.agents Gemini.setAgents].
    rewrite List.filter_app. cbn [List.filter Gemini.id]. fold newid.
    rewrite String.eqb_refl. cbn [negb]. rewrite app_nil_r.
    apply (filter_length_lt _ _ _ a Hin). fold newid in Ha. rewrite Ha, String.eqb_refl. reflexivity.
Qed.

Lemma delete_after_add_witness :
  let st := Unified.addAgent 1 Scenario.summarizer (Unified.initial "k" "" "" "") in
  Unified.handleDeleteAgent "agent-2" (Unified.addAgent 2 Scenario.sentiment_analyzer st) = st
  /\ length (Unified.agents
               (Unified.handleDeleteAgent "agent-1" (Unified.addAgent 1 Scenario.sentiment_analyzer st)))
     < length (Unified.agents st).
Proof.
  intros st. split.
  - apply (proj1 (delete_after_add 2 Scenario.sentiment_analyzer) st).
    simpl. intuition discriminate.
  - apply (proj1 (proj2 (delete_after_add 1 Scenario.sentiment_analyzer)) st).
    simpl. left. reflexivity.
Defined.

(** X3 -- In a registry of pairwise distinct ids, deleting the id of an agent
    removes that agent alone and keeps the others in their order; deleting an
    id that no agent has changes nothing. *)
Theorem handleDeleteAgent_removes_one (st : Unified.State) :
  (forall (before after : list Unified.Agent) (a : Unified.Agent),
     NoDup (map Unified.id (Unified.agents st)) ->
     Unified.agents st = before ++ a :: after ->
     Unified.agents (Unified.handleDeleteAgent (Unified.id a) st) = before ++ after)
  /\ (forall i, ~ In i (map Unified.id (Unified.agents st)) -> Unified.handleDeleteAgent i st = st)
  /\ (forall i, ~ In i (map Unified.id (Unified.agents (Unified.handleDeleteAgent i st)))).
Proof.
  split; [|split].
  - intros before after a Hnd E. unfold Unified.handleDeleteAgent.
    cbn [Unified.agents Unified.setAgents]. rewrite E in *.
    rewrite map_app in Hnd. cbn [map] in Hnd.
    apply NoDup_app in Hnd as (_ & Hdisj & Hcons). apply NoDup_cons in Hcons as [Hafter _].
    rewrite List.filter_app. cbn [List.filter]. rewrite String.eqb_refl. cbn [negb].
    rewrite !RegistryOps.filter_all; [reflexivity | |].
    + intros x Hx. destruct (String.eqb_spec (Unified.id x) (Unified.id a)) as [Ex|]; [|reflexivity].
      exfalso. apply Hafter. rewrite <- Ex. apply list_elem_of_In. apply in_map. exact Hx.
    + intros x Hx. destruct (String.eqb_spec (Unified.id x) (Unified.id a)) as [Ex|]; [|reflexivity].
      exfalso. apply (Hdisj (Unified.id x)).
      * apply list_elem_of_In. apply in_map. exact Hx.
      * rewrite Ex. left.
  - intros i Hi. unfold Unified.handleDeleteAgent. rewrite RegistryOps.filter_all.
    + apply RegistryOps.state_eta.
    + intros a Ha. destruct (String.eqb_spec (Unified.id a) i) as [E|]; [|reflexivity].
      exfalso. apply Hi. rewrite <- E. apply in_map. exact Ha.
  - intros i Hi. apply in_map_iff in Hi as (a & E & Ha).
    unfold Unified.handleDeleteAgent in Ha. cbn [Unified.agents Unified.setAgents] in Ha.
    apply List.filter_In in Ha as [_ Hne]. rewrite E, String.eqb_refl in Hne. discriminate.
Qed.

Lemma handleDeleteAgent_removes_one_witness :
  let st :=
    Session.addAgents [(1%Z, Scenario.summarizer); (2%Z, Scenario.sentiment_analyzer);
                       (3%Z, Scenario.summarizer)] (Unified.initial "k" "" "" "") in
  map Unified.id (Unified.agents (Unified.handleDeleteAgent "agent-2" st)) = ["agent-1"; "agent-3"]
  /\ Unified.handleDeleteAgent "agent-7" st = st.
Proof.
  intros st. split.
  - assert (Hnd : NoDup (map Unified.id (Unified.agents st))).
    { apply NoDup_ListNoDup. repeat constructor; simpl; intuition discriminate. }
    exact (f_equal (map Unified.id) (proj1 (handleDeleteAgent_removes_one st)
               [{| Unified.id := "agent-1"; Unified.name := "Summarizer";
                   Unified.prompt := "Summarize the document.";
                   Unified.model := Unified.default_model; Unified.status := Pending;
                   Unified.output := None; Unified.error := None;
                   Unified.outputJson := JSON.JNull |}]
               [{| Unified.id := "agent-3"; Unified.name := "Summarizer";
                   Unified.prompt := "Summarize the document.";
                   Unified.model := Unified.default_model; Unified.status := Pending;
                   Unified.output := None; Unified.error := None;
                   Unified.outputJson := JSON.JNull |}]
               {| Unified.id := "agent-2"; Unified.name := "Sentiment Analyzer";
                  Unified.prompt := "Return the sentiment of the document as JSON.";
                  Unified.model := Unified.default_model; Unified.status := Pending;
                  Unified.output := None; Unified.error := None;
                  Unified.outputJson := JSON.JNull |} Hnd eq_refl)).
  - apply (proj1 (proj2 (handleDeleteAgent_removes_one st))). simpl. intuition discriminate.
Defined.

Module ChangeFacts.

Lemma nth_error_map_some {A B : Type} (f : A -> B) (l : list A) (n : nat) (b : B) :
  nth_error (map f l) n = Some b -> exists a, nth_error l n = Some a /\ b = f a.
Proof.
  revert n. induction l as [|x l IH]; intros [|n] H; simpl in H; try discriminate.
  - inversion H. exists x. auto.
  - apply (IH n H).
Qed.

End ChangeFacts.

(** X4 -- Editing the prompt or the model of an agent sets that field of the
    agents of that id to the new value and changes nothing else: the other
    field of the two, ids, order, names, statuses and the results of the
    last run stay, in every agent, and so does the rest of the state; an id
    that no agent has changes nothing.  The next run sends the edited prompt
    for the edited agent and the old prompts for the others.
    [handlePromptChange] of the single-provider revision edits the prompt in
    the same way. *)
Theorem handleAgentChange_edits_one_field (i : string) (field : Unified.Field) (v : string)
    (st : Unified.State) :
  map Unified.id (Unified.agents (Unified.handleAgentChange i field v st))
  = map Unified.id (Unified.agents st)
  /\ map (fun a => (Unified.name a, Unified.status a, Unified.output a, Unified.error a,
                   Unified.outputJson a))
         (Unified.agents (Unified.handleAgentChange i field v st))
     = map (fun a => (Unified.name a, Unified.status a, Unified.output a, Unified.error a,
                      Unified.outputJson a))
           (Unified.agents st)
  /\ map Unified.prompt (Unified.agents (Unified.handleAgentChange i field v st))
     = map (fun a => match field with
                     | Unified.field_prompt =>
                         if String.eqb (Unified.id a) i then v else Unified.prompt a
                     | Unified.field_model => Unified.prompt a
                     end)
           (Unified.agents st)
  /\ map Unified.model (Unified.agents (Unified.handleAgentChange i field v st))
     = map (fun a => match field with
                     | Unified.field_prompt => Unified.model a
                     | Unified.field_model =>
                         if String.eqb (Unified.id a) i then v else Unified.model a
                     end)
           (Unified.agents st)
  /\ Unified.setAgents (Unified.agents st) (Unified.handleAgentChange i field v st) = st
  /\ (~ In i (map Unified.id (Unified.agents st)) -> Unified.handleAgentChange i field v st = st)
  /\ (forall a, In a (Unified.agents (Unified.handleAgentChange i Unified.field_prompt v st)) ->
                Unified.id a = i -> Unified.prompt a = v)
  /\ (forall a, In a (Unified.agents (Unified.handleAgentChange i Unified.field_model v st)) ->
                Unified.id a = i -> Unified.model a = v)
  /\ (forall w n p,
        nth_error (Unified.prompts
                     (snd (Unified.runWorkflow w
                             (Unified.handleAgentChange i Unified.field_prompt v st)))) n = Some p ->
        exists a, nth_error (Unified.agents st) n = Some a
                  /\ p = fullPrompt (content (Unified.documentFile st))
                           (if String.eqb (Unified.id a) i then v else Unified.prompt a))
  /\ (forall gst : Gemini.State,
        map (fun a => (Gemini.id a, Gemini.name a, Gemini.status a, Gemini.output a,
                       Gemini.error a, Gemini.outputJson a))
            (Gemini.agents (Gemini.handlePromptChange i v gst))
        = map (fun a => (Gemini.id a, Gemini.name a, Gemini.status a, Gemini.output a,
                         Gemini.error a, Gemini.outputJson a))
              (Gemini.agents gst)
        /\ map Gemini.prompt (Gemini.agents (Gemini.handlePromptChange i v gst))
           = map (fun a => if String.eqb (Gemini.id a) i then v else Gemini.prompt a)
                 (Gemini.agents gst)
        /\ Gemini.setAgents (Gemini.agents gst) (Gemini.handlePromptChange i v gst) = gst).
Proof.
  split; [|split; [|split; [|split; [|split; [|split; [|split; [|split; [|split]]]]]]]].
  - unfold Unified.handleAgentChange. cbn [Unified.agents Unified.setAgents].
    rewrite map_map. apply map_ext. intros a.
    destruct (String.eqb (Unified.id a) i), field; reflexivity.
  - unfold Unified.handleAgentChange. cbn [Unified.agents Unified.setAgents].
    rewrite map_map. apply map_ext. intros a.
    destruct (String.eqb (Unified.id a) i), field; reflexivity.
  - unfold Unified.handleAgentChange. cbn [Unified.agents Unified.setAgents].
    rewrite map_map. apply map_ext. intros a.
    destruct (String.eqb (Unified.id a) i), field; reflexivity.
  - unfold Unified.handleAgentChange. cbn [Unified.agents Unified.setAgents].
    rewrite map_map. apply map_ext. intros a.
    destruct (String.eqb (Unified.id a) i), field; reflexivity.
  - destruct st; reflexivity.
  - intros Hi. unfold Unified.handleAgentChange.
    rewrite (map_ext_in _ (fun a => a)), map_id; [apply RegistryOps.state_eta|].
    intros a Ha. destruct (String.eqb_spec (Unified.id a) i) as [E|]; [|reflexivity].
    exfalso. apply Hi. rewrite <- E. apply in_map. exact Ha.
  - intros a Ha Hid. unfold Unified.handleAgentChange in Ha.
    cbn [Unified.agents Unified.setAgents] in Ha. apply in_map_iff in Ha as (x & <- & _).
    destruct (String.eqb_spec (Unified.id x) i) as [E|E]; [reflexivity|].
    exfalso. apply E. exact Hid.
  - intros a Ha Hid. unfold Unified.handleAgentChange in Ha.
    cbn [Unified.agents Unified.setAgents] in Ha. apply in_map_iff in Ha as (x & <- & _).
    destruct (String.eqb_spec (Unified.id x) i) as [E|E]; [reflexivity|].
    exfalso. apply E. exact Hid.
  - intros w n p H. apply UnifiedFacts.runWorkflow_prompts in H as (a & Ha & ->).
    unfold Unified.handleAgentChange in Ha. cbn [Unified.agents Unified.setAgents] in Ha.
    apply ChangeFacts.nth_error_map_some in Ha as (x & Hx & ->).
    exists x. split; [exact Hx|]. unfold Unified.prompt_for, Unified.handleAgentChange.
    cbn [Unified.documentFile Unified.setAgents].
    destruct (String.eqb (Unified.id x) i); reflexivity.
  - intros gst. unfold Gemini.handlePromptChange. cbn [Gemini.agents Gemini.setAgents].
    rewrite !map_map. split; [|split].
    + apply map_ext; intros a; destruct (String.eqb (Gemini.id a) i); reflexivity.
    + apply map_ext; intros a; destruct (String.eqb (Gemini.id a) i); reflexivity.
    + destruct gst; reflexivity.
Qed.

Lemma handleAgentChange_edits_one_field_witness :
  let st :=
    Unified.setDocumentFile Scenario.report
      (Session.addAgents [(1%Z, Scenario.summarizer); (2%Z, Scenario.sentiment_analyzer)]
         (Unified.initial "env-gemini-key" "" "" "")) in
  let st' := Unified.handleAgentChange "agent-2" Unified.field_prompt "Is the tone positive?" st in
  Unified.handleAgentChange "agent-9" Unified.field_prompt "Is the tone positive?" st = st
  /\ nth_error (Unified.prompts (snd (Unified.runWorkflow (Scenario.answering "ok") st'))) 1
     = Some (fullPrompt (content Scenario.report) "Is the tone positive?")
  /\ (exists a,
        nth_error (Unified.agents st) 1 = Some a
        /\ fullPrompt (content Scenario.report) "Is the tone positive?"
           = fullPrompt (content (Unified.documentFile st))
               (if String.eqb (Unified.id a) "agent-2" then "Is the tone positive?"
                else Unified.prompt a))
  /\ map Unified.model
       (Unified.agents (Unified.handleAgentChange "agent-2" Unified.field_model
                          "openai/gpt-4o-mini" st))
     = [Unified.default_model; "openai/gpt-4o-mini"].
Proof.
  intros st st'.
  destruct (handleAgentChange_edits_one_field "agent-9" Unified.field_prompt
              "Is the tone positive?" st) as (_ & _ & _ & _ & _ & Hunknown & _).
  destruct (handleAgentChange_edits_one_field "agent-2" Unified.field_prompt
              "Is the tone positive?" st) as (_ & _ & _ & _ & _ & _ & _ & _ & Hrun & _).
  destruct (handleAgentChange_edits_one_field "agent-2" Unified.field_model
              "openai/gpt-4o-mini" st) as (_ & _ & _ & Hmodel & _).
  split; [|split; [reflexivity|split]].
  - apply Hunknown. simpl. intuition discriminate.
  - apply (Hrun (Scenario.answering "ok") 1
             (fullPrompt (content Scenario.report) "Is the tone positive?") eq_refl).
  - rewrite Hmodel. reflexivity.
Defined.

Module ExtractFacts.




End ExtractFacts.





Module ServiceFacts.
Import Unified UnifiedFacts Services.

(** Every error shown by a run is the message of a failed call for one of
    the agents. *)
Lemma run_loop_error_origin (w : World) (todo : list Agent) :
  forall i cur st final st' events,
  no_error cur ->
  run_loop w i todo cur st = (final, st', events) ->
  forall l a, In (Rendered l) events -> In a l -> status a = Error ->
  exists agent j e requests,
    In agent todo
    /\ unifiedProcessAgentPrompt w j (geminiAI st) (openai st) agent (content (documentFile st))
       = (Throw e, requests)
    /\ error a = Some (message_of e).
Proof.
  induction todo as [|agent rest IH]; intros i cur st final st' events Hcur H l a Hl Ha Hs;
    simpl in H.
  - inversion H; subst. destruct Hl.
  - destruct (unifiedProcessAgentPrompt w i (geminiAI st) (openai st) agent (content (documentFile st)))
      as [outcome requests] eqn:E.
    destruct (unifiedProcessAgentPrompt_requests _ _ _ _ _ _ _ _ E) as (_ & _ & Hnr & _).
    assert (H1 : no_error (update agent running cur)).
    { apply KeyFacts.update_no_error; [discriminate | exact Hcur]. }
    destruct outcome as [out|e].
    + assert (H2 : no_error (update agent (succeeded out (parseJsonOutput out))
                               (update agent running cur))).
      { apply KeyFacts.update_no_error; [discriminate | exact H1]. }
      destruct (run_loop w (S i) rest _ _) as [[final' st3] events'] eqn:ER.
      inversion H; subst. clear H.
      destruct Hl as [Hl|[Hl|Hl]]; [inversion Hl; subst | discriminate |].
      { exfalso. apply (no_error_in _ a H1 Ha Hs). }
      apply in_app_or in Hl as [Hl|[Hl|Hl]]; [exfalso; apply (Hnr l Hl) | inversion Hl; subst |].
      { exfalso. apply (no_error_in _ a H2 Ha Hs). }
      destruct (IH _ _ _ _ _ _ H2 ER l a Hl Ha Hs) as (ag & j & e & rq & Hin & Hcall & Herr).
      exists ag, j, e, rq. split; [right; exact Hin|]. split; [exact Hcall | exact Herr].
    + inversion H; subst. clear H.
      destruct Hl as [Hl|[Hl|Hl]]; [inversion Hl; subst | discriminate |].
      { exfalso. apply (no_error_in _ a H1 Ha Hs). }
      apply in_app_or in Hl as [Hl|[Hl|[]]]; [exfalso; apply (Hnr l Hl)|].
      inversion Hl; subst.
      exists agent, i, e, requests. split; [left; reflexivity|]. split; [exact E|].
      apply (KeyFacts.update_failed_message agent _ _ a H1 Ha Hs).
Qed.

(** A run in which no failed call has a message about an API key leaves
    the stored keys, the key error and the key dialog alone. *)
Lemma run_loop_quiet (w : World) (todo : list Agent) :
  forall i cur st final st' events,
  (forall agent j e requests,
     In agent todo ->
     unifiedProcessAgentPrompt w j (geminiAI st) (openai st) agent (content (documentFile st))
     = (Throw e, requests) ->
     Js.includes "API key" (message_of e) = false) ->
  run_loop w i todo cur st = (final, st', events) ->
  userGeminiApiKey st' = userGeminiApiKey st
  /\ userOpenAIApiKey st' = userOpenAIApiKey st
  /\ apiKeyError st' = apiKeyError st
  /\ isApiKeyModalOpen st' = isApiKeyModalOpen st.
Proof.
  induction todo as [|agent rest IH]; intros i cur st final st' events Hq H; simpl in H.
  - inversion H; subst. auto.
  - destruct (unifiedProcessAgentPrompt w i (geminiAI st) (openai st) agent (content (documentFile st)))
      as [outcome requests] eqn:E.
    destruct outcome as [out|e].
    + destruct (run_loop w (S i) rest _ _) as [[final' st3] events'] eqn:ER.
      inversion H; subst. clear H.
      apply IH in ER; [exact ER|].
      intros ag j e rq Hin Hcall. apply (Hq ag j e rq (or_intror Hin) Hcall).
    + inversion H; subst. clear H.
      pose proof (Hq agent i e requests (or_introl eq_refl) E) as Hm.
      unfold message_of in Hm. unfold on_error. rewrite Hm. auto.
Qed.

(** The provider of a model the selector offers. *)
Lemma provider_of_option (m : string) :
  In m MODEL_OPTIONS -> provider_of m = "gemini" \/ provider_of m = "openai".
Proof. intros [<-|[<-|[<-|[]]]]; vm_compute; auto. Qed.

(** After the key check, the client of the provider of every agent is there. *)
Lemma client_of_agent (st : State) (agent : Agent) :
  clients_ready st -> missing_key st = None -> In agent (agents st) ->
  (provider_of (model agent) = "gemini" -> geminiAI st <> None)
  /\ (provider_of (model agent) = "openai" -> openai st <> None).
Proof.
  intros [Hg Ho] Hmk Hin. unfold missing_key in Hmk.
  assert (Hreq : requires st (provider_of (model agent))).
  { unfold requires. apply in_map_iff. exists agent. auto. }
  split; intros Hp; rewrite Hp in Hreq; apply PreconditionFacts.requires_has in Hreq;
    rewrite Hreq in Hmk.
  - destruct (isGeminiKeySet st) eqn:K; [rewrite (Hg eq_refl); discriminate | discriminate].
  - destruct (bool_decide _ && negb (isGeminiKeySet st)); [discriminate|].
    destruct (isOpenAIKeySet st) eqn:K; [rewrite (Ho eq_refl); discriminate | discriminate].
Qed.

Lemma openai_case {A : Type} (e : Thrown) (x y : A) :
  match api_status e with Some 401%Z => x | _ => y end
  = if openai_rejects_key e then x else y.
Proof.
  unfold openai_rejects_key. destruct (api_status e) as [[|p|p]|]; try reflexivity.
  repeat match goal with
         | |- context [match ?q with xI _ => _ | xO _ => _ | xH => _ end] => destruct q
         end; reflexivity.
Qed.

(** What [unifiedProcessAgentPrompt] throws: one of five fixed messages, or
    the complaint about a provider that is neither Gemini nor OpenAI; never
    the provider's own error. *)
Lemma unifiedProcessAgentPrompt_throws (w : World) (j : nat) (g o : option string)
    (agent : Agent) (doc : string) (e : Thrown) (requests : list Event) :
  unifiedProcessAgentPrompt w j g o agent doc = (Throw e, requests) ->
  (provider_of (model agent) = "gemini"
   /\ ((g = None /\ e = new_Error "Gemini API key is not configured." /\ requests = [])
       \/ (exists k e0, g = Some k
            /\ generateContent w j (modelName_of (model agent)) (fullPrompt doc (prompt agent))
               = Throw e0
            /\ e = new_Error (if gemini_rejects_key e0 then invalid_gemini_key
                              else "Failed to get response from Gemini API."))))
  \/ (provider_of (model agent) = "openai"
      /\ ((o = None /\ e = new_Error "OpenAI API key is not configured." /\ requests = [])
          \/ (exists k e0, o = Some k
               /\ chat_completions_create w j (modelName_of (model agent))
                    (fullPrompt doc (prompt agent)) = Throw e0
               /\ e = new_Error (if openai_rejects_key e0 then invalid_openai_key
                                 else "Failed to get response from OpenAI API."))))
  \/ (provider_of (model agent) <> "gemini" /\ provider_of (model agent) <> "openai"
      /\ e = new_Error ("Unsupported provider: " +:+ provider_of (model agent))
      /\ requests = []).
Proof.
  unfold unifiedProcessAgentPrompt. intros H.
  destruct (String.eqb_spec (provider_of (model agent)) "gemini") as [Ep|Ep].
  - left. split; [exact Ep|]. destruct g as [k|]; [right | left; inversion H; auto].
    destruct (generateContent w j _ _) as [t|e0] eqn:Eg; [discriminate|].
    exists k, e0. split; [reflexivity|]. split; [reflexivity|].
    unfold gemini_rejects_key. destruct (instanceof_Error e0 && _); inversion H; reflexivity.
  - destruct (String.eqb_spec (provider_of (model agent)) "openai") as [Eo|Eo].
    + right. left. split; [exact Eo|]. destruct o as [k|]; [right | left; inversion H; auto].
      destruct (chat_completions_create w j _ _) as [t|e0] eqn:Eg; [discriminate|].
      exists k, e0. split; [reflexivity|]. split; [reflexivity|].
      rewrite openai_case in H. destruct (openai_rejects_key e0); inversion H; reflexivity.
    + right. right. inversion H. auto.
Qed.

Lemma on_error_invalid_gemini_key (st : State) :
  on_error invalid_gemini_key st
  = setUserGeminiApiKey EmptyString
      (setIsApiKeyModalOpen true (setApiKeyError invalid_gemini_key st)).
Proof.
  assert (E1 : Js.includes "API key" invalid_gemini_key = true) by (vm_compute; reflexivity).
  assert (E2 : Js.includes "gemini" (Js.toLowerCase invalid_gemini_key) = true)
    by (vm_compute; reflexivity).
  assert (E3 : Js.includes "openai" (Js.toLowerCase invalid_gemini_key) = false)
    by (vm_compute; reflexivity).
  unfold on_error. rewrite E1, E2, E3. reflexivity.
Qed.

End ServiceFacts.

(** X7 -- The effect that follows a change of the keys creates the client of
    every provider whose key is set and changes nothing else; it never
    removes a client, so a client made with a key that was cleared later
    stays in place. *)
Theorem useEffect_keys_clients (st : Unified.State) :
  Services.clients_ready (Services.useEffect_keys st)
  /\ Services.setGeminiAI (Unified.geminiAI st)
       (Services.setOpenAI (Unified.openai st) (Services.useEffect_keys st)) = st
  /\ (Unified.isGeminiKeySet st = false ->
      Unified.geminiAI (Services.useEffect_keys st) = Unified.geminiAI st)
  /\ (Unified.isOpenAIKeySet st = false ->
      Unified.openai (Services.useEffect_keys st) = Unified.openai st)
  /\ (Unified.envGeminiApiKey st = EmptyString ->
      Unified.geminiAI
        (Services.useEffect_keys (Unified.on_error Unified.invalid_gemini_key st))
      = Unified.geminiAI st).
Proof.
  unfold Services.clients_ready, Services.useEffect_keys, Services.initGeminiService,
    Services.initOpenAIService, Unified.isGeminiKeySet, Unified.isOpenAIKeySet.
  split; [|split; [|split; [|split]]].
  - destruct (Js.truthy (Unified.effectiveGeminiApiKey st)) eqn:G,
             (Js.truthy (Unified.effectiveOpenAIApiKey st)) eqn:O;
      cbn; split; intros H; try reflexivity;
      unfold Unified.effectiveGeminiApiKey, Unified.effectiveOpenAIApiKey in *; cbn in *;
      congruence.
  - destruct (Js.truthy (Unified.effectiveGeminiApiKey st)),
             (Js.truthy (Unified.effectiveOpenAIApiKey st)); destruct st; reflexivity.
  - intros G. rewrite G. destruct (Js.truthy (Unified.effectiveOpenAIApiKey st)); reflexivity.
  - intros O. rewrite O. destruct (Js.truthy (Unified.effectiveGeminiApiKey st)); reflexivity.
  - intros Henv. rewrite ServiceFacts.on_error_invalid_gemini_key.
    destruct st as [eg eo ug uo mo ke g o d ags p an tab]. cbn in Henv. subst eg.
    unfold Unified.effectiveGeminiApiKey, Unified.effectiveOpenAIApiKey.
    cbn -[Unified.invalid_gemini_key].
    destruct (Js.truthy (Js.or_else eo uo)); reflexivity.
Qed.

Lemma useEffect_keys_clients_witness :
  let st := Unified.initial "" "" "user-key" "" in
  Unified.geminiAI st = Some "user-key"
  /\ Unified.isGeminiKeySet (Unified.on_error Unified.invalid_gemini_key st) = false
  /\ Unified.geminiAI (Services.useEffect_keys (Unified.on_error Unified.invalid_gemini_key st))
     = Unified.geminiAI st.
Proof.
  intros st. split; [reflexivity|]. split; [reflexivity|].
  apply (proj2 (proj2 (proj2 (proj2 (useEffect_keys_clients st))))). reflexivity.
Defined.

(** X8 -- When the clients are those the effect creates, the key check of
    [runWorkflow] makes the not-configured branch of
    [unifiedProcessAgentPrompt] unreachable: no agent is ever shown with
    that error. *)
Theorem runWorkflow_never_not_configured (w : World) (st : Unified.State) :
  Services.clients_ready st ->
  forall l a,
  In (Unified.Rendered l) (snd (Unified.runWorkflow w st)) -> In a l ->
  Unified.status a = Error ->
  Unified.error a <> Some "Gemini API key is not configured."
  /\ Unified.error a <> Some "OpenAI API key is not configured.".
Proof.
  intros Hready l a Hl Ha Hs. unfold Unified.runWorkflow in Hl.
  destruct (Unified.missing_key st) eqn:Hmk; [destruct Hl|].
  destruct (Unified.run_loop w 0 (Unified.agents st) _ _) as [[final st3] events] eqn:ER.
  cbn [snd] in Hl. destruct Hl as [Hl|Hl].
  { exfalso. inversion Hl; subst.
    apply (UnifiedFacts.no_error_in _ a (UnifiedFacts.no_error_reset _) Ha Hs). }
  destruct (ServiceFacts.run_loop_error_origin w _ _ _ _ _ _ _ (UnifiedFacts.no_error_reset _) ER
              l a Hl Ha Hs) as (agent & j & e & requests & Hin & Hcall & Herr).
  cbn [Unified.geminiAI Unified.openai Unified.documentFile Unified.setAgents
       Unified.setAnalysisResult Unified.setIsProcessing] in Hcall.
  destruct (ServiceFacts.client_of_agent st agent Hready Hmk Hin) as [Hg Ho].
  rewrite Herr.
  destruct (ServiceFacts.unifiedProcessAgentPrompt_throws _ _ _ _ _ _ _ _ Hcall)
    as [[Ep [(Hn & _)|(k & e0 & _ & _ & ->)]]
       |[[Ep [(Hn & _)|(k & e0 & _ & _ & ->)]]
        |(_ & _ & -> & _)]].
  - exfalso. exact (Hg Ep Hn).
  - destruct (Services.gemini_rejects_key e0); split; intros H; discriminate H.
  - exfalso. exact (Ho Ep Hn).
  - destruct (Services.openai_rejects_key e0); split; intros H; discriminate H.
  - split; intros H; discriminate H.
Qed.

Lemma runWorkflow_never_not_configured_witness :
  let st := Unified.addAgent 1 Scenario.summarizer (Unified.initial "" "" "user-key" "") in
  exists a,
    In (Unified.Rendered [a]) (snd (Unified.runWorkflow Scenario.rejecting st))
    /\ Unified.status a = Error
    /\ Unified.error a <> Some "Gemini API key is not configured.".
Proof.
  intros st.
  exists {| Unified.id := "agent-1"; Unified.name := "Summarizer";
            Unified.prompt := "Summarize the document.";
            Unified.model := Unified.default_model; Unified.status := Error;
            Unified.output := None; Unified.error := Some Unified.invalid_gemini_key;
            Unified.outputJson := JSON.JNull |}.
  assert (Hin : In (Unified.Rendered
                      [{| Unified.id := "agent-1"; Unified.name := "Summarizer";
                          Unified.prompt := "Summarize the document.";
                          Unified.model := Unified.default_model; Unified.status := Error;
                          Unified.output := None; Unified.error := Some Unified.invalid_gemini_key;
                          Unified.outputJson := JSON.JNull |}])
                   (snd (Unified.runWorkflow Scenario.rejecting st))).
  { vm_compute. repeat (first [left; reflexivity | right]). }
  split; [exact Hin|]. split; [reflexivity|].
  refine (proj1 (runWorkflow_never_not_configured Scenario.rejecting st _ _ _ Hin
                   (or_introl eq_refl) eq_refl)).
  split; intros H; [reflexivity | vm_compute in H; discriminate H].
Defined.

(** X9 -- A provider failure that is not read as a rejected key (for Gemini: an
    error whose message has neither [API key not valid] nor [403]; for
    OpenAI: any status but 401) costs the user nothing: with the models of
    the selector and the clients in place, the run leaves both stored keys,
    the key error and the key dialog as they were, and the failed agent
    shows the fixed failure message of its provider. *)
Theorem transient_failures_keep_keys (w : World) (st : Unified.State) :
  Services.clients_ready st ->
  Unified.missing_key st = None ->
  (forall a, In a (Unified.agents st) -> In (Unified.model a) Services.MODEL_OPTIONS) ->
  (forall j m p e, generateContent w j m p = Throw e -> Services.gemini_rejects_key e = false) ->
  (forall j m p e, chat_completions_create w j m p = Throw e ->
                   Services.openai_rejects_key e = false) ->
  Unified.userGeminiApiKey (fst (Unified.runWorkflow w st)) = Unified.userGeminiApiKey st
  /\ Unified.userOpenAIApiKey (fst (Unified.runWorkflow w st)) = Unified.userOpenAIApiKey st
  /\ Unified.apiKeyError (fst (Unified.runWorkflow w st)) = Unified.apiKeyError st
  /\ Unified.isApiKeyModalOpen (fst (Unified.runWorkflow w st)) = Unified.isApiKeyModalOpen st
  /\ (forall l a,
        In (Unified.Rendered l) (snd (Unified.runWorkflow w st)) -> In a l ->
        Unified.status a = Error ->
        Unified.error a = Some "Failed to get response from Gemini API."
        \/ Unified.error a = Some "Failed to get response from OpenAI API.").
Proof.
  intros Hready Hmk Hmodels Hgem Hopen.
  assert (Hcalls : forall agent j e requests,
             In agent (Unified.agents st) ->
             Unified.unifiedProcessAgentPrompt w j (Unified.geminiAI st) (Unified.openai st) agent
               (content (Unified.documentFile st)) = (Throw e, requests) ->
             e = new_Error "Failed to get response from Gemini API."
             \/ e = new_Error "Failed to get response from OpenAI API.").
  { intros agent j e requests Hin Hcall.
    destruct (ServiceFacts.client_of_agent st agent Hready Hmk Hin) as [Hg Ho].
    destruct (ServiceFacts.unifiedProcessAgentPrompt_throws _ _ _ _ _ _ _ _ Hcall)
      as [[Ep [(Hn & _)|(k & e0 & _ & He0 & ->)]]
         |[[Ep [(Hn & _)|(k & e0 & _ & He0 & ->)]]
          |(Hng & Hno & _)]].
    - exfalso. exact (Hg Ep Hn).
    - rewrite (Hgem _ _ _ _ He0). left. reflexivity.
    - exfalso. exact (Ho Ep Hn).
    - rewrite (Hopen _ _ _ _ He0). right. reflexivity.
    - exfalso. destruct (ServiceFacts.provider_of_option _ (Hmodels agent Hin)); contradiction. }
  unfold Unified.runWorkflow. rewrite Hmk.
  destruct (Unified.run_loop w 0 (Unified.agents st) _ _) as [[final st3] events] eqn:ER.
  cbn [fst snd].
  assert (Hquiet : forall agent j e requests,
             In agent (Unified.agents st) ->
             Unified.unifiedProcessAgentPrompt w j (Unified.geminiAI st) (Unified.openai st) agent
               (content (Unified.documentFile st)) = (Throw e, requests) ->
             Js.includes "API key" (Services.message_of e) = false).
  { intros agent j e requests Hin Hcall.
    destruct (Hcalls agent j e requests Hin Hcall) as [-> | ->]; reflexivity. }
  pose proof ER as ER'.
  eapply ServiceFacts.run_loop_quiet in ER' as (Kg & Ko & Ke & Km); [|exact Hquiet].
  cbn [Unified.setAgents Unified.setAnalysisResult Unified.setIsProcessing
       Unified.userGeminiApiKey Unified.userOpenAIApiKey Unified.apiKeyError
       Unified.isApiKeyModalOpen] in Kg, Ko, Ke, Km.
  cbn [Unified.setIsProcessing Unified.userGeminiApiKey Unified.userOpenAIApiKey
       Unified.apiKeyError Unified.isApiKeyModalOpen].
  rewrite Kg, Ko, Ke, Km. repeat split.
  intros l a Hl Ha Hs. destruct Hl as [Hl|Hl].
  { exfalso. inversion Hl; subst.
    apply (UnifiedFacts.no_error_in _ a (UnifiedFacts.no_error_reset _) Ha Hs). }
  destruct (ServiceFacts.run_loop_error_origin w _ _ _ _ _ _ _ (UnifiedFacts.no_error_reset _) ER
              l a Hl Ha Hs) as (agent & j & e & requests & Hin & Hcall & Herr).
  rewrite Herr. destruct (Hcalls agent j e requests Hin Hcall) as [-> | ->]; [left | right];
    reflexivity.
Qed.

Lemma transient_failures_keep_keys_witness :
  let w := Scenario.failing_after_first "A summary." in
  let st :=
    Session.addAgents [(1%Z, Scenario.summarizer); (2%Z, Scenario.sentiment_analyzer)]
      (Unified.initial "" "" "user-key" "") in
  map Unified.status (Unified.agents (fst (Unified.runWorkflow w st))) = [Success; Error]
  /\ Unified.userGeminiApiKey (fst (Unified.runWorkflow w st)) = "user-key"
  /\ Unified.isApiKeyModalOpen (fst (Unified.runWorkflow w st)) = false.
Proof.
  intros w st. split; [reflexivity|].
  assert (Hready : Services.clients_ready st).
  { split; intros H; [reflexivity | vm_compute in H; discriminate H]. }
  assert (Hmodels : forall a, In a (Unified.agents st) ->
                              In (Unified.model a) Services.MODEL_OPTIONS).
  { intros a [<-|[<-|[]]]; left; reflexivity. }
  assert (Hgem : forall j m p e, generateContent w j m p = Throw e ->
                                 Services.gemini_rejects_key e = false).
  { intros [|j] m p e H; simpl in H; [discriminate|]. inversion H. reflexivity. }
  assert (Hopen : forall j m p e, chat_completions_create w j m p = Throw e ->
                                  Services.openai_rejects_key e = false).
  { intros [|j] m p e H; simpl in H; [discriminate|]. inversion H. reflexivity. }
  destruct (transient_failures_keep_keys w st Hready eq_refl Hmodels Hgem Hopen)
    as (Kg & _ & _ & Km & _).
  split; [exact Kg | exact Km].
Defined.



Module WhitespaceFacts.
Import Whitespace.

(** Two prefixes of one text: one is a prefix of the other. *)
Lemma startsWith_comparable (p q s : string) :
  Js.startsWith p s = true -> Js.startsWith q s = true ->
  Js.startsWith p q = true \/ Js.startsWith q p = true.
Proof.
  revert q s. induction p as [|x p IH]; intros q s Hp Hq; [left; reflexivity|].
  destruct q as [|y q]; [right; reflexivity|].
  destruct s as [|a s]; [discriminate|].
  rewrite JsFacts.startsWith_first in Hp, Hq.
  destruct (Ascii.eqb_spec x a) as [->|]; [|discriminate].
  destruct (Ascii.eqb_spec y a) as [->|]; [|discriminate].
  rewrite !JsFacts.startsWith_first, Ascii.eqb_refl. apply (IH q s Hp Hq).
Qed.

Lemma spaces_sizes (p : string) :
  In p spaces -> 1 <= String.length p <= 3.
Proof.
  assert (H : forallb (fun p => (1 <=? String.length p)%nat && (String.length p <=? 3)%nat) spaces
              = true) by (vm_compute; reflexivity).
  rewrite forallb_forall in H. intros Hp. specialize (H p Hp).
  apply andb_prop in H as [H1 H2]. apply Nat.leb_le in H1. apply Nat.leb_le in H2. lia.
Qed.

(** No form is a prefix of another. *)
Lemma spaces_prefix_free (p q : string) :
  In p spaces -> In q spaces -> Js.startsWith p q = true -> p = q.
Proof.
  assert (H : forallb (fun p => forallb (fun q => if Js.startsWith p q then String.eqb p q else true)
                                  spaces) spaces = true) by (vm_compute; reflexivity).
  rewrite forallb_forall in H. intros Hp Hq Hpq. specialize (H p Hp).
  rewrite forallb_forall in H. specialize (H q Hq). rewrite Hpq in H.
  apply String.eqb_eq. exact H.
Qed.

Lemma space_length_starts (p s : string) :
  In p spaces -> Js.startsWith p s = true -> space_length s = String.length p.
Proof.
  intros Hp Hs. unfold space_length.
  destruct (List.find (fun p => Js.startsWith p s) spaces) as [q|] eqn:E.
  - apply List.find_some in E as [Hq Hqs].
    destruct (startsWith_comparable p q s Hs Hqs) as [H|H].
    + rewrite (spaces_prefix_free p q Hp Hq H). reflexivity.
    + rewrite (spaces_prefix_free q p Hq Hp H). reflexivity.
  - exfalso. pose proof (List.find_none _ _ E p Hp) as H. simpl in H. congruence.
Qed.

Lemma space_length_app (p rest : string) :
  In p spaces -> space_length (p +:+ rest) = String.length p.
Proof. intros Hp. apply (space_length_starts p _ Hp). apply JsFacts.startsWith_append. Qed.

(** The three shapes of a text. *)
Lemma shape (s : string) :
  s = EmptyString
  \/ (s <> EmptyString /\ space_length s = 0)
  \/ (exists p rest, In p spaces /\ s = p +:+ rest).
Proof.
  destruct s as [|c s]; [left; reflexivity|]. right.
  unfold space_length.
  destruct (List.find (fun p => Js.startsWith p (String c s)) spaces) as [p|] eqn:E.
  - right. apply List.find_some in E as [Hp Hs]. exists p, (Js.drop (String.length p) (String c s)).
    split; [exact Hp | apply (JsFacts.startsWith_split _ _ Hs)].
  - left. split; [discriminate | reflexivity].
Qed.

Lemma trimStart_app (p rest : string) : In p spaces -> trimStart (p +:+ rest) = trimStart rest.
Proof.
  intros Hp. pose proof (space_length_app p rest Hp) as Hl. pose proof (spaces_sizes p Hp) as Hs.
  destruct p as [|a [|b [|c [|d p]]]]; simpl in Hs; try lia; simpl in *; rewrite Hl; reflexivity.
Qed.

Lemma blank_app_space (p rest : string) : In p spaces -> blank (p +:+ rest) = blank rest.
Proof.
  intros Hp. pose proof (space_length_app p rest Hp) as Hl. pose proof (spaces_sizes p Hp) as Hs.
  destruct p as [|a [|b [|c [|d p]]]]; simpl in Hs; try lia; simpl in *; rewrite Hl; reflexivity.
Qed.

Lemma trimStart_none (s : string) : space_length s = 0 -> trimStart s = s.
Proof. intros H. destruct s; simpl; rewrite ?H; reflexivity. Qed.

Lemma blank_none (s : string) : s <> EmptyString -> space_length s = 0 -> blank s = false.
Proof. intros Hs H. destruct s; [congruence|]. simpl. rewrite H. reflexivity. Qed.

Lemma length_app_space (p rest : string) :
  In p spaces -> String.length rest < String.length (p +:+ rest).
Proof. intros Hp. pose proof (spaces_sizes p Hp). rewrite JsFacts.length_append. lia. Qed.

(** Induction along the white space at the start. *)
Lemma space_ind (P : string -> Prop) :
  P EmptyString ->
  (forall s, s <> EmptyString -> space_length s = 0 -> P s) ->
  (forall p rest, In p spaces -> P rest -> P (p +:+ rest)) ->
  forall s, P s.
Proof.
  intros H0 H1 H2 s.
  assert (H : forall n s, String.length s < n -> P s).
  { clear s. induction n as [|n IH]; intros s Hn; [lia|].
    destruct (shape s) as [->|[[Hs Hl]|(p & rest & Hp & ->)]]; [exact H0 | exact (H1 s Hs Hl)|].
    apply (H2 p rest Hp). apply IH. pose proof (length_app_space p rest Hp). lia. }
  apply (H (S (String.length s))). lia.
Qed.

Lemma trimStart_blank (s : string) : blank s = true <-> trimStart s = EmptyString.
Proof.
  induction s as [|s Hs Hl|p rest Hp IH] using space_ind.
  - split; reflexivity.
  - rewrite (blank_none s Hs Hl), (trimStart_none s Hl). split; [discriminate | congruence].
  - rewrite (blank_app_space p rest Hp), (trimStart_app p rest Hp). exact IH.
Qed.

Lemma space_length_trimStart (s : string) : space_length (trimStart s) = 0.
Proof.
  induction s as [|s Hs Hl|p rest Hp IH] using space_ind.
  - reflexivity.
  - rewrite (trimStart_none s Hl). exact Hl.
  - rewrite (trimStart_app p rest Hp). exact IH.
Qed.

Lemma blank_append (a b : string) : blank a = true -> blank b = true -> blank (a +:+ b) = true.
Proof.
  induction a as [|s Hs Hl|p rest Hp IH] using space_ind; intros Ha Hb.
  - exact Hb.
  - rewrite (blank_none s Hs Hl) in Ha. discriminate.
  - rewrite JsFacts.append_assoc, (blank_app_space p _ Hp).
    rewrite (blank_app_space p rest Hp) in Ha. apply (IH Ha Hb).
Qed.

Lemma trimEnd_split (s : string) : exists w, s = trimEnd s +:+ w /\ blank w = true.
Proof.
  induction s as [|c s IH].
  - exists EmptyString. split; reflexivity.
  - cbn [trimEnd]. destruct (blank (String c s)) eqn:E.
    + exists (String c s). split; [reflexivity | exact E].
    + destruct IH as (w & Hw & Hb). exists w. split; [|exact Hb].
      simpl. f_equal. exact Hw.
Qed.

Lemma trimEnd_idem (s : string) : trimEnd (trimEnd s) = trimEnd s.
Proof.
  induction s as [|c s IH]; [reflexivity|].
  cbn [trimEnd]. destruct (blank (String c s)) eqn:E; [reflexivity|].
  cbn [trimEnd]. destruct (blank (String c (trimEnd s))) eqn:E'.
  - exfalso. destruct (trimEnd_split s) as (w & Hw & Hb).
    pose proof (blank_append _ _ E' Hb) as H.
    change (String c (trimEnd s) +:+ w) with (String c (trimEnd s +:+ w)) in H.
    rewrite <- Hw in H. congruence.
  - rewrite IH. reflexivity.
Qed.

Lemma space_length_trimEnd (s : string) : space_length s = 0 -> space_length (trimEnd s) = 0.
Proof.
  intros H. destruct (shape (trimEnd s)) as [->|[[_ Hl]|(p & rest & Hp & E)]];
    [reflexivity | exact Hl|].
  exfalso. destruct (trimEnd_split s) as (w & Hw & _). rewrite E, JsFacts.append_assoc in Hw.
  rewrite Hw, (space_length_app p _ Hp) in H. pose proof (spaces_sizes p Hp). lia.
Qed.

Lemma trim_idem (s : string) : trim (trim s) = trim s.
Proof.
  unfold trim.
  rewrite (trimStart_none (trimEnd (trimStart s))
             (space_length_trimEnd _ (space_length_trimStart s))).
  apply trimEnd_idem.
Qed.

Lemma trim_blank (s : string) : blank s = true <-> trim s = EmptyString.
Proof.
  unfold trim. split.
  - intros H. apply trimStart_blank in H. rewrite H. reflexivity.
  - intros H. apply trimStart_blank.
    destruct (trimStart s) as [|c t] eqn:E; [reflexivity|]. exfalso.
    cbn [trimEnd] in H.
    rewrite (blank_none (String c t)) in H; [discriminate | discriminate|].
    rewrite <- E. apply space_length_trimStart.
Qed.

End WhitespaceFacts.

(** X11 -- [handleSaveApiKeys] closes the dialog and clears the key error whatever
    was typed; a field left empty keeps the stored key, a field with text
    stores the text without the white space around it, so stored keys that
    were trimmed stay trimmed; a key given any text that is not blank is set
    afterwards; the environment keys and the agents are not touched. *)
Theorem handleSaveApiKeys_trims_and_closes (tempGeminiKey tempOpenAIKey : string)
    (st : Unified.State) :
  let st' := KeyDialog.handleSaveApiKeys tempGeminiKey tempOpenAIKey st in
  Unified.isApiKeyModalOpen st' = false
  /\ Unified.apiKeyError st' = EmptyString
  /\ Unified.envGeminiApiKey st' = Unified.envGeminiApiKey st
  /\ Unified.envOpenAIApiKey st' = Unified.envOpenAIApiKey st
  /\ Unified.agents st' = Unified.agents st
  /\ (tempGeminiKey = EmptyString -> Unified.userGeminiApiKey st' = Unified.userGeminiApiKey st)
  /\ (tempOpenAIKey = EmptyString -> Unified.userOpenAIApiKey st' = Unified.userOpenAIApiKey st)
  /\ (tempGeminiKey <> EmptyString ->
      Unified.userGeminiApiKey st' = Whitespace.trim tempGeminiKey)
  /\ (tempOpenAIKey <> EmptyString ->
      Unified.userOpenAIApiKey st' = Whitespace.trim tempOpenAIKey)
  /\ (Whitespace.trim (Unified.userGeminiApiKey st) = Unified.userGeminiApiKey st ->
      Whitespace.trim (Unified.userGeminiApiKey st') = Unified.userGeminiApiKey st')
  /\ (Whitespace.trim (Unified.userOpenAIApiKey st) = Unified.userOpenAIApiKey st ->
      Whitespace.trim (Unified.userOpenAIApiKey st') = Unified.userOpenAIApiKey st')
  /\ (Whitespace.blank tempGeminiKey = false -> Unified.isGeminiKeySet st' = true)
  /\ (Whitespace.blank tempOpenAIKey = false -> Unified.isOpenAIKeySet st' = true).
Proof.
  intros st'. subst st'. unfold KeyDialog.handleSaveApiKeys.
  assert (Hset : forall env k, Whitespace.blank k = false ->
                               Js.truthy (Js.or_else env (Whitespace.trim k)) = true).
  { intros env k Hk. unfold Js.or_else. destruct (Js.truthy env) eqn:E; [exact E|].
    destruct (Whitespace.trim k) eqn:T; [|reflexivity].
    apply WhitespaceFacts.trim_blank in T. congruence. }
  destruct tempGeminiKey as [|a g], tempOpenAIKey as [|b o]; cbn [Js.truthy];
    cbn [Unified.setIsApiKeyModalOpen Unified.setApiKeyError Unified.setUserGeminiApiKey
         Unified.setUserOpenAIApiKey Unified.isApiKeyModalOpen Unified.apiKeyError
         Unified.envGeminiApiKey Unified.envOpenAIApiKey Unified.agents
         Unified.userGeminiApiKey Unified.userOpenAIApiKey];
    unfold Unified.isGeminiKeySet, Unified.isOpenAIKeySet, Unified.effectiveGeminiApiKey,
      Unified.effectiveOpenAIApiKey;
    cbn [Unified.setIsApiKeyModalOpen Unified.setApiKeyError Unified.setUserGeminiApiKey
         Unified.setUserOpenAIApiKey Unified.envGeminiApiKey Unified.envOpenAIApiKey
         Unified.userGeminiApiKey Unified.userOpenAIApiKey];
    repeat split; try reflexivity; try congruence; try discriminate;
    try (intros _; apply WhitespaceFacts.trim_idem); try apply Hset.
Qed.

Lemma handleSaveApiKeys_trims_and_closes_witness :
  let st := Unified.setIsApiKeyModalOpen true (Unified.initial "" "" "" "sk-old") in
  let st' := KeyDialog.handleSaveApiKeys ("  AIza-key" +:+ Js.newline) "" st in
  Unified.userGeminiApiKey st' = "AIza-key"
  /\ Unified.userOpenAIApiKey st' = "sk-old"
  /\ Unified.isGeminiKeySet st' = true
  /\ Unified.isApiKeyModalOpen st' = false.
Proof.
  intros st st'.
  destruct (handleSaveApiKeys_trims_and_closes ("  AIza-key" +:+ Js.newline) "" st)
    as (Hm & _ & _ & _ & _ & _ & Ho & Hg & _ & _ & _ & Hset & _).
  split; [exact (Hg ltac:(discriminate))|]. split; [exact (Ho eq_refl)|].
  split; [exact (Hset eq_refl) | exact Hm].
Defined.

(** X12 -- A key field that holds white space only is not empty: saving it in
    [src/App.tsx] replaces the stored key by the empty string, and without
    an environment key the next run of a workflow that names the provider is
    refused.  The dialog of the single-provider revision ignores such input
    and can never unset a key. *)
Theorem blank_key_erases_stored_key (tempGeminiKey tempOpenAIKey : string) :
  tempGeminiKey <> EmptyString -> Whitespace.blank tempGeminiKey = true ->
  (forall st : Unified.State,
     Unified.userGeminiApiKey (KeyDialog.handleSaveApiKeys tempGeminiKey tempOpenAIKey st)
     = EmptyString)
  /\ (forall (w : World) (st : Unified.State),
        Unified.envGeminiApiKey st = EmptyString -> Unified.requires st "gemini" ->
        snd (Unified.runWorkflow w (KeyDialog.handleSaveApiKeys tempGeminiKey tempOpenAIKey st))
        = []
        /\ Unified.apiKeyError
             (fst (Unified.runWorkflow w
                     (KeyDialog.handleSaveApiKeys tempGeminiKey tempOpenAIKey st)))
           = "A Gemini API key is required for this workflow.")
  /\ (forall st : Gemini.State, KeyDialog.saveAndContinue tempGeminiKey st = st)
  /\ (forall (k : string) (st : Gemini.State),
        Gemini.isApiKeySet st = true -> Gemini.isApiKeySet (KeyDialog.saveAndContinue k st) = true).
Proof.
  intros Hne Hblank.
  assert (Htrim : Whitespace.trim tempGeminiKey = EmptyString)
    by (apply WhitespaceFacts.trim_blank; exact Hblank).
  assert (Hkey : forall st : Unified.State,
             Unified.userGeminiApiKey (KeyDialog.handleSaveApiKeys tempGeminiKey tempOpenAIKey st)
             = EmptyString).
  { intros st. unfold KeyDialog.handleSaveApiKeys.
    destruct tempGeminiKey as [|a g]; [congruence|]. cbn [Js.truthy]. rewrite Htrim.
    destruct (Js.truthy tempOpenAIKey); reflexivity. }
  split; [exact Hkey|]. split; [|split].
  - intros w st Henv Hreq.
    set (st' := KeyDialog.handleSaveApiKeys tempGeminiKey tempOpenAIKey st).
    assert (Hagents : Unified.agents st' = Unified.agents st).
    { unfold st', KeyDialog.handleSaveApiKeys.
      destruct (Js.truthy tempGeminiKey), (Js.truthy tempOpenAIKey); reflexivity. }
    assert (Henv' : Unified.envGeminiApiKey st' = EmptyString).
    { unfold st', KeyDialog.handleSaveApiKeys.
      destruct (Js.truthy tempGeminiKey), (Js.truthy tempOpenAIKey); exact Henv. }
    assert (Hunset : Unified.isGeminiKeySet st' = false).
    { unfold Unified.isGeminiKeySet, Unified.effectiveGeminiApiKey.
      rewrite Henv'. unfold st'. rewrite Hkey. reflexivity. }
    assert (Hreq' : Unified.requires st' "gemini").
    { unfold Unified.requires. rewrite Hagents. exact Hreq. }
    destruct (PreconditionFacts.missing_key_first st' (or_introl (conj Hreq' Hunset)))
      as (msg & Hmk & Hmsg & _).
    unfold Unified.runWorkflow. rewrite Hmk. cbn [fst snd]. split; [reflexivity|].
    rewrite (Hmsg (conj Hreq' Hunset)). reflexivity.
  - intros st. unfold KeyDialog.saveAndContinue. rewrite Htrim. reflexivity.
  - intros k st Hset. unfold KeyDialog.saveAndContinue.
    destruct (Js.truthy (Whitespace.trim k)) eqn:E; [|exact Hset].
    unfold Gemini.isApiKeySet, Gemini.effectiveApiKey in *.
    cbn [Gemini.setUserApiKey Gemini.envApiKey Gemini.userApiKey].
    unfold Js.or_else in *. destruct (Js.truthy (Gemini.envApiKey st)) eqn:Ee; [exact Ee | exact E].
Qed.

Lemma blank_key_erases_stored_key_witness :
  let st := Unified.addAgent 1 Scenario.summarizer (Unified.initial "" "" "AIza-key" "") in
  let st' := KeyDialog.handleSaveApiKeys "   " "" st in
  Unified.isGeminiKeySet st = true
  /\ Unified.userGeminiApiKey st' = EmptyString
  /\ snd (Unified.runWorkflow (Scenario.answering "ok") st') = [].
Proof.
  intros st st'. split; [reflexivity|].
  destruct (blank_key_erases_stored_key "   " "" ltac:(discriminate) eq_refl)
    as (Hkey & Hrun & _).
  split; [exact (Hkey st)|].
  apply (Hrun (Scenario.answering "ok") st eq_refl). left. reflexivity.
Defined.

Module DocumentFacts.
Import Unified Documents.




Lemma performOcrWithGemini_answer (v : Vision) (i : nat) (key : string) (d : option string)
    (t : string) :
  ocr_generateContent v i "gemini-2.5-flash"
    "Perform OCR on this image. Extract all text accurately." d = Normal t ->
  performOcrWithGemini v i (Some key) d = (Normal t, [OcrRequested "gemini-2.5-flash" d]).
Proof. intros H. unfold performOcrWithGemini. rewrite H. reflexivity. Qed.

Lemma performOcrWithGemini_failure (v : Vision) (i : nat) (key : string) (d : option string)
    (e : Thrown) :
  ocr_generateContent v i "gemini-2.5-flash"
    "Perform OCR on this image. Extract all text accurately." d = Throw e ->
  performOcrWithGemini v i (Some key) d
  = (Throw (new_Error (ocr_failure e)), [OcrRequested "gemini-2.5-flash" d]).
Proof.
  intros H. unfold performOcrWithGemini, ocr_failure. rewrite H.
  destruct (instanceof_Error e && _); reflexivity.
Qed.

(** The loop over pages whose OCR succeeds. *)
Lemma ocr_pages_answers (v : Vision) (key : string) (c : Component) (urls : list string) :
  geminiAI (app c) = Some key ->
  forall (texts : list string) (i : nat) (rest : list (Completion string)),
  1 <= i ->
  length texts = length urls ->
  (forall j u t, nth_error urls j = Some u -> nth_error texts j = Some t ->
                 ocr_generateContent v (i - 1 + j) "gemini-2.5-flash"
                   "Perform OCR on this image. Extract all text accurately." (base64_of u)
                 = Normal t) ->
  ocr_pages v i (map Normal urls ++ rest) c
  = (match fst (fst (ocr_pages v (i + length urls) rest c)) with
     | Normal tl => Normal (page_sections i texts ++ tl)
     | Throw e => Throw e
     end,
     snd (fst (ocr_pages v (i + length urls) rest c)),
     map (fun u => OcrRequested "gemini-2.5-flash" (base64_of u)) urls
     ++ snd (ocr_pages v (i + length urls) rest c)).
Proof.
  intros Hkey. induction urls as [|u urls IH]; intros texts i rest Hi Hlen Hocr.
  - destruct texts; [|discriminate]. simpl. rewrite Nat.add_0_r.
    destruct (ocr_pages v i rest c) as [[[tl|e] c'] ev]; reflexivity.
  - destruct texts as [|t texts]; [discriminate|]. injection Hlen as Hlen.
    cbn [map List.app ocr_pages]. rewrite Hkey.
    rewrite (performOcrWithGemini_answer v (i - 1) key (base64_of u) t).
    2:{ specialize (Hocr 0 u t eq_refl eq_refl). rewrite Nat.add_0_r in Hocr. exact Hocr. }
    rewrite (IH texts (S i) rest); [|lia|exact Hlen|].
    2:{ intros j u' t' Hu Ht. specialize (Hocr (S j) u' t' Hu Ht).
        replace (S i - 1 + j) with (i - 1 + S j) by lia. exact Hocr. }
    replace (S i + length urls) with (i + length (u :: urls)) by (simpl; lia).
    destruct (ocr_pages v (i + length (u :: urls)) rest c) as [[[tl|e] c'] ev]; reflexivity.
Qed.

End DocumentFacts.

(** X13 -- The [onload] callback of a PDF whose first pages are read by the OCR
    model: when those are all its pages, the document content is their
    sections joined by blank lines, one request per page; when the OCR of
    the next page fails, the content ends with the failure section of that
    page, the pages after it are never requested, and the stored Gemini key
    is cleared exactly when the failure is read as a rejected key. *)
Theorem onload_reads_pages_until_failure (v : Vision) (f : File) (c : Documents.Component)
    (key : string) (urls texts : list string) :
  Unified.geminiAI (Documents.app c) = Some key ->
  length texts = length urls ->
  (forall j u t, nth_error urls j = Some u -> nth_error texts j = Some t ->
                 ocr_generateContent v j "gemini-2.5-flash"
                   "Perform OCR on this image. Extract all text accurately."
                   (Documents.base64_of u) = Normal t) ->
  (file_pages f = Normal (map Normal urls) ->
   Documents.onload v f c
   = (Documents.lift
        (fun st => Unified.setDocumentFile
                     (with_content (Unified.documentFile st) (join_pages (page_sections 1 texts)))
                     st) c,
      map (fun u => OcrRequested "gemini-2.5-flash" (Documents.base64_of u)) urls))
  /\ (forall url rest e,
        file_pages f = Normal (map Normal urls ++ Normal url :: rest) ->
        ocr_generateContent v (length urls) "gemini-2.5-flash"
          "Perform OCR on this image. Extract all text accurately."
          (Documents.base64_of url) = Throw e ->
        content (Unified.documentFile (Documents.app (fst (Documents.onload v f c))))
        = join_pages (page_sections 1 texts
                      ++ [failed_section (S (length urls)) (Documents.ocr_failure e)])
        /\ snd (Documents.onload v f c)
           = map (fun u => OcrRequested "gemini-2.5-flash" (Documents.base64_of u)) (urls ++ [url])
        /\ Unified.userGeminiApiKey (Documents.app (fst (Documents.onload v f c)))
           = (if Services.gemini_rejects_key e then EmptyString
              else Unified.userGeminiApiKey (Documents.app c))
        /\ Unified.envGeminiApiKey (Documents.app (fst (Documents.onload v f c)))
           = Unified.envGeminiApiKey (Documents.app c)).
Proof.
  intros Hkey Hlen Hocr. split.
  - intros Hpages. unfold Documents.onload. rewrite Hpages.
    rewrite <- (app_nil_r (map Normal urls)).
    rewrite (DocumentFacts.ocr_pages_answers v key c urls Hkey texts 1 [] (le_n 1) Hlen).
    2:{ intros j u t Hu Ht. apply (Hocr j u t Hu Ht). }
    cbn [Documents.ocr_pages fst snd]. rewrite !app_nil_r. reflexivity.
  - intros url rest e Hpages Hfail. unfold Documents.onload. rewrite Hpages.
    rewrite (DocumentFacts.ocr_pages_answers v key c urls Hkey texts 1 _ (le_n 1) Hlen).
    2:{ intros j u t Hu Ht. apply (Hocr j u t Hu Ht). }
    cbn [Documents.ocr_pages]. rewrite Hkey.
    replace (1 + length urls - 1) with (length urls) by lia.
    rewrite (DocumentFacts.performOcrWithGemini_failure v _ key _ e Hfail).
    cbn [fst snd]. rewrite map_app. cbn [map].
    unfold ocr_message_of. cbn [new_Error instanceof_Error message].
    unfold Documents.ocr_failure, Services.gemini_rejects_key.
    destruct (instanceof_Error e && _).
    + replace (Js.includes "API key" "The provided Gemini API key is not valid. Please check it.")
        with true by (vm_compute; reflexivity).
      repeat split.
    + replace (Js.includes "API key" "Failed to perform OCR with Gemini API.")
        with false by (vm_compute; reflexivity).
      repeat split.
Qed.

Lemma onload_reads_pages_until_failure_witness :
  let c := {| Documents.app := Unified.initial "" "" "AIza-user" "";
              Documents.isOcrProcessing := false |} in
  let c' := fst (Documents.onload Uploads.denied_at_third Uploads.scan c) in
  content (Unified.documentFile (Documents.app c'))
  = join_pages [page_section 1 "First page."; page_section 2 "Second page.";
                failed_section 3 "The provided Gemini API key is not valid. Please check it."]
  /\ length (snd (Documents.onload Uploads.denied_at_third Uploads.scan c)) = 3
  /\ Unified.userGeminiApiKey (Documents.app c') = EmptyString.
Proof.
  intros c c'.
  destruct (proj2 (onload_reads_pages_until_failure Uploads.denied_at_third Uploads.scan c
                     "AIza-user"
                     ["data:image/jpeg;base64,AAAA"; "data:image/jpeg;base64,BBBB"]
                     ["First page."; "Second page."] eq_refl eq_refl
                     ltac:(intros [|[|[|j]]] u t Hu Ht; simpl in Hu, Ht; try discriminate;
                           inversion Ht; reflexivity))
              "data:image/jpeg;base64,CCCC" []
              (new_Error "[403 Forbidden] Quota exceeded for this project.") eq_refl eq_refl)
    as (Hcontent & Hreq & Hkey & _).
  split; [exact Hcontent|]. split; [rewrite Hreq; reflexivity | exact Hkey].
Defined.

Module LoadFacts.

(** The page loop leaves the registry and the OCR flag alone. *)
Lemma ocr_pages_frame (v : Vision) (pages : list (Completion string)) :
  forall i c,
  Documents.isOcrProcessing (snd (fst (Documents.ocr_pages v i pages c)))
  = Documents.isOcrProcessing c
  /\ Unified.agents (Documents.app (snd (fst (Documents.ocr_pages v i pages c))))
     = Unified.agents (Documents.app c)
  /\ Unified.documentFile (Documents.app (snd (fst (Documents.ocr_pages v i pages c))))
     = Unified.documentFile (Documents.app c).
Proof.
  induction pages as [|[url|e] rest IH]; intros i c; cbn [Documents.ocr_pages]; auto.
  destruct (Documents.performOcrWithGemini v (i - 1) _ _) as [[t|e] requests].
  - specialize (IH (S i) c).
    destruct (Documents.ocr_pages v (S i) rest c) as [[texts c'] events]. exact IH.
  - cbn [fst snd]. destruct (Js.includes "API key" (ocr_message_of e)); auto.
Qed.

End LoadFacts.

(** X14 -- Choosing a file discards the workflow: the agents, the analysis and the
    processing flag are reset before anything is read, and the document
    takes the name of the file.  In [src/App.tsx] every file that is not a
    PDF is loaded as text, whatever its type.  The OCR flag is off again
    when the handler returns, also when it has just started the reader of a
    PDF, and the callback that does the OCR never sets it.  Closing the file
    dialog without a file changes nothing. *)
Theorem handleFileChange_discards_workflow (f : File) (c : Documents.Component) :
  let c' := fst (Documents.handleFileChange (Some f) c) in
  Unified.agents (Documents.app c') = []
  /\ Unified.analysisResult (Documents.app c') = None
  /\ Unified.isProcessing (Documents.app c') = false
  /\ Documents.isOcrProcessing c' = false
  /\ doc_name (Unified.documentFile (Documents.app c')) = file_name f
  /\ (file_type f <> "application/pdf" ->
      Unified.documentFile (Documents.app c')
      = {| doc_id := file_name f; doc_name := file_name f; doc_type := TXT;
           content := file_text f |}
      /\ snd (Documents.handleFileChange (Some f) c) = false)
  /\ (forall v, Documents.isOcrProcessing (fst (Documents.load v f c)) = false
                /\ Unified.agents (Documents.app (fst (Documents.load v f c))) = [])
  /\ Documents.handleFileChange None c = (c, false).
Proof.
  intros c'. subst c'.
  assert (Hload : forall v, Documents.isOcrProcessing (fst (Documents.load v f c)) = false
                            /\ Unified.agents (Documents.app (fst (Documents.load v f c))) = []).
  { intros v. unfold Documents.load, Documents.handleFileChange, Documents.processPdf.
    destruct (String.eqb (file_type f) "application/pdf"); [|split; reflexivity].
    destruct (negb (Unified.isGeminiKeySet _)); [split; reflexivity|].
    unfold Documents.onload. destruct (file_pages f) as [pages|e]; [|split; reflexivity].
    match goal with
    | |- context [Documents.ocr_pages v 1 pages ?c0] =>
        destruct (LoadFacts.ocr_pages_frame v pages 1 c0) as (Hflag & Hagents & _);
        destruct (Documents.ocr_pages v 1 pages c0) as [[[texts|e] c1] events]
    end; cbn [fst snd] in *; split; assumption. }
  unfold Documents.handleFileChange, Documents.processPdf.
  destruct (String.eqb_spec (file_type f) "application/pdf") as [E|E].
  - destruct (negb (Unified.isGeminiKeySet _)); repeat split; try reflexivity;
      try contradiction; apply Hload.
  - repeat split; try reflexivity; apply Hload.
Qed.

Lemma handleFileChange_discards_workflow_witness :
  let c := {| Documents.app :=
                Session.addAgents [(1%Z, Scenario.summarizer)] (Unified.initial "k" "" "" "");
              Documents.isOcrProcessing := false |} in
  Unified.agents (Documents.app c) <> []
  /\ Unified.agents (Documents.app (fst (Documents.handleFileChange (Some Uploads.readme_md) c)))
     = []
  /\ Unified.documentFile (Documents.app (fst (Documents.handleFileChange (Some Uploads.readme_md) c)))
     = {| doc_id := "README.md"; doc_name := "README.md"; doc_type := TXT; content := "# Title" |}.
Proof.
  intros c. split; [discriminate|].
  destruct (handleFileChange_discards_workflow Uploads.readme_md c)
    as (Hagents & _ & _ & _ & _ & Htxt & _).
  split; [exact Hagents|]. apply (Htxt ltac:(discriminate)).
Defined.

(** X15 -- A PDF chosen while no Gemini key is set is never read: no OCR request
    is made, the key dialog opens with its message, and the document stays
    the placeholder of type PDF whose content is the text
    [Processing PDF...]; a later run on that document sends this text to the
    provider as the document. *)
Theorem pdf_without_key_keeps_placeholder (v : Vision) (f : File) (c : Documents.Component) :
  file_type f = "application/pdf" ->
  Unified.isGeminiKeySet (Documents.app c) = false ->
  snd (Documents.load v f c) = []
  /\ Unified.documentFile (Documents.app (fst (Documents.load v f c)))
     = {| doc_id := file_name f; doc_name := file_name f; doc_type := PDF;
          content := "Processing PDF..." |}
  /\ Unified.apiKeyError (Documents.app (fst (Documents.load v f c)))
     = "A Gemini API key is required for PDF processing (OCR)."
  /\ Unified.isApiKeyModalOpen (Documents.app (fst (Documents.load v f c))) = true
  /\ (forall (w : World) (st : Unified.State) (n : nat) (p : string),
        Unified.documentFile st = Unified.documentFile (Documents.app (fst (Documents.load v f c))) ->
        nth_error (Unified.prompts (snd (Unified.runWorkflow w st))) n = Some p ->
        exists a, nth_error (Unified.agents st) n = Some a
                  /\ p = fullPrompt "Processing PDF..." (Unified.prompt a)).
Proof.
  intros Htype Hkey.
  assert (Hload : Documents.load v f c
                  = (Documents.lift
                       (fun st => Unified.setIsApiKeyModalOpen true
                                    (Unified.setApiKeyError
                                       "A Gemini API key is required for PDF processing (OCR)." st))
                       (Documents.lift
                          (Unified.setDocumentFile
                             {| doc_id := file_name f; doc_name := file_name f; doc_type := PDF;
                                content := "Processing PDF..." |})
                          (Documents.resetState c)), [])).
  { unfold Documents.load, Documents.handleFileChange, Documents.processPdf.
    rewrite Htype, String.eqb_refl.
    replace (Unified.isGeminiKeySet _) with (Unified.isGeminiKeySet (Documents.app c));
      [rewrite Hkey; reflexivity | reflexivity]. }
  rewrite Hload. cbn [fst snd]. repeat split.
  intros w st n p Hdoc H. apply UnifiedFacts.runWorkflow_prompts in H as (a & Ha & ->).
  exists a. split; [exact Ha|]. unfold Unified.prompt_for. rewrite Hdoc. reflexivity.
Qed.

Lemma pdf_without_key_keeps_placeholder_witness :
  let c := {| Documents.app := Unified.initial "" "" "" ""; Documents.isOcrProcessing := false |} in
  let loaded := Documents.app (fst (Documents.load Uploads.reading Uploads.scan c)) in
  let st := Unified.addAgent 1 Scenario.summarizer
              (Services.useEffect_keys (KeyDialog.handleSaveApiKeys "AIza-key" "" loaded)) in
  snd (Documents.load Uploads.reading Uploads.scan c) = []
  /\ Unified.prompts (snd (Unified.runWorkflow (Scenario.answering "A summary.") st))
     = [fullPrompt "Processing PDF..." "Summarize the document."]
  /\ exists a, nth_error (Unified.agents st) 0 = Some a
               /\ fullPrompt "Processing PDF..." "Summarize the document."
                  = fullPrompt "Processing PDF..." (Unified.prompt a).
Proof.
  intros c loaded st.
  destruct (pdf_without_key_keeps_placeholder Uploads.reading Uploads.scan c eq_refl eq_refl)
    as (Hreq & _ & _ & _ & Hrun).
  split; [exact Hreq|]. split; [reflexivity|].
  apply (Hrun (Scenario.answering "A summary.") st 0 _ eq_refl eq_refl).
Defined.

(** X16 -- The single-provider revision.  A file that is neither a PDF nor plain
    text empties the registry and loads nothing: the previous document
    stays.  A text file without content, or a PDF without pages, becomes the
    document, named after the file and not of type EMPTY, and yet every run
    on it is refused with the request to load a document. *)
Theorem gemini_file_that_loads_nothing (v : Vision) (f : File) (c : GeminiDocuments.Component) :
  (file_type f <> "application/pdf" -> file_type f <> "text/plain" ->
   Gemini.documentFile (GeminiDocuments.app (fst (GeminiDocuments.load v f c)))
   = Gemini.documentFile (GeminiDocuments.app c)
   /\ Gemini.agents (GeminiDocuments.app (fst (GeminiDocuments.load v f c))) = [])
  /\ ((file_type f = "text/plain" /\ file_text f = EmptyString)
      \/ (file_type f = "application/pdf" /\ file_pages f = Normal []
          /\ Gemini.isApiKeySet (GeminiDocuments.app c) = true) ->
      doc_name (Gemini.documentFile (GeminiDocuments.app (fst (GeminiDocuments.load v f c))))
      = file_name f
      /\ doc_type (Gemini.documentFile (GeminiDocuments.app (fst (GeminiDocuments.load v f c))))
         <> EMPTY
      /\ (forall (w : World) (st : Gemini.State),
            Gemini.documentFile st
            = Gemini.documentFile (GeminiDocuments.app (fst (GeminiDocuments.load v f c))) ->
            Gemini.isApiKeySet st = true ->
            Gemini.runWorkflow w st = (st, [Gemini.Alerted "Please load a document first."], None))).
Proof.
  split.
  - intros Hpdf Htxt. unfold GeminiDocuments.load, GeminiDocuments.handleFileChange.
    destruct (String.eqb_spec (file_type f) "application/pdf") as [E|_]; [contradiction|].
    destruct (String.eqb_spec (file_type f) "text/plain") as [E|_]; [contradiction|].
    split; reflexivity.
  - intros H.
    assert (Hdoc : exists t,
               Gemini.documentFile (GeminiDocuments.app (fst (GeminiDocuments.load v f c)))
               = {| doc_id := file_name f; doc_name := file_name f; doc_type := t;
                    content := EmptyString |}
               /\ t <> EMPTY).
    { unfold GeminiDocuments.load, GeminiDocuments.handleFileChange, GeminiDocuments.processPdf.
      destruct H as [[Ht Hx]|(Ht & Hp & Hk)]; rewrite Ht; cbn [String.eqb Ascii.eqb Bool.eqb].
      - exists TXT. rewrite Hx. split; [reflexivity | discriminate].
      - exists PDF.
        replace (Gemini.isApiKeySet _) with (Gemini.isApiKeySet (GeminiDocuments.app c));
          [rewrite Hk | reflexivity].
        cbn [negb]. unfold GeminiDocuments.onload. rewrite Hp. split; [reflexivity | discriminate]. }
    destruct Hdoc as (t & Hdoc & Ht). rewrite Hdoc. cbn [doc_name doc_type].
    split; [reflexivity|]. split; [exact Ht|].
    intros w st Hst Hkey. apply GeminiFacts.gemini_runWorkflow_needs_document; [exact Hkey|].
    left. rewrite Hst. reflexivity.
Qed.

Lemma gemini_file_that_loads_nothing_witness :
  let c := {| GeminiDocuments.app :=
                Gemini.setDocumentFile Scenario.report
                  (Gemini.addAgent 1 Scenario.summarizer (Gemini.initial "env-key" ""));
              GeminiDocuments.isOcrProcessing := false |} in
  let c1 := fst (GeminiDocuments.load Uploads.reading Uploads.readme_md c) in
  let c2 := fst (GeminiDocuments.load Uploads.reading Uploads.no_pages c) in
  (Gemini.documentFile (GeminiDocuments.app c1) = Scenario.report
   /\ Gemini.agents (GeminiDocuments.app c1) = [])
  /\ doc_name (Gemini.documentFile (GeminiDocuments.app c2)) = "empty.pdf"
  /\ snd (fst (Gemini.runWorkflow (Scenario.answering "ok")
                 (Gemini.addAgent 2 Scenario.summarizer (GeminiDocuments.app c2))))
     = [Gemini.Alerted "Please load a document first."].
Proof.
  intros c c1 c2.
  destruct (gemini_file_that_loads_nothing Uploads.reading Uploads.readme_md c) as [Hother _].
  destruct (gemini_file_that_loads_nothing Uploads.reading Uploads.no_pages c) as [_ Hempty].
  split; [apply Hother; discriminate|].
  destruct (Hempty (or_intror (conj eq_refl (conj eq_refl eq_refl)))) as (Hname & _ & Hrun).
  split; [exact Hname|].
  rewrite (Hrun (Scenario.answering "ok")
             (Gemini.addAgent 2 Scenario.summarizer (GeminiDocuments.app c2)) eq_refl eq_refl).
  reflexivity.
Defined.

Module HappyPath.
Import Unified UnifiedFacts.

Lemma setAgents_same (st : State) (l : list Agent) : agents st = l -> setAgents l st = st.
Proof. intros <-. destruct st; reflexivity. Qed.

(** The loop when every call is answered: each agent ends succeeded, with
    the answer to its own call and what [parseJsonOutput] reads in it. *)
Lemma run_loop_all_answered (w : World) (todo : list Agent) :
  forall i done st final st' events (outs : list string),
  NoDup (map id done ++ map id todo) ->
  agents st = done ++ map reset todo ->
  length outs = length todo ->
  (forall k a out, nth_error todo k = Some a -> nth_error outs k = Some out ->
     fst (unifiedProcessAgentPrompt w (i + k) (geminiAI st) (openai st) a (content (documentFile st)))
     = Normal out) ->
  run_loop w i todo (done ++ map reset todo) st = (final, st', events) ->
  final = done ++ map (fun ao => succeeded (snd ao) (parseJsonOutput (snd ao))
                                   (running (reset (fst ao)))) (combine todo outs)
  /\ st' = setAgents final st.
Proof.
  induction todo as [|agent rest IH]; intros i done st final st' events outs Hnd Hst Hlen Hcalls H.
  - simpl in H. inversion H; subst. simpl. rewrite app_nil_r. split; [reflexivity|].
    symmetry. apply setAgents_same. simpl in Hst. rewrite app_nil_r in Hst. exact Hst.
  - destruct outs as [|out outs]; [discriminate|]. injection Hlen as Hlen.
    simpl in H.
    destruct (unifiedProcessAgentPrompt w i (geminiAI st) (openai st) agent (content (documentFile st)))
      as [outcome requests] eqn:E.
    pose proof (Hcalls 0 agent out eq_refl eq_refl) as H0. rewrite Nat.add_0_r, E in H0.
    cbn [fst] in H0. subst outcome.
    assert (Hb : ~ In (id agent) (map id done)).
    { intros Hin. apply NoDup_app in Hnd as (_ & Hd & _). apply (Hd (id agent)).
      - apply list_elem_of_In. exact Hin.
      - simpl. left. }
    assert (Ha : ~ In (id agent) (map id (map reset rest))).
    { rewrite map_id_reset. apply NoDup_app in Hnd as (_ & _ & Hr). simpl in Hr.
      apply NoDup_cons in Hr as [Hr _]. intros Hin. apply Hr. apply list_elem_of_In. exact Hin. }
    assert (H1 : update agent running (done ++ reset agent :: map reset rest)
                 = done ++ running (reset agent) :: map reset rest).
    { apply update_here; auto. }
    assert (H2 : update agent (succeeded out (parseJsonOutput out))
                   (done ++ running (reset agent) :: map reset rest)
                 = (done ++ [succeeded out (parseJsonOutput out) (running (reset agent))])
                   ++ map reset rest).
    { rewrite update_here; auto. rewrite <- app_assoc. reflexivity. }
    simpl map in H. rewrite H1, H2 in H.
    destruct (run_loop w (S i) rest _ _) as [[final' st3] events'] eqn:ER.
    inversion H; subst. clear H.
    apply (IH _ _ _ _ _ _ outs) in ER; [ | | reflexivity | exact Hlen | ].
    + destruct ER as [Hf Hs]. split.
      * rewrite Hf, <- app_assoc. reflexivity.
      * rewrite Hs. reflexivity.
    + rewrite map_app. simpl. rewrite <- app_assoc. simpl. exact Hnd.
    + intros k a o Ha' Ho. specialize (Hcalls (S k) a o Ha' Ho).
      replace (S i + k) with (i + S k) by lia. exact Hcalls.
Qed.

End HappyPath.

Module FindFacts.

Lemma find_first {A : Type} (f : A -> bool) (l : list A) (k : nat) (x : A) :
  nth_error l k = Some x -> f x = true ->
  (forall j y, j < k -> nth_error l j = Some y -> f y = false) ->
  List.find f l = Some x.
Proof.
  revert k. induction l as [|a l IH]; intros [|k] Hk Hx Hbefore; simpl in Hk; try discriminate.
  - inversion Hk; subst. simpl. rewrite Hx. reflexivity.
  - simpl. rewrite (Hbefore 0 a (Nat.lt_0_succ k) eq_refl).
    apply (IH k Hk Hx). intros j y Hj Hy. apply (Hbefore (S j) y); [lia | exact Hy].
Qed.

Lemma find_none_all {A : Type} (f : A -> bool) (l : list A) :
  (forall y, In y l -> f y = false) -> List.find f l = None.
Proof.
  induction l as [|a l IH]; intros H; [reflexivity|]. simpl.
  rewrite (H a (or_introl eq_refl)). apply IH. intros y Hy. apply H. right. exact Hy.
Qed.

Lemma nth_error_map_combine {A B C : Type} (F : A * B -> C) (l : list A) (outs : list B) (k : nat)
    (y : C) :
  nth_error (map F (combine l outs)) k = Some y ->
  exists a o, nth_error l k = Some a /\ nth_error outs k = Some o /\ y = F (a, o).
Proof.
  revert outs k. induction l as [|a l IH]; intros [|o outs] [|k] H; simpl in H; try discriminate.
  - inversion H. exists a, o. auto.
  - apply (IH outs k H).
Qed.

Lemma nth_error_combine_map {A B C : Type} (F : A * B -> C) (l : list A) (outs : list B) (k : nat)
    (a : A) (o : B) :
  nth_error l k = Some a -> nth_error outs k = Some o ->
  nth_error (map F (combine l outs)) k = Some (F (a, o)).
Proof.
  revert outs k. induction l as [|x l IH]; intros [|y outs] [|k] Ha Ho; simpl in *; try discriminate.
  - inversion Ha; inversion Ho; subst. reflexivity.
  - apply (IH outs k Ha Ho).
Qed.

End FindFacts.

(** X17 -- When every call of a run is answered, every agent ends in Success with
    the answer to its own call as output and what [parseJsonOutput] reads
    in that answer as structured output; the run ends with the processing
    flag off and changes nothing else but the analysis, which it clears. *)
Theorem runWorkflow_attributes_outputs (w : World) (st : Unified.State) (outs : list string) :
  NoDup (map Unified.id (Unified.agents st)) ->
  Unified.missing_key st = None ->
  length outs = length (Unified.agents st) ->
  (forall k a out,
     nth_error (Unified.agents st) k = Some a -> nth_error outs k = Some out ->
     fst (Unified.unifiedProcessAgentPrompt w k (Unified.geminiAI st) (Unified.openai st) a
            (content (Unified.documentFile st))) = Normal out) ->
  fst (Unified.runWorkflow w st)
  = Unified.setIsProcessing false
      (Unified.setAgents (Session.answered (Unified.agents st) outs)
         (Unified.setAnalysisResult None st))
  /\ (forall k a out,
        nth_error (Unified.agents st) k = Some a -> nth_error outs k = Some out ->
        nth_error (Unified.agents (fst (Unified.runWorkflow w st))) k
        = Some {| Unified.id := Unified.id a; Unified.name := Unified.name a;
                  Unified.prompt := Unified.prompt a; Unified.model := Unified.model a;
                  Unified.status := Success; Unified.output := Some out;
                  Unified.error := None;
                  Unified.outputJson := Unified.parseJsonOutput out |}).
Proof.
  intros Hnd Hmk Hlen Hcalls.
  assert (Hrun : fst (Unified.runWorkflow w st)
                 = Unified.setIsProcessing false
                     (Unified.setAgents (Session.answered (Unified.agents st) outs)
                        (Unified.setAnalysisResult None st))).
  { unfold Unified.runWorkflow. rewrite Hmk.
    destruct (Unified.run_loop w 0 (Unified.agents st) _ _) as [[final st3] events] eqn:ER.
    apply (HappyPath.run_loop_all_answered w (Unified.agents st) 0 [] _ _ _ _ outs) in ER;
      [ | exact Hnd | reflexivity | exact Hlen | exact Hcalls].
    destruct ER as [-> ->]. reflexivity. }
  split; [exact Hrun|].
  intros k a out Ha Ho. rewrite Hrun. cbn [Unified.agents Unified.setIsProcessing Unified.setAgents].
  unfold Session.answered.
  rewrite (FindFacts.nth_error_combine_map _ _ _ k a out Ha Ho). reflexivity.
Qed.

Lemma runWorkflow_attributes_outputs_witness :
  let st :=
    Unified.setDocumentFile Scenario.report
      (Session.addAgents [(1%Z, Scenario.summarizer); (2%Z, Scenario.sentiment_analyzer)]
         (Unified.initial "env-gemini-key" "" "" "")) in
  let answer :=
    RegExp.fenced (JSON.stringify (JSON.JObject [("sentiment", JSON.JString "Positive")])) in
  map Unified.outputJson (Unified.agents (fst (Unified.runWorkflow (Scenario.answering answer) st)))
  = [JSON.JObject [("sentiment", JSON.JString "Positive")];
     JSON.JObject [("sentiment", JSON.JString "Positive")]]
  /\ Unified.isProcessing (fst (Unified.runWorkflow (Scenario.answering answer) st)) = false.
Proof.
  intros st answer.
  assert (Hnd : NoDup (map Unified.id (Unified.agents st))).
  { apply NoDup_ListNoDup. repeat constructor; simpl; intuition discriminate. }
  destruct (runWorkflow_attributes_outputs (Scenario.answering answer) st [answer; answer]
              Hnd eq_refl eq_refl) as [Hrun _].
  - intros [|[|[|k]]] a out Ha Ho; simpl in Ha, Ho; try discriminate;
      inversion Ha; inversion Ho; subst; reflexivity.
  - rewrite Hrun. split; reflexivity.
Defined.

Module AnalyzedRun.
Import Unified Session.

Lemma runWorkflow_analyzed_all_answered (w : World) (st : State) (outs : list string) :
  NoDup (map id (agents st)) ->
  missing_key st = None ->
  length outs = length (agents st) ->
  (forall k a out,
     nth_error (agents st) k = Some a -> nth_error outs k = Some out ->
     fst (unifiedProcessAgentPrompt w k (geminiAI st) (openai st) a (content (documentFile st)))
     = Normal out) ->
  exists events,
    runWorkflow_analyzed w st
    = match analyzeResults (answered (agents st) outs)
              (setAgents (answered (agents st) outs)
                 (setAnalysisResult None (setIsProcessing true st))) with
      | Normal st4 => (setIsProcessing false st4, events, None)
      | Throw e => (setAgents (answered (agents st) outs)
                      (setAnalysisResult None (setIsProcessing true st)), events, Some e)
      end.
Proof.
  intros Hnd Hmk Hlen Hcalls. unfold runWorkflow_analyzed. rewrite Hmk.
  destruct (run_loop w 0 (agents st) _ _) as [[final st3] events] eqn:ER.
  apply (HappyPath.run_loop_all_answered w (agents st) 0 [] _ _ _ _ outs) in ER;
    [ | exact Hnd | reflexivity | exact Hlen | exact Hcalls].
  destruct ER as [-> ->]. eexists. reflexivity.
Qed.

Lemma find_sentiment_agent (agents0 : list Agent) (outs : list string) (k : nat) (a : Agent)
    (out : string) :
  nth_error agents0 k = Some a -> nth_error outs k = Some out ->
  name a = "Sentiment Analyzer" ->
  (forall j b, j < k -> nth_error agents0 j = Some b -> name b <> "Sentiment Analyzer") ->
  List.find sentiment_role (answered agents0 outs)
  = Some (succeeded out (parseJsonOutput out) (running (reset a))).
Proof.
  intros Ha Ho Hname Hfirst. unfold answered.
  apply (FindFacts.find_first _ _ k).
  - exact (FindFacts.nth_error_combine_map
             (fun ao => succeeded (snd ao) (parseJsonOutput (snd ao)) (running (reset (fst ao))))
             _ _ k a out Ha Ho).
  - unfold sentiment_role. cbn [name succeeded running reset status]. rewrite Hname. reflexivity.
  - intros j y Hj Hy. apply FindFacts.nth_error_map_combine in Hy as (b & o & Hb & _ & ->).
    unfold sentiment_role. cbn [fst snd name succeeded running reset].
    destruct (String.eqb_spec (name b) "Sentiment Analyzer") as [E|]; [|reflexivity].
    exfalso. exact (Hfirst j b Hj Hb E).
Qed.

Lemma find_no_entity_agent (agents0 : list Agent) (outs : list string) :
  (forall b, In b agents0 -> name b <> "Entity Extractor") ->
  List.find entity_role (answered agents0 outs) = None.
Proof.
  intros H. apply FindFacts.find_none_all. intros y Hy. unfold answered in Hy.
  apply in_map_iff in Hy as ([b o] & <- & Hin). apply in_combine_l in Hin.
  unfold entity_role. cbn [fst snd name succeeded running reset].
  destruct (String.eqb_spec (name b) "Entity Extractor") as [E|]; [|reflexivity].
  exfalso. exact (H b Hin E).
Qed.

(** A sentiment that is truthy and no string has no [toLowerCase]. *)
Lemma sentiment_of_not_a_string (ps : list (string * JSON.value)) (x : JSON.value) :
  JSON.lookup "sentiment" ps = Some x -> JSON.truthy x = true ->
  (forall s, x <> JSON.JString s) ->
  sentiment_of (Some (JSON.JObject ps)) = Throw TypeError.
Proof.
  intros Hl Ht Hs. unfold sentiment_of. cbn [JSON.get]. rewrite Hl.
  cbn [JSON.truthy_opt]. rewrite Ht. destruct x; try reflexivity. exfalso. apply (Hs s eq_refl).
Qed.

End AnalyzedRun.

(** X18 -- In the revision with the dashboard, a run in which every call is
    answered ends with the histogram on the dashboard when the first agent
    named Sentiment Analyzer answers with an object whose sentiment is a
    non-empty string (and no agent is an Entity Extractor): the analysis
    holds the one bucket of that label, the dashboard tab is selected and
    the processing flag is off. *)
Theorem sentiment_answer_reaches_dashboard (w : World) (st : Unified.State) (outs : list string)
    (k : nat) (a : Unified.Agent) (out label : string) (ps : list (string * JSON.value)) :
  NoDup (map Unified.id (Unified.agents st)) ->
  Unified.missing_key st = None ->
  length outs = length (Unified.agents st) ->
  (forall j b o,
     nth_error (Unified.agents st) j = Some b -> nth_error outs j = Some o ->
     fst (Unified.unifiedProcessAgentPrompt w j (Unified.geminiAI st) (Unified.openai st) b
            (content (Unified.documentFile st))) = Normal o) ->
  nth_error (Unified.agents st) k = Some a -> nth_error outs k = Some out ->
  Unified.name a = "Sentiment Analyzer" ->
  (forall j b, j < k -> nth_error (Unified.agents st) j = Some b ->
               Unified.name b <> "Sentiment Analyzer") ->
  (forall b, In b (Unified.agents st) -> Unified.name b <> "Entity Extractor") ->
  Unified.parseJsonOutput out = JSON.JObject ps ->
  JSON.lookup "sentiment" ps = Some (JSON.JString label) ->
  label <> EmptyString ->
  exists h,
    Unified.analysisResult (fst (fst (Unified.runWorkflow_analyzed w st)))
    = Some {| sentiment := Some h; entities := None |}
    /\ Unified.activeTab (fst (fst (Unified.runWorkflow_analyzed w st))) = "dashboard"
    /\ Unified.isProcessing (fst (fst (Unified.runWorkflow_analyzed w st))) = false
    /\ snd (Unified.runWorkflow_analyzed w st) = None
    /\ (Js.toLowerCase label = "positive" -> h = {| positive := 1; negative := 0; neutral := 0 |})
    /\ (Js.toLowerCase label = "negative" -> h = {| positive := 0; negative := 1; neutral := 0 |})
    /\ (Js.toLowerCase label <> "positive" -> Js.toLowerCase label <> "negative" ->
        h = {| positive := 0; negative := 0; neutral := 1 |}).
Proof.
  intros Hnd Hmk Hlen Hcalls Ha Ho Hname Hfirst Hnoent Hjson Hlabel Hne.
  destruct (AnalyzedRun.runWorkflow_analyzed_all_answered w st outs Hnd Hmk Hlen Hcalls)
    as [events Hrun].
  assert (Ht : Js.truthy label = true) by (destruct label; [congruence | reflexivity]).
  destruct (AnalysisFacts.sentiment_of_label ps label Hlabel Ht) as (h & Hs & Hp & Hn & Hz & _).
  exists h. rewrite Hrun. unfold Unified.analyzeResults.
  rewrite (AnalyzedRun.find_sentiment_agent _ _ k a out Ha Ho Hname Hfirst).
  rewrite (AnalyzedRun.find_no_entity_agent _ _ Hnoent).
  cbn [option_map Unified.outputJson Unified.succeeded]. rewrite Hjson, Hs.
  cbn [entities_of has_data sentiment entities fst snd
       Unified.setIsProcessing Unified.setActiveTab Unified.setAnalysisResult
       Unified.analysisResult Unified.activeTab Unified.isProcessing].
  repeat split; assumption.
Qed.

Lemma sentiment_answer_reaches_dashboard_witness :
  let st :=
    Unified.setDocumentFile Scenario.report
      (Session.addAgents [(1%Z, Scenario.summarizer); (2%Z, Scenario.sentiment_analyzer)]
         (Unified.initial "env-gemini-key" "" "" "")) in
  let answer :=
    RegExp.fenced (JSON.stringify (JSON.JObject [("sentiment", JSON.JString "NEGATIVE")])) in
  Unified.analysisResult (fst (fst (Unified.runWorkflow_analyzed (Scenario.answering answer) st)))
  = Some {| sentiment := Some {| positive := 0; negative := 1; neutral := 0 |};
            entities := None |}.
Proof.
  intros st answer.
  assert (Hnd : NoDup (map Unified.id (Unified.agents st))).
  { apply NoDup_ListNoDup. repeat constructor; simpl; intuition discriminate. }
  assert (Hcalls : forall j b o,
             nth_error (Unified.agents st) j = Some b -> nth_error [answer; answer] j = Some o ->
             fst (Unified.unifiedProcessAgentPrompt (Scenario.answering answer) j
                    (Unified.geminiAI st) (Unified.openai st) b
                    (content (Unified.documentFile st))) = Normal o).
  { intros [|[|[|j]]] b o Hb Hob; simpl in Hb, Hob; try discriminate;
      inversion Hb; inversion Hob; subst; reflexivity. }
  assert (Hfirst : forall j b, j < 1 -> nth_error (Unified.agents st) j = Some b ->
                               Unified.name b <> "Sentiment Analyzer").
  { intros [|[|j]] b Hj Hb; simpl in Hb; try lia. inversion Hb. discriminate. }
  assert (Hnoent : forall b, In b (Unified.agents st) -> Unified.name b <> "Entity Extractor").
  { intros b [<-|[<-|[]]]; discriminate. }
  destruct (sentiment_answer_reaches_dashboard (Scenario.answering answer) st [answer; answer] 1
              {| Unified.id := "agent-2"; Unified.name := "Sentiment Analyzer";
                 Unified.prompt := "Return the sentiment of the document as JSON.";
                 Unified.model := Unified.default_model; Unified.status := Pending;
                 Unified.output := None; Unified.error := None;
                 Unified.outputJson := JSON.JNull |}
              answer "NEGATIVE" [("sentiment", JSON.JString "NEGATIVE")]
              Hnd eq_refl eq_refl Hcalls eq_refl eq_refl eq_refl Hfirst Hnoent eq_refl eq_refl
              ltac:(discriminate))
    as (h & Hres & _ & _ & _ & _ & Hneg & _).
  rewrite Hres, (Hneg eq_refl). reflexivity.
Defined.

(** X19 -- In the revision with the dashboard, a run in which every call is
    answered never finishes when the analysis throws: if the first agent
    named Sentiment Analyzer answers with an object whose sentiment is
    truthy and not a string (a number, [true], an object, an array), the
    call of [toLowerCase] throws a TypeError out of [runWorkflow] before the
    processing flag is cleared; every agent shows Success, no analysis is
    published, and the flag stays on. *)
Theorem malformed_sentiment_freezes_run (w : World) (st : Unified.State) (outs : list string)
    (k : nat) (a : Unified.Agent) (out : string) (ps : list (string * JSON.value))
    (x : JSON.value) :
  NoDup (map Unified.id (Unified.agents st)) ->
  Unified.missing_key st = None ->
  length outs = length (Unified.agents st) ->
  (forall j b o,
     nth_error (Unified.agents st) j = Some b -> nth_error outs j = Some o ->
     fst (Unified.unifiedProcessAgentPrompt w j (Unified.geminiAI st) (Unified.openai st) b
            (content (Unified.documentFile st))) = Normal o) ->
  nth_error (Unified.agents st) k = Some a -> nth_error outs k = Some out ->
  Unified.name a = "Sentiment Analyzer" ->
  (forall j b, j < k -> nth_error (Unified.agents st) j = Some b ->
               Unified.name b <> "Sentiment Analyzer") ->
  Unified.parseJsonOutput out = JSON.JObject ps ->
  JSON.lookup "sentiment" ps = Some x ->
  JSON.truthy x = true ->
  (forall s, x <> JSON.JString s) ->
  snd (Unified.runWorkflow_analyzed w st) = Some TypeError
  /\ Unified.isProcessing (fst (fst (Unified.runWorkflow_analyzed w st))) = true
  /\ Unified.analysisResult (fst (fst (Unified.runWorkflow_analyzed w st))) = None
  /\ Forall (fun b => Unified.status b = Success)
       (Unified.agents (fst (fst (Unified.runWorkflow_analyzed w st)))).
Proof.
  intros Hnd Hmk Hlen Hcalls Ha Ho Hname Hfirst Hjson Hlookup Htruthy Hnostr.
  destruct (AnalyzedRun.runWorkflow_analyzed_all_answered w st outs Hnd Hmk Hlen Hcalls)
    as [events Hrun].
  rewrite Hrun. unfold Unified.analyzeResults.
  rewrite (AnalyzedRun.find_sentiment_agent _ _ k a out Ha Ho Hname Hfirst).
  cbn [option_map Unified.outputJson Unified.succeeded]. rewrite Hjson.
  rewrite (AnalyzedRun.sentiment_of_not_a_string ps x Hlookup Htruthy Hnostr).
  cbn [fst snd Unified.setAgents Unified.setAnalysisResult Unified.setIsProcessing
       Unified.isProcessing Unified.analysisResult Unified.agents].
  repeat split. unfold Session.answered. apply List.Forall_forall. intros b Hb.
  apply in_map_iff in Hb as (ao & <- & _). reflexivity.
Qed.

Lemma malformed_sentiment_freezes_run_witness :
  let st :=
    Unified.setDocumentFile Scenario.report
      (Session.addAgents [(1%Z, Scenario.sentiment_analyzer)]
         (Unified.initial "env-gemini-key" "" "" "")) in
  let answer :=
    JSON.stringify
      (JSON.JObject [("sentiment", JSON.JObject [("label", JSON.JString "positive");
                                                  ("score", JSON.JNumber "0.9")])]) in
  snd (Unified.runWorkflow_analyzed (Scenario.answering answer) st) = Some TypeError
  /\ Unified.isProcessing (fst (fst (Unified.runWorkflow_analyzed (Scenario.answering answer) st)))
     = true.
Proof.
  intros st answer.
  assert (Hnd : NoDup (map Unified.id (Unified.agents st))).
  { apply NoDup_ListNoDup. repeat constructor; simpl; intuition discriminate. }
  assert (Hcalls : forall j b o,
             nth_error (Unified.agents st) j = Some b -> nth_error [answer] j = Some o ->
             fst (Unified.unifiedProcessAgentPrompt (Scenario.answering answer) j
                    (Unified.geminiAI st) (Unified.openai st) b
                    (content (Unified.documentFile st))) = Normal o).
  { intros [|[|j]] b o Hb Hob; simpl in Hb, Hob; try discriminate;
      inversion Hb; inversion Hob; subst; reflexivity. }
  assert (Hfirst : forall j b, j < 0 -> nth_error (Unified.agents st) j = Some b ->
                               Unified.name b <> "Sentiment Analyzer").
  { intros j b Hj. lia. }
  destruct (malformed_sentiment_freezes_run (Scenario.answering answer) st [answer] 0
              {| Unified.id := "agent-1"; Unified.name := "Sentiment Analyzer";
                 Unified.prompt := "Return the sentiment of the document as JSON.";
                 Unified.model := Unified.default_model; Unified.status := Pending;
                 Unified.output := None; Unified.error := None;
                 Unified.outputJson := JSON.JNull |}
              answer
              [("sentiment", JSON.JObject [("label", JSON.JString "positive");
                                           ("score", JSON.JNumber "0.9")])]
              (JSON.JObject [("label", JSON.JString "positive"); ("score", JSON.JNumber "0.9")])
              Hnd eq_refl eq_refl Hcalls eq_refl eq_refl eq_refl Hfirst eq_refl eq_refl eq_refl
              ltac:(discriminate))
    as (Hthrown & Hflag & _).
  split; [exact Hthrown | exact Hflag].
Defined.

Module EntityFacts.

Lemma filter_entities_filter (l : list JSON.value) :
  ~ In JSON.JNull l -> filter_entities l = Normal (List.filter is_entity l).
Proof.
  induction l as [|e l IH]; intros H; [reflexivity|].
  assert (He : e <> JSON.JNull) by (intros ->; apply H; left; reflexivity).
  assert (Hl : ~ In JSON.JNull l) by (intros Hin; apply H; right; exact Hin).
  cbn [filter_entities List.filter]. rewrite (IH Hl). unfold is_entity.
  destruct e; try congruence;
    destruct (JSON.truthy_opt (JSON.get _ "name") && JSON.truthy_opt (JSON.get _ "type"));
    reflexivity.
Qed.

Lemma filter_entities_null (l : list JSON.value) :
  In JSON.JNull l -> filter_entities l = Throw TypeError.
Proof.
  induction l as [|e l IH]; intros H; [destruct H|].
  destruct H as [->|H]; [reflexivity|].
  cbn [filter_entities]. rewrite (IH H). destruct e; reflexivity.
Qed.

End EntityFacts.

(** X20 -- [analyzeResults] reads the entities from the first successful agent
    named Entity Extractor whose structured output is an array: it keeps, in
    order, the elements with a truthy [name] and a truthy [type].  Without a
    sentiment, the analysis is published and the dashboard selected only
    when an entity is kept; an array without one changes nothing.  An
    element that is [null] makes the filter throw. *)
Theorem analyzeResults_entities (l : list JSON.value) :
  (forall (agents : list Gemini.Agent) (st : Gemini.State) (a : Gemini.Agent),
     List.find Gemini.sentiment_role agents = None ->
     List.find Gemini.entity_role agents = Some a ->
     Gemini.outputJson a = JSON.JArray l ->
     (~ In JSON.JNull l ->
      Gemini.analyzeResults agents st
      = match List.filter is_entity l with
        | [] => Normal st
        | kept =>
            Normal (Gemini.setActiveTab "dashboard"
                      (Gemini.setAnalysisResult
                         (Some {| sentiment := None; entities := Some kept |}) st))
        end)
     /\ (In JSON.JNull l -> Gemini.analyzeResults agents st = Throw TypeError))
  /\ (forall (agents : list Unified.Agent) (st : Unified.State) (a : Unified.Agent),
        List.find Unified.sentiment_role agents = None ->
        List.find Unified.entity_role agents = Some a ->
        Unified.outputJson a = JSON.JArray l ->
        (~ In JSON.JNull l ->
         Unified.analyzeResults agents st
         = match List.filter is_entity l with
           | [] => Normal st
           | kept =>
               Normal (Unified.setActiveTab "dashboard"
                         (Unified.setAnalysisResult
                            (Some {| sentiment := None; entities := Some kept |}) st))
           end)
        /\ (In JSON.JNull l -> Unified.analyzeResults agents st = Throw TypeError)).
Proof.
  split; intros agents st a Hs He Hj; split; intros Hl.
  - unfold Gemini.analyzeResults. rewrite Hs, He. cbn [option_map sentiment_of entities_of].
    rewrite Hj, (EntityFacts.filter_entities_filter l Hl).
    destruct (List.filter is_entity l); reflexivity.
  - unfold Gemini.analyzeResults. rewrite Hs, He. cbn [option_map sentiment_of entities_of].
    rewrite Hj, (EntityFacts.filter_entities_null l Hl). reflexivity.
  - unfold Unified.analyzeResults. rewrite Hs, He. cbn [option_map sentiment_of entities_of].
    rewrite Hj, (EntityFacts.filter_entities_filter l Hl).
    destruct (List.filter is_entity l); reflexivity.
  - unfold Unified.analyzeResults. rewrite Hs, He. cbn [option_map sentiment_of entities_of].
    rewrite Hj, (EntityFacts.filter_entities_null l Hl). reflexivity.
Qed.

Lemma analyzeResults_entities_witness :
  let person := JSON.JObject [("name", JSON.JString "Ada"); ("type", JSON.JString "PERSON")] in
  let nameless := JSON.JObject [("name", JSON.JString ""); ("type", JSON.JString "ORG")] in
  let extractor (json : JSON.value) : Gemini.Agent :=
    {| Gemini.id := "agent-1"; Gemini.name := "Entity Extractor";
       Gemini.prompt := "List the entities."; Gemini.status := Success;
       Gemini.output := Some "text"; Gemini.error := None; Gemini.outputJson := json |} in
  let st := Gemini.initial "key" "" in
  option_map entities
    (match Gemini.analyzeResults [extractor (JSON.JArray [nameless; person; JSON.JNumber "7"])] st
     with Normal st' => Gemini.analysisResult st' | Throw _ => None end)
  = Some (Some [person])
  /\ Gemini.analyzeResults [extractor (JSON.JArray [nameless])] st = Normal st
  /\ Gemini.analyzeResults [extractor (JSON.JArray [person; JSON.JNull])] st = Throw TypeError.
Proof.
  intros person nameless extractor st.
  split; [|split].
  - rewrite (proj1 (proj1 (analyzeResults_entities [nameless; person; JSON.JNumber "7"])
                      [extractor (JSON.JArray [nameless; person; JSON.JNumber "7"])] st _
                      eq_refl eq_refl eq_refl)).
    + reflexivity.
    + simpl. intuition discriminate.
  - rewrite (proj1 (proj1 (analyzeResults_entities [nameless])
                      [extractor (JSON.JArray [nameless])] st _ eq_refl eq_refl eq_refl)).
    + reflexivity.
    + simpl. intuition discriminate.
  - apply (proj2 (proj1 (analyzeResults_entities [person; JSON.JNull])
                    [extractor (JSON.JArray [person; JSON.JNull])] st _ eq_refl eq_refl eq_refl)).
    right. left. reflexivity.
Defined.

Module NotesFacts.
Import Notes.

(** A replacement without dollar sign is inserted as it is. *)
Lemma substitute_plain (m b a r : string) :
  Js.avoids "$" r = true -> substitute m b a r = r.
Proof.
  induction r as [|c r IH]; intros H; [reflexivity|].
  cbn [Js.avoids] in H. apply andb_prop in H as [Hc Hr]. apply negb_true_iff in Hc.
  cbn [substitute]. rewrite Hc, (IH Hr). reflexivity.
Qed.

Lemma avoids_coloredText (color text : string) :
  Js.avoids "$" color = true -> Js.avoids "$" text = true ->
  Js.avoids "$" (coloredText color text) = true.
Proof.
  intros Hc Ht. unfold coloredText.
  rewrite !JsFacts.avoids_append, Hc, Ht. reflexivity.
Qed.

Lemma substitute_app_plain (m b a r1 r2 : string) :
  Js.avoids "$" r1 = true -> substitute m b a (r1 +:+ r2) = r1 +:+ substitute m b a r2.
Proof.
  induction r1 as [|c r1 IH]; intros H; [reflexivity|].
  cbn [Js.avoids] in H. apply andb_prop in H as [Hc Hr]. apply negb_true_iff in Hc.
  change (String c r1 +:+ r2) with (String c (r1 +:+ r2)).
  cbn [substitute]. rewrite Hc, (IH Hr). reflexivity.
Qed.

End NotesFacts.

(** X21 -- [applyColor] wraps the first occurrence of the text in the notes in a
    coloured span and empties the text field; the other occurrences stay as
    they are; when the text does not occur, the notes stay and the field is
    emptied all the same; a blank text does nothing.  The replacement is
    read by [replace] as a pattern: a text with [$$] is shown in the span
    with a single dollar sign. *)
Theorem applyColor_wraps_first_occurrence (notes text color : string) :
  Whitespace.blank text = false ->
  Js.avoids "$" color = true ->
  (Js.includes text notes = false -> Notes.applyColor notes text color = (notes, EmptyString))
  /\ (forall before after,
        Js.split_at_first text notes = Some (before, after) ->
        notes = before +:+ text +:+ after
        /\ (forall b1 b2, before = b1 +:+ b2 -> b2 <> EmptyString ->
                          Js.startsWith text (b2 +:+ text +:+ after) = false)
        /\ (Js.avoids "$" text = true ->
            Notes.applyColor notes text color
            = (before +:+ Notes.coloredText color text +:+ after, EmptyString))
        /\ (forall pre post,
              text = pre +:+ "$$" +:+ post ->
              Js.avoids "$" pre = true -> Js.avoids "$" post = true ->
              Notes.applyColor notes text color
              = (before +:+ Notes.coloredText color (pre +:+ "$" +:+ post) +:+ after,
                 EmptyString)))
  /\ (forall blank_text, Whitespace.blank blank_text = true ->
                         Notes.applyColor notes blank_text color = (notes, blank_text)).
Proof.
  intros Hblank Hcolor.
  assert (Htrim : Js.truthy (Whitespace.trim text) = true).
  { destruct (Whitespace.trim text) eqn:E; [|reflexivity].
    apply WhitespaceFacts.trim_blank in E. congruence. }
  split; [|split].
  - intros Hno. unfold Notes.applyColor, Notes.replace. rewrite Htrim. cbn [negb].
    rewrite (JsFacts.split_at_first_none _ _ Hno). reflexivity.
  - intros before after Hsplit.
    destruct (JsFacts.split_at_first_occurrence _ _ _ _ Hsplit) as [Hs Hfirst].
    split; [exact Hs|]. split; [exact Hfirst|]. split.
    + intros Htext. unfold Notes.applyColor, Notes.replace. rewrite Htrim, Hsplit. cbn [negb].
      rewrite (NotesFacts.substitute_plain _ _ _ _ (NotesFacts.avoids_coloredText _ _ Hcolor Htext)).
      reflexivity.
    + intros pre post Htext Hpre Hpost. unfold Notes.applyColor, Notes.replace.
      rewrite Htrim, Hsplit. cbn [negb]. f_equal. f_equal. f_equal.
      rewrite Htext. unfold Notes.coloredText.
      rewrite (NotesFacts.substitute_app_plain _ _ _ "<span style=" _ eq_refl).
      rewrite (NotesFacts.substitute_app_plain _ _ _ (String JSON.dquote "color: ") _ eq_refl).
      rewrite (NotesFacts.substitute_app_plain _ _ _ color _ Hcolor).
      rewrite (NotesFacts.substitute_app_plain _ _ _ "; font-weight: 600;" _ eq_refl).
      rewrite (NotesFacts.substitute_app_plain _ _ _ (String JSON.dquote ">") _ eq_refl).
      rewrite !JsFacts.append_assoc.
      rewrite (NotesFacts.substitute_app_plain _ _ _ pre _ Hpre).
      change ("$$" +:+ post +:+ "</span>") with (String "$" (String "$" (post +:+ "</span>"))).
      cbn [Notes.substitute Ascii.eqb Bool.eqb].
      rewrite NotesFacts.substitute_plain;
        [reflexivity | rewrite JsFacts.avoids_append, Hpost; reflexivity].
  - intros t Ht. unfold Notes.applyColor.
    apply WhitespaceFacts.trim_blank in Ht. rewrite Ht. reflexivity.
Qed.

Lemma applyColor_wraps_first_occurrence_witness :
  Notes.applyColor "Costs rose. Costs fell." "Costs" "#E91E63"
  = ("<span style=" +:+ String JSON.dquote "color: #E91E63; font-weight: 600;"
       +:+ String JSON.dquote ">Costs</span> rose. Costs fell.", EmptyString)
  /\ Notes.applyColor "Costs rose." "Prices" "#E91E63" = ("Costs rose.", EmptyString)
  /\ fst (Notes.applyColor "Fee: US$$ 5" "US$$" "#000000")
     = "Fee: " +:+ Notes.coloredText "#000000" "US$" +:+ " 5".
Proof.
  destruct (applyColor_wraps_first_occurrence "Costs rose. Costs fell." "Costs" "#E91E63"
              eq_refl eq_refl) as (_ & Hfound & _).
  destruct (Hfound "" " rose. Costs fell." eq_refl) as (_ & _ & Hplain & _).
  destruct (applyColor_wraps_first_occurrence "Costs rose." "Prices" "#E91E63" eq_refl eq_refl)
    as (Habsent & _).
  destruct (applyColor_wraps_first_occurrence "Fee: US$$ 5" "US$$" "#000000" eq_refl eq_refl)
    as (_ & Hdollar & _).
  destruct (Hdollar "Fee: " " 5" eq_refl) as (_ & _ & _ & Hd).
  split; [exact (Hplain eq_refl)|]. split; [exact (Habsent eq_refl)|].
  rewrite (Hd "US" "" eq_refl eq_refl eq_refl). reflexivity.
Defined.
